(** * Hunt: the combat simulation of [src/App.jsx]

    A shallow embedding of the per-frame simulation of the spear-hunting
    game: the [ThrownSpear] and [Animal] frame callbacks, the handlers and
    the pose effect of [App], and the way React hands them their state.

    Conventions of the embedding.

    - JavaScript numbers that carry positions, velocities, speeds, weights
      and the frame time [delta] are rationals ([Q]); the ones that carry
      ids, health, score and [Date.now()] milliseconds are integers ([Z]).
      The id counters of a session stay far below 2^53, where [x++] is exact.
    - A three-element array [[x, y, z]] is a [Vec3]; [p[i]] is [c0], [c1],
      [c2].
    - A component reads the state of its last render: inside one frame
      callback [health], [isAlive], [isActive], ... are constants, and every
      [setX(...)] call only queues an update.  A frame callback therefore
      returns the list of the calls it makes, in program order, and
      [commit] applies that list to obtain the state of the next render.
      All frame callbacks of one animation frame run on the same render;
      React renders again between two frames.
    - A [ref] on a group is attached while the component renders the group
      and is [null] while the component renders [null].
    - A handler of [App] closes over the constants of the render that
      created it: a function handed to [setTimeout] still reads those
      constants when it fires, whatever the state has become by then.  This
      is the [Closure] a deferred callback carries.
    - [Math.sqrt(s) < 3.0] is written [s < 9]; the two agree on every
      non-negative [s]. *)

From Stdlib Require Import QArith ZArith List Bool String Sorted Lia Lqa.
Import ListNotations.

Set Implicit Arguments.

(** ** Numbers and vectors *)

Definition Qleb (a b : Q) : bool := Qle_bool a b.
Definition Qltb (a b : Q) : bool := negb (Qle_bool b a).

Record Vec3 : Type := mkVec3 { c0 : Q; c1 : Q; c2 : Q }.

Definition setC1 (p : Vec3) (v : Q) : Vec3 := mkVec3 (c0 p) v (c2 p).
Definition setC2 (p : Vec3) (v : Q) : Vec3 := mkVec3 (c0 p) (c1 p) v.

(** ** The thrown spear *)

Module ThrownSpear.

(** The hook state of one [ThrownSpear] component. *)
Record State : Type := mkState {
  position : Vec3;
  velocity : Vec3;
  isActive : bool;
  hasTriggeredMiss : bool;
  hasHitAnimal : bool
}.

(** The calls a frame callback can make.  [SetHasHitAnimal] is the setter
    the component publishes on [spearData]; [Animal] calls it. *)
Inductive Effect : Type :=
| SetIsActive (b : bool)
| SetHasTriggeredMiss (b : bool)
| SetHasHitAnimal (b : bool)
| OnMiss (spearId : Z)
| SetVelocity (v : Vec3)
| SetPosition (p : Vec3).

Definition gravity : Q := 98 # 10.
Definition backboardZ : Q := - (299 # 10).
Definition groundY : Q := - (325 # 100).

(** [useState(spearData.position)], [useState(spearData.velocity)],
    [useState(true)], [useState(false)], [useState(false)]. *)
Definition initial (pos vel : Vec3) : State :=
  mkState pos vel true false false.

(** The test of the render guard and of the third branch of the frame
    callback: [p[2] < -35 || p[0] < -15 || p[0] > 15]. *)
Definition outOfBounds (p : Vec3) : bool :=
  Qltb (c2 p) (-35) || Qltb (c0 p) (-15) || Qltb 15 (c0 p).

(** The component returns [null] when its position is out of bounds, and
    React then detaches [meshRef]; otherwise the group is mounted. *)
Definition meshRef (st : State) : bool := negb (outOfBounds (position st)).

Definition hitsBackboard (p : Vec3) : bool :=
  Qleb (c2 p) backboardZ
  && Qleb (-5) (c0 p) && Qleb (c0 p) 5
  && Qleb (-5) (c1 p) && Qleb (c1 p) 3.

Definition hitsGround (p : Vec3) : bool := Qleb (c1 p) groundY.

(** [if (!hasTriggeredMiss && !hasHitAnimal && onMiss) { ... }]; [Scene]
    always passes a handler as [onMiss]. *)
Definition reportMiss (spearId : Z) (st : State) : list Effect :=
  if negb (hasTriggeredMiss st) && negb (hasHitAnimal st)
  then [SetHasTriggeredMiss true; OnMiss spearId]
  else [].

Definition applyGravity (v : Vec3) (delta : Q) : Vec3 :=
  mkVec3 (c0 v) (c1 v - gravity * delta) (c2 v).

Definition advance (p v : Vec3) (delta : Q) : Vec3 :=
  mkVec3 (c0 p + c0 v * delta) (c1 p + c1 v * delta) (c2 p + c2 v * delta).

(** The callback given to [useFrame]. *)
Definition useFrame (spearId : Z) (isPaused : bool) (st : State) (delta : Q)
  : list Effect :=
  if negb (meshRef st) || negb (isActive st) || isPaused then []
  else
    let newVelocity := applyGravity (velocity st) delta in
    let newPosition := advance (position st) newVelocity delta in
    if hitsBackboard newPosition then
      let newPosition := setC2 newPosition backboardZ in
      SetIsActive false :: reportMiss spearId st
        ++ [SetVelocity newVelocity; SetPosition newPosition]
    else if hitsGround newPosition then
      let newPosition := setC1 newPosition groundY in
      SetIsActive false :: reportMiss spearId st
        ++ [SetVelocity newVelocity; SetPosition newPosition]
    else if outOfBounds newPosition then
      reportMiss spearId st
        ++ [SetVelocity newVelocity; SetPosition newPosition]
    else
      [SetVelocity newVelocity; SetPosition newPosition].

Definition apply (st : State) (e : Effect) : State :=
  match e with
  | SetIsActive b =>
      mkState (position st) (velocity st) b (hasTriggeredMiss st) (hasHitAnimal st)
  | SetHasTriggeredMiss b =>
      mkState (position st) (velocity st) (isActive st) b (hasHitAnimal st)
  | SetHasHitAnimal b =>
      mkState (position st) (velocity st) (isActive st) (hasTriggeredMiss st) b
  | OnMiss _ => st
  | SetVelocity v =>
      mkState (position st) v (isActive st) (hasTriggeredMiss st) (hasHitAnimal st)
  | SetPosition p =>
      mkState p (velocity st) (isActive st) (hasTriggeredMiss st) (hasHitAnimal st)
  end.

(** The state of the next render: the queued updates applied in order. *)
Definition commit (st : State) (effs : list Effect) : State :=
  fold_left apply effs st.

Definition isMiss (e : Effect) : bool :=
  match e with OnMiss _ => true | _ => false end.

(** How many times a list of calls invokes [onMiss]. *)
Definition misses (effs : list Effect) : nat :=
  List.length (filter isMiss effs).

Definition deactivations (effs : list Effect) : nat :=
  List.length (filter (fun e => match e with SetIsActive false => true | _ => false end) effs).

End ThrownSpear.

(** ** The entities of the registry *)

(** An element of the [thrownSpears] array.  [App] creates it with [id],
    [position], [velocity] and [timestamp]; every render of its
    [ThrownSpear] component overwrites [position], [isActive] and
    [hasHitAnimal] with the component's state, and [Animal] writes
    [isActive] directly when it resolves a hit. *)
Module Spear.
Record Data : Type := mkData {
  id : Z;
  position : Vec3;
  velocity : Vec3;
  timestamp : Z;
  isActive : bool;
  hasHitAnimal : bool
}.

Definition setIsActive (s : Data) (b : bool) : Data :=
  mkData (id s) (position s) (velocity s) (timestamp s) b (hasHitAnimal s).

(** The assignments at the top of the [ThrownSpear] function body. *)
Definition render (s : Data) (st : ThrownSpear.State) : Data :=
  mkData (id s) (ThrownSpear.position st) (velocity s) (timestamp s)
         (ThrownSpear.isActive st) (ThrownSpear.hasHitAnimal st).
End Spear.

(** An entry of [ANIMAL_TYPES] ([size] and [color] only feed the renderer). *)
Module AnimalType.
Record t : Type := mk {
  name : string;
  baseSpeed : Q;
  speedIncrease : Q;
  health : Z;
  damage : Z;
  score : Z;
  spawnWeight : Q
}.
End AnimalType.

Definition ELEPHANT : AnimalType.t :=
  AnimalType.mk "elephant" (4 # 10) (6 # 10) 3 50 100 (1 # 2).
Definition CHEETAH : AnimalType.t :=
  AnimalType.mk "cheetah" 1 (1 # 2) 2 25 75 (1 # 8).
Definition ANTELOPE : AnimalType.t :=
  AnimalType.mk "antelope" (6 # 10) 0 1 10 50 (1 # 4).


(** An element of the [animals] array. *)
Module AnimalData.
Record t : Type := mk {
  id : Z;
  type : AnimalType.t;
  position : Vec3;
  timestamp : Z
}.
End AnimalData.

(** ** The animal *)

Module Animal.

Record State : Type := mkState {
  position : Vec3;
  health : Z;
  isAlive : bool;
  stuckSpears : list Z;
  isDying : bool
}.

(** [useState(animalData.position)], [useState(animalData.type.health)],
    [useState(true)], [useState([])], [useState(false)]. *)
Definition initial (a : AnimalData.t) : State :=
  mkState (AnimalData.position a) (AnimalType.health (AnimalData.type a)) true [] false.

(** The two functions the frame callback hands to [setTimeout]. *)
Inductive Deferred : Type :=
| LaterOnHit (scorePoints spearId animalId : Z)
| LaterDeathAnimationComplete (animalId : Z).

Inductive Effect : Type :=
| OnReachPlayer (damage animalId : Z)
| SetIsAlive (b : bool)
| SetHealth (h : Z)
| PushStuckSpear (spearId : Z)
| SpearSetHasHitAnimal (spearId : Z) (b : bool)
| OnHitMessage
| SetTimeout (cb : Deferred) (ms : Z)
| OnHit (scorePoints spearId animalId : Z)
| SetIsDying (b : bool)
| SetPosition (p : Vec3).

Definition sq (x : Q) : Q := x * x.

(** The argument of [Math.sqrt] in the collision test. *)
Definition distanceSq (a b : Vec3) : Q :=
  sq (c0 a - c0 b) + sq (c1 a - c1 b) + sq (c2 a - c2 b).

(** [distance < 3.0]. *)
Definition withinHitRadius (a b : Vec3) : bool := Qltb (distanceSq a b) 9.

Definition deathAnimationDuration (t : AnimalType.t) : Z :=
  if String.eqb (AnimalType.name t) "elephant" then 3000
  else if String.eqb (AnimalType.name t) "cheetah" then 4000 else 800.

Definition currentSpeed (t : AnimalType.t) (h : Z) : Q :=
  let hitsTaken := (AnimalType.health t - h)%Z in
  AnimalType.baseSpeed t + inject_Z hitsTaken * AnimalType.speedIncrease t.

(** The body of [thrownSpears.forEach(spear => ...)] for one spear: the
    spear object as the body leaves it, and the calls made. *)
Definition checkSpear (a : AnimalData.t) (st : State) (newPosition : Vec3)
           (spear : Spear.Data) : Spear.Data * list Effect :=
  if negb (Spear.isActive spear)
     || existsb (Z.eqb (Spear.id spear)) (stuckSpears st)
  then (spear, [])
  else if withinHitRadius newPosition (Spear.position spear) then
    let damage := 1%Z in
    let newHealth := (health st - damage)%Z in
    let t := AnimalData.type a in
    (Spear.setIsActive spear false,
     [ SetHealth newHealth;
       PushStuckSpear (Spear.id spear);
       SpearSetHasHitAnimal (Spear.id spear) true;
       OnHitMessage;
       SetTimeout (LaterOnHit (AnimalType.score t) (Spear.id spear) (AnimalData.id a)) 500 ]
     ++ (if (newHealth <=? 0)%Z then
           [ SetIsAlive false;
             SetIsDying true;
             OnHit (AnimalType.score t) (Spear.id spear) (AnimalData.id a);
             SetTimeout (LaterDeathAnimationComplete (AnimalData.id a))
                        (deathAnimationDuration t) ]
         else []))
  else (spear, []).

Fixpoint forEach (a : AnimalData.t) (st : State) (newPosition : Vec3)
         (spears : list Spear.Data) : list Spear.Data * list Effect :=
  match spears with
  | [] => ([], [])
  | spear :: rest =>
      let (spear', effs) := checkSpear a st newPosition spear in
      let (rest', effs') := forEach a st newPosition rest in
      (spear' :: rest', effs ++ effs')
  end.

(** The callback given to [useFrame].  [meshRef] is attached whenever the
    component rendered its group, which it does while [isAlive] holds, so
    the guard is decided by [isAlive] and [isPaused]. *)
Definition useFrame (a : AnimalData.t) (isPaused : bool)
           (thrownSpears : list Spear.Data) (st : State) (delta : Q)
  : list Spear.Data * list Effect :=
  if negb (isAlive st) || isPaused then (thrownSpears, [])
  else
    let t := AnimalData.type a in
    let newPosition :=
      mkVec3 (c0 (position st)) (c1 (position st))
             (c2 (position st) + currentSpeed t (health st) * delta) in
    if Qleb 8 (c2 newPosition) then
      (thrownSpears, [OnReachPlayer (AnimalType.damage t) (AnimalData.id a); SetIsAlive false])
    else
      let (spears', effs) := forEach a st newPosition thrownSpears in
      (spears', effs ++ [SetPosition newPosition]).

Definition apply (st : State) (e : Effect) : State :=
  match e with
  | SetIsAlive b =>
      mkState (position st) (health st) b (stuckSpears st) (isDying st)
  | SetHealth h =>
      mkState (position st) h (isAlive st) (stuckSpears st) (isDying st)
  | PushStuckSpear i =>
      mkState (position st) (health st) (isAlive st) (stuckSpears st ++ [i]) (isDying st)
  | SetIsDying b =>
      mkState (position st) (health st) (isAlive st) (stuckSpears st) b
  | SetPosition p =>
      mkState p (health st) (isAlive st) (stuckSpears st) (isDying st)
  | OnReachPlayer _ _ | SpearSetHasHitAnimal _ _ | OnHitMessage
  | SetTimeout _ _ | OnHit _ _ _ => st
  end.

Definition commit (st : State) (effs : list Effect) : State :=
  fold_left apply effs st.

(** What the death-animation timeout does to the component before it
    calls [onDeathAnimationComplete]: [setIsDying(false)]. *)
Definition deathAnimationOver : list Effect := [SetIsDying false].

(** The component returns [null] exactly when [!isAlive && !isDying]. *)
Definition rendered (st : State) : bool := isAlive st || isDying st.

(** Every invocation of the [onHit] prop a list of calls leads to: the
    direct ones and the ones wrapped in [setTimeout]. *)
Definition isHitEvent (e : Effect) : bool :=
  match e with
  | OnHit _ _ _ => true
  | SetTimeout (LaterOnHit _ _ _) _ => true
  | _ => false
  end.

Definition hitEvents (effs : list Effect) : list Effect := filter isHitEvent effs.

Definition isArrival (e : Effect) : bool :=
  match e with OnReachPlayer _ _ => true | _ => false end.

Definition isCollisionEffect (e : Effect) : bool :=
  match e with
  | SetHealth _ | PushStuckSpear _ | SpearSetHasHitAnimal _ _ | OnHitMessage
  | SetTimeout _ _ | OnHit _ _ _ | SetIsDying _ => true
  | _ => false
  end.

End Animal.

(** ** Pose input *)

Definition Landmark : Type := Vec3.

Definition origin : Vec3 := mkVec3 0 0 0.

(** [landmarks[i]], used only below the [landmarks.length < 33] guard. *)
Definition landmark (landmarks : list Landmark) (i : nat) : Landmark :=
  nth i landmarks origin.

Definition getHeadPosition (landmarks : option (list Landmark)) : option Vec3 :=
  match landmarks with
  | None => None
  | Some l =>
      if (List.length l <? 33)%nat then None
      else let nose := landmark l 0 in Some (mkVec3 (c0 nose) (c1 nose) (c2 nose))
  end.

Definition detectHandRaised (landmarks : option (list Landmark)) : bool :=
  match landmarks with
  | None => false
  | Some l =>
      if (List.length l <? 33)%nat then false
      else
        let leftWrist := landmark l 15 in
        let rightWrist := landmark l 16 in
        let leftShoulder := landmark l 11 in
        let rightShoulder := landmark l 12 in
        let nose := landmark l 0 in
        let leftHandRaised := Qltb (c1 leftWrist) (c1 leftShoulder - (5 # 100)) in
        let rightHandRaised := Qltb (c1 rightWrist) (c1 rightShoulder - (5 # 100)) in
        let leftHandAboveHead := Qltb (c1 leftWrist) (c1 nose - (1 # 10)) in
        let rightHandAboveHead := Qltb (c1 rightWrist) (c1 nose - (1 # 10)) in
        leftHandRaised || rightHandRaised || leftHandAboveHead || rightHandAboveHead
  end.

(** ** The session: state, handlers and deferred callbacks of [App] *)

Inductive SPEAR_STATES : Type := IDLE | GRIPPED | THROWING | THROWN.

Definition SPEAR_STATES_eqb (a b : SPEAR_STATES) : bool :=
  match a, b with
  | IDLE, IDLE | GRIPPED, GRIPPED | THROWING, THROWING | THROWN, THROWN => true
  | _, _ => false
  end.

(** The four values the rotation buttons pass to [handleCameraRotation]. *)
Inductive Rotation : Type := R0 | R90 | R180 | R270.

Module App.

(** The constants of one render of [App] that its handlers read after the
    render is over: [isPaused] in [spawnNewAnimal], [animals] in
    [handleAnimalReachPlayer]. *)
Record Closure : Type := mkClosure {
  c_isPaused : bool;
  c_animals : list AnimalData.t
}.

(** The functions handed to [setTimeout], by [App] and by [Animal]. *)
Inductive Timer : Type :=
| SpawnNewAnimal (c : Closure)
| ClearFlashMessage
| ClearHitMessage
| RemoveMissedSpear (spearId : Z)
| BackToGripped
| HitAfterImpact (scorePoints spearId animalId : Z)
| DeathAnimationComplete (c : Closure) (animalId : Z).

(** The [useState] cells and [useRef] counters of [App], and the timeouts
    that are pending, oldest first, each with its delay in ms. *)
Record State : Type := mk {
  spearState : SPEAR_STATES;
  headPosition : option Vec3;
  thrownSpears : list Spear.Data;
  animals : list AnimalData.t;
  score : Z;
  hitMessage : string;
  flashMessage : string;
  isPaused : bool;
  cameraRotation : Rotation;
  lastFireTime : Z;
  spearIdCounter : Z;
  animalIdCounter : Z;
  timeouts : list (Timer * Z)
}.

Definition FIRE_COOLDOWN : Z := 1000.

Definition initial : State :=
  mk IDLE None [] [] 0 "" "" false R0 0 0 0 [].

Definition closure (st : State) : Closure :=
  mkClosure (isPaused st) (animals st).

Definition setSpearState (v : SPEAR_STATES) (st : State) : State :=
  mk v (headPosition st) (thrownSpears st) (animals st) (score st)
     (hitMessage st) (flashMessage st) (isPaused st) (cameraRotation st)
     (lastFireTime st) (spearIdCounter st) (animalIdCounter st) (timeouts st).

Definition setHeadPosition (v : option Vec3) (st : State) : State :=
  mk (spearState st) v (thrownSpears st) (animals st) (score st)
     (hitMessage st) (flashMessage st) (isPaused st) (cameraRotation st)
     (lastFireTime st) (spearIdCounter st) (animalIdCounter st) (timeouts st).

Definition setThrownSpears (f : list Spear.Data -> list Spear.Data) (st : State) : State :=
  mk (spearState st) (headPosition st) (f (thrownSpears st)) (animals st) (score st)
     (hitMessage st) (flashMessage st) (isPaused st) (cameraRotation st)
     (lastFireTime st) (spearIdCounter st) (animalIdCounter st) (timeouts st).

Definition setAnimals (f : list AnimalData.t -> list AnimalData.t) (st : State) : State :=
  mk (spearState st) (headPosition st) (thrownSpears st) (f (animals st)) (score st)
     (hitMessage st) (flashMessage st) (isPaused st) (cameraRotation st)
     (lastFireTime st) (spearIdCounter st) (animalIdCounter st) (timeouts st).

Definition setScore (f : Z -> Z) (st : State) : State :=
  mk (spearState st) (headPosition st) (thrownSpears st) (animals st) (f (score st))
     (hitMessage st) (flashMessage st) (isPaused st) (cameraRotation st)
     (lastFireTime st) (spearIdCounter st) (animalIdCounter st) (timeouts st).

Definition setHitMessage (v : string) (st : State) : State :=
  mk (spearState st) (headPosition st) (thrownSpears st) (animals st) (score st)
     v (flashMessage st) (isPaused st) (cameraRotation st)
     (lastFireTime st) (spearIdCounter st) (animalIdCounter st) (timeouts st).

Definition setFlashMessage (v : string) (st : State) : State :=
  mk (spearState st) (headPosition st) (thrownSpears st) (animals st) (score st)
     (hitMessage st) v (isPaused st) (cameraRotation st)
     (lastFireTime st) (spearIdCounter st) (animalIdCounter st) (timeouts st).

Definition setIsPaused (f : bool -> bool) (st : State) : State :=
  mk (spearState st) (headPosition st) (thrownSpears st) (animals st) (score st)
     (hitMessage st) (flashMessage st) (f (isPaused st)) (cameraRotation st)
     (lastFireTime st) (spearIdCounter st) (animalIdCounter st) (timeouts st).

Definition setCameraRotation (v : Rotation) (st : State) : State :=
  mk (spearState st) (headPosition st) (thrownSpears st) (animals st) (score st)
     (hitMessage st) (flashMessage st) (isPaused st) v
     (lastFireTime st) (spearIdCounter st) (animalIdCounter st) (timeouts st).

Definition setLastFireTime (v : Z) (st : State) : State :=
  mk (spearState st) (headPosition st) (thrownSpears st) (animals st) (score st)
     (hitMessage st) (flashMessage st) (isPaused st) (cameraRotation st)
     v (spearIdCounter st) (animalIdCounter st) (timeouts st).

Definition setSpearIdCounter (v : Z) (st : State) : State :=
  mk (spearState st) (headPosition st) (thrownSpears st) (animals st) (score st)
     (hitMessage st) (flashMessage st) (isPaused st) (cameraRotation st)
     (lastFireTime st) v (animalIdCounter st) (timeouts st).

Definition setAnimalIdCounter (v : Z) (st : State) : State :=
  mk (spearState st) (headPosition st) (thrownSpears st) (animals st) (score st)
     (hitMessage st) (flashMessage st) (isPaused st) (cameraRotation st)
     (lastFireTime st) (spearIdCounter st) v (timeouts st).

(** [setTimeout(cb, ms)]. *)
Definition setTimeout (cb : Timer) (ms : Z) (st : State) : State :=
  mk (spearState st) (headPosition st) (thrownSpears st) (animals st) (score st)
     (hitMessage st) (flashMessage st) (isPaused st) (cameraRotation st)
     (lastFireTime st) (spearIdCounter st) (animalIdCounter st)
     (timeouts st ++ [(cb, ms)]).

Definition setTimeouts (v : list (Timer * Z)) (st : State) : State :=
  mk (spearState st) (headPosition st) (thrownSpears st) (animals st) (score st)
     (hitMessage st) (flashMessage st) (isPaused st) (cameraRotation st)
     (lastFireTime st) (spearIdCounter st) (animalIdCounter st) v.

(** *** Weighted choice of the animal type *)

Definition totalWeight (animalTypes : list AnimalType.t) : Q :=
  fold_left (fun sum type => sum + AnimalType.spawnWeight type) animalTypes 0.

(** The [for (const type of animalTypes)] loop; [selectedType] is the
    value the variable holds if the loop never breaks. *)
Fixpoint walk (animalTypes : list AnimalType.t) (randomWeight : Q)
         (selectedType : AnimalType.t) : AnimalType.t :=
  match animalTypes with
  | [] => selectedType
  | type :: rest =>
      let randomWeight := randomWeight - AnimalType.spawnWeight type in
      if Qleb randomWeight 0 then type else walk rest randomWeight selectedType
  end.

(** The selection over a non-empty table [first :: rest]; [random] is the
    value [Math.random()] returns, in [0, 1). *)
Definition selectFrom (first : AnimalType.t) (rest : list AnimalType.t)
           (random : Q) : AnimalType.t :=
  let animalTypes := first :: rest in
  let randomWeight := random * totalWeight animalTypes in
  walk animalTypes randomWeight first.

Definition selectType (random : Q) : AnimalType.t :=
  selectFrom ELEPHANT [CHEETAH; ANTELOPE] random.

(** *** Spawning *)

(** [if (deadAnimalId)]: an id is truthy unless it is [null] or [0]. *)
Definition truthy (i : option Z) : bool :=
  match i with Some n => negb (n =? 0)%Z | None => false end.

Definition removeAnimal (animalId : Z) (l : list AnimalData.t) : list AnimalData.t :=
  filter (fun animal => negb (AnimalData.id animal =? animalId)%Z) l.

Definition removeSpear (spearId : Z) (l : list Spear.Data) : list Spear.Data :=
  filter (fun spear => negb (Spear.id spear =? spearId)%Z) l.

Definition newAnimalOf (st : State) (randType randX : Q) (now : Z) : AnimalData.t :=
  let selectedType := selectType randType in
  let spawnX := randX - (1 # 2) in
  let spawnY := - 4 in
  let spawnZ := - 25 in
  AnimalData.mk (animalIdCounter st) selectedType (mkVec3 spawnX spawnY spawnZ) now.

(** The part of [spawnNewAnimal] below its first [if]: the pause guard
    and the spawn.  The [isPaused] it tests is the constant of the render
    that created this [spawnNewAnimal], [c_isPaused c]; the registry and
    the counter are read and written live.  [randType] and [randX] are the
    two [Math.random()] draws and [now] is [Date.now()]. *)
Definition spawnFresh (c : Closure) (randType randX : Q) (now : Z)
           (st : State) : State :=
  if c_isPaused c then st
  else
    let newAnimal := newAnimalOf st randType randX now in
    setAnimals (fun prev => prev ++ [newAnimal])
               (setAnimalIdCounter (animalIdCounter st + 1) st).

(** [spawnNewAnimal(deadAnimalId = null)] of the render with constants
    [c].  The function the timeout calls is the [spawnNewAnimal] of the
    same render, hence [SpawnNewAnimal c]. *)
Definition spawnNewAnimal (c : Closure) (deadAnimalId : option Z)
           (randType randX : Q) (now : Z) (st : State) : State :=
  match deadAnimalId with
  | Some dead =>
      if truthy deadAnimalId then
        setTimeout (SpawnNewAnimal c) 100 (setAnimals (removeAnimal dead) st)
      else spawnFresh c randType randX now st
  | None => spawnFresh c randType randX now st
  end.

(** *** Handlers *)

Definition handleAnimalReachPlayer (c : Closure) (damage animalId : Z)
           (st : State) : State :=
  let st :=
    match find (fun a => (AnimalData.id a =? animalId)%Z) (c_animals c) with
    | Some animal =>
        let message :=
          if String.eqb (AnimalType.name (AnimalData.type animal)) "cheetah"
          then "EATEN!"%string else "TRAMPLED!"%string in
        setTimeout ClearFlashMessage 2000 (setFlashMessage message st)
    | None => st
    end in
  setTimeout (SpawnNewAnimal c) 1000 (setAnimals (removeAnimal animalId) st).

(** [if (spearId)] is false for the spear with id [0]. *)
Definition handleAnimalHit (scorePoints spearId animalId : Z) (st : State) : State :=
  let st := setScore (fun prev => prev + scorePoints)%Z st in
  if negb (spearId =? 0)%Z then setThrownSpears (removeSpear spearId) st else st.

Definition handleHitMessage (message : string) (st : State) : State :=
  setTimeout ClearHitMessage 1500 (setHitMessage message st).

Definition handleSpearMiss (randomMessage : string) (spearId : Z) (st : State) : State :=
  setTimeout (RemoveMissedSpear spearId) 1000 (handleHitMessage randomMessage st).

Definition handleTogglePause (st : State) : State := setIsPaused negb st.

Definition handleRestart (st : State) : State :=
  let st := setScore (fun _ => 0%Z) st in
  let st := setAnimals (fun _ => []) st in
  let st := setThrownSpears (fun _ => []) st in
  let st := setIsPaused (fun _ => false) st in
  let st := setHitMessage "" st in
  let st := setFlashMessage "" st in
  let st := setSpearState IDLE st in
  let st := setSpearIdCounter 0 st in
  setAnimalIdCounter 0 st.

Definition handleCameraRotation (degrees : Rotation) (st : State) : State :=
  setCameraRotation degrees st.

(** [rotateCoordinates(x, y, rotation)] at the exact values of the cosine
    and sine of the four angles. *)
Definition rotateCoordinates (x y : Q) (rotation : Rotation) : Q * Q :=
  let '(cos, sin) :=
    match rotation with
    | R0 => (1, 0) | R90 => (0, 1) | R180 => (- (1), 0) | R270 => (0, - (1))
    end in
  (x * cos - y * sin, x * sin + y * cos).

(** *** Deferred callbacks *)

(** What a timeout does to the state of [App] when it fires.  The random
    draws and the clock are those of the moment it fires. *)
Definition runTimer (t : Timer) (randType randX : Q) (now : Z) (st : State) : State :=
  match t with
  | SpawnNewAnimal c => spawnNewAnimal c None randType randX now st
  | ClearFlashMessage => setFlashMessage "" st
  | ClearHitMessage => setHitMessage "" st
  | RemoveMissedSpear spearId => setThrownSpears (removeSpear spearId) st
  | BackToGripped => setSpearState GRIPPED st
  | HitAfterImpact scorePoints spearId animalId =>
      handleAnimalHit scorePoints spearId animalId st
  | DeathAnimationComplete c animalId =>
      spawnNewAnimal c (Some animalId) randType randX now st
  end.

(** *** The pose effect: aiming and fire control *)

Definition aimPoint (headPos : Vec3) (rotation : Rotation) : Vec3 :=
  let x := ((1 # 2) - c0 headPos) * 25 in
  let y := (1 - c1 headPos) * (25 # 10) - 4 in
  let '(rotatedX, rotatedY) := rotateCoordinates x y rotation in
  mkVec3 rotatedX rotatedY (5 + c2 headPos * - (3)).

Definition throwVelocity : Vec3 :=
  let powerRatio := 1 in
  let baseVelocity := (15 # 10) + powerRatio * 5 in
  let zVelocity := - baseVelocity * (1 + powerRatio * 5) in
  let yVelocity := (8 # 10) + powerRatio * (15 # 10) in
  let xVelocity := 0 in
  mkVec3 xVelocity yVelocity zVelocity.

(** The fire block at the end of the effect.  [r] is the render the
    effect belongs to: its [spearState], [headPosition] and
    [lastFireTime] are the constants the block tests.  The two
    [Date.now()] calls of one run read the same millisecond [now].  The
    new spear's [isActive] and [hasHitAnimal] are the values the first
    render of its component writes on it, before any frame sees it. *)
Definition fire (r : State) (isHandRaised : bool) (now : Z) (st : State) : State :=
  match headPosition r with
  | Some aim =>
      if isHandRaised && SPEAR_STATES_eqb (spearState r) GRIPPED then
        let currentTime := now in
        if (FIRE_COOLDOWN <=? currentTime - lastFireTime r)%Z then
          let newSpear :=
            Spear.mkData (spearIdCounter st) aim throwVelocity now true false in
          let st := setSpearIdCounter (spearIdCounter st + 1) st in
          let st := setThrownSpears (fun prev => prev ++ [newSpear]) st in
          let st := setSpearState THROWING st in
          let st := setLastFireTime currentTime st in
          setTimeout BackToGripped 500 st
        else st
      else st
  | None => st
  end.

(** The effect with dependencies [poseLandmarks, isReady, spearState,
    headPosition, isPaused], run on the state [r] of the render that
    triggered it. *)
Definition poseEffect (poseLandmarks : option (list Landmark)) (isReady : bool)
           (now : Z) (r : State) : State :=
  match poseLandmarks with
  | Some _ =>
      if isReady && negb (isPaused r) then
        let headPos := getHeadPosition poseLandmarks in
        let isHandRaised := detectHandRaised poseLandmarks in
        let st :=
          match headPos with
          | Some hp =>
              let st := setHeadPosition (Some (aimPoint hp (cameraRotation r))) r in
              if SPEAR_STATES_eqb (spearState r) IDLE
              then setSpearState GRIPPED st else st
          | None =>
              let st := setHeadPosition (Some (mkVec3 0 (- 2) 5)) r in
              if SPEAR_STATES_eqb (spearState r) GRIPPED
              then setSpearState IDLE st else st
          end in
        fire r isHandRaised now st
      else r
  | None => r
  end.

End App.

(** ** The scene: how the components are wired to [App] *)

Module Scene.

(** The props [Scene] gives an [Animal] in a render of [App] with
    constants [c]: [isPaused] is [c_isPaused c], [onHit] is
    [handleAnimalHit], [onReachPlayer] is [handleAnimalReachPlayer],
    [onHitMessage] is [handleHitMessage] and [onDeathAnimationComplete] is
    [spawnNewAnimal], all of that render.  [animalCall] is what one call
    made by the frame callback does to the state of [App];
    [randomMessage] is the text drawn for [onHitMessage]. *)
Definition animalCall (c : App.Closure) (randomMessage : string)
           (st : App.State) (e : Animal.Effect) : App.State :=
  match e with
  | Animal.OnReachPlayer damage animalId =>
      App.handleAnimalReachPlayer c damage animalId st
  | Animal.OnHit scorePoints spearId animalId =>
      App.handleAnimalHit scorePoints spearId animalId st
  | Animal.OnHitMessage => App.handleHitMessage randomMessage st
  | Animal.SetTimeout (Animal.LaterOnHit scorePoints spearId animalId) ms =>
      App.setTimeout (App.HitAfterImpact scorePoints spearId animalId) ms st
  | Animal.SetTimeout (Animal.LaterDeathAnimationComplete animalId) ms =>
      App.setTimeout (App.DeathAnimationComplete c animalId) ms st
  | _ => st
  end.

(** One frame of one [Animal] whose props come from a render with
    constants [c]: the spear objects as the callback leaves them, the
    animal's next state, and the state of [App] after the calls. *)
Definition animalFrame (c : App.Closure) (randomMessage : string)
           (a : AnimalData.t) (st : Animal.State) (delta : Q)
           (spears : list Spear.Data) (app : App.State)
  : list Spear.Data * Animal.State * App.State :=
  let (spears', effs) := Animal.useFrame a (App.c_isPaused c) spears st delta in
  (spears', Animal.commit st effs, fold_left (animalCall c randomMessage) effs app).

(** [onMiss] is [handleSpearMiss]. *)
Definition spearCall (randomMessage : string) (st : App.State)
           (e : ThrownSpear.Effect) : App.State :=
  match e with
  | ThrownSpear.OnMiss spearId => App.handleSpearMiss randomMessage spearId st
  | _ => st
  end.

Definition spearFrame (c : App.Closure) (randomMessage : string)
           (spearId : Z) (st : ThrownSpear.State) (delta : Q) (app : App.State)
  : ThrownSpear.State * App.State :=
  let effs := ThrownSpear.useFrame spearId (App.c_isPaused c) st delta in
  (ThrownSpear.commit st effs, fold_left (spearCall randomMessage) effs app).

(** The [setHasHitAnimal(true)] calls an animal's frame addressed to the
    spear [spearId], as updates of that spear's component. *)
Definition hitsOn (spearId : Z) (effs : list Animal.Effect) : list ThrownSpear.Effect :=
  flat_map (fun e =>
    match e with
    | Animal.SpearSetHasHitAnimal i b =>
        if (i =? spearId)%Z then [ThrownSpear.SetHasHitAnimal b] else []
    | _ => []
    end) effs.

(** Fire the pending timeouts one after the other, oldest first, [n] of
    them; every spawn draws [randType] and [randX]. *)
Fixpoint fireTimeouts (n : nat) (randType randX : Q) (now : Z) (st : App.State)
  : App.State :=
  match n with
  | O => st
  | S n' =>
      match App.timeouts st with
      | [] => st
      | (t, _) :: rest =>
          fireTimeouts n' randType randX now
            (App.runTimer t randType randX now (App.setTimeouts rest st))
      end
  end.

End Scene.

(** ** Sessions as sequences of events *)

Module Session.

(** Everything that changes the state of [App]: a run of the pose effect,
    a button, a call by a component's frame callback, the scheduling and
    the firing or cancelling of a timeout.  A call by a component carries
    the constants of the render its props came from. *)
Inductive Event : Type :=
| PoseEffect (poseLandmarks : option (list Landmark)) (isReady : bool) (now : Z)
| TogglePause
| Restart
| CameraRotation (degrees : Rotation)
| AnimalReachPlayer (c : App.Closure) (damage animalId : Z)
| AnimalHit (scorePoints spearId animalId : Z)
| HitMessage (message : string)
| SpearMiss (randomMessage : string) (spearId : Z)
| Schedule (t : App.Timer) (ms : Z)
| Fire (k : nat) (randType randX : Q) (now : Z)
| Cancel (k : nat).

Fixpoint dropNth {A : Type} (k : nat) (l : list A) : list A :=
  match k, l with
  | _, [] => []
  | O, _ :: rest => rest
  | S k', x :: rest => x :: dropNth k' rest
  end.

Definition run (st : App.State) (e : Event) : App.State :=
  match e with
  | PoseEffect poseLandmarks isReady now => App.poseEffect poseLandmarks isReady now st
  | TogglePause => App.handleTogglePause st
  | Restart => App.handleRestart st
  | CameraRotation degrees => App.handleCameraRotation degrees st
  | AnimalReachPlayer c damage animalId => App.handleAnimalReachPlayer c damage animalId st
  | AnimalHit scorePoints spearId animalId => App.handleAnimalHit scorePoints spearId animalId st
  | HitMessage message => App.handleHitMessage message st
  | SpearMiss randomMessage spearId => App.handleSpearMiss randomMessage spearId st
  | Schedule t ms => App.setTimeout t ms st
  | Fire k randType randX now =>
      match nth_error (App.timeouts st) k with
      | Some (t, _) =>
          App.runTimer t randType randX now
            (App.setTimeouts (dropNth k (App.timeouts st)) st)
      | None => st
      end
  | Cancel k => App.setTimeouts (dropNth k (App.timeouts st)) st
  end.

Definition exec (st : App.State) (evs : list Event) : App.State :=
  fold_left run evs st.

Definition isRestart (e : Event) : bool :=
  match e with Restart => true | _ => false end.

(** The ids the two counters hand out along a sequence of events: an
    event whose run advances a counter has used the counter's old value. *)
Fixpoint animalIdsAssigned (st : App.State) (evs : list Event) : list Z :=
  match evs with
  | [] => []
  | e :: rest =>
      let st' := run st e in
      (if (App.animalIdCounter st' =? App.animalIdCounter st + 1)%Z
       then [App.animalIdCounter st] else [])
      ++ animalIdsAssigned st' rest
  end.

Fixpoint spearIdsAssigned (st : App.State) (evs : list Event) : list Z :=
  match evs with
  | [] => []
  | e :: rest =>
      let st' := run st e in
      (if (App.spearIdCounter st' =? App.spearIdCounter st + 1)%Z
       then [App.spearIdCounter st] else [])
      ++ spearIdsAssigned st' rest
  end.

End Session.


(** ** The hand-tracking variant

    The second source file is an earlier build of the same game, driven by
    hand landmarks and a power meter.  Its animal table has other spawn
    weights, drawn through the same loop, and its [Animal] reports an
    arrival with the damage alone; the rest of its frame callback reads as
    the one above. *)

Module HandVariant.

Definition ELEPHANT : AnimalType.t :=
  AnimalType.mk "elephant" (4 # 10) (6 # 10) 3 50 100 2.
Definition CHEETAH : AnimalType.t :=
  AnimalType.mk "cheetah" 1 (1 # 2) 2 25 75 3.
Definition ANTELOPE : AnimalType.t :=
  AnimalType.mk "antelope" (6 # 10) 0 1 10 50 6.

Definition selectType (random : Q) : AnimalType.t :=
  App.selectFrom ELEPHANT [CHEETAH; ANTELOPE] random.

Inductive Deferred : Type :=
| LaterOnHit (scorePoints spearId : Z)
| LaterDeathAnimationOver.

Inductive Effect : Type :=
| OnReachPlayer (damage : Z)
| SetIsAlive (b : bool)
| SetHealth (h : Z)
| PushStuckSpear (spearId : Z)
| SpearSetHasHitAnimal (spearId : Z) (b : bool)
| OnHitMessage
| SetTimeout (cb : Deferred) (ms : Z)
| OnHit (scorePoints spearId : Z)
| SetIsDying (b : bool)
| SetPosition (p : Vec3).

Definition checkSpear (a : AnimalData.t) (st : Animal.State) (newPosition : Vec3)
           (spear : Spear.Data) : Spear.Data * list Effect :=
  if negb (Spear.isActive spear)
     || existsb (Z.eqb (Spear.id spear)) (Animal.stuckSpears st)
  then (spear, [])
  else if Animal.withinHitRadius newPosition (Spear.position spear) then
    let damage := 1%Z in
    let newHealth := (Animal.health st - damage)%Z in
    let t := AnimalData.type a in
    (Spear.setIsActive spear false,
     [ SetHealth newHealth;
       PushStuckSpear (Spear.id spear);
       SpearSetHasHitAnimal (Spear.id spear) true;
       OnHitMessage;
       SetTimeout (LaterOnHit (AnimalType.score t) (Spear.id spear)) 500 ]
     ++ (if (newHealth <=? 0)%Z then
           [ SetIsAlive false;
             SetIsDying true;
             OnHit (AnimalType.score t) (Spear.id spear);
             SetTimeout LaterDeathAnimationOver (Animal.deathAnimationDuration t) ]
         else []))
  else (spear, []).

Fixpoint forEach (a : AnimalData.t) (st : Animal.State) (newPosition : Vec3)
         (spears : list Spear.Data) : list Spear.Data * list Effect :=
  match spears with
  | [] => ([], [])
  | spear :: rest =>
      let (spear', effs) := checkSpear a st newPosition spear in
      let (rest', effs') := forEach a st newPosition rest in
      (spear' :: rest', effs ++ effs')
  end.

Definition useFrame (a : AnimalData.t) (isPaused : bool)
           (thrownSpears : list Spear.Data) (st : Animal.State) (delta : Q)
  : list Spear.Data * list Effect :=
  if negb (Animal.isAlive st) || isPaused then (thrownSpears, [])
  else
    let t := AnimalData.type a in
    let newPosition :=
      mkVec3 (c0 (Animal.position st)) (c1 (Animal.position st))
             (c2 (Animal.position st)
              + Animal.currentSpeed t (Animal.health st) * delta) in
    if Qleb 8 (c2 newPosition) then
      (thrownSpears, [OnReachPlayer (AnimalType.damage t); SetIsAlive false])
    else
      let (spears', effs) := forEach a st newPosition thrownSpears in
      (spears', effs ++ [SetPosition newPosition]).

End HandVariant.

(** ** Lifetimes and requests *)

(** The life of one [ThrownSpear] component, render by render: a frame
    callback runs on the committed state, or an [Animal] has called
    [setHasHitAnimal(true)] and the update is committed. *)
Module Lifetime.

Inductive Step : Type :=
| Frame (isPaused : bool) (delta : Q)
| Hit.

Definition effects (spearId : Z) (st : ThrownSpear.State) (s : Step)
  : list ThrownSpear.Effect :=
  match s with
  | Frame isPaused delta => ThrownSpear.useFrame spearId isPaused st delta
  | Hit => [ThrownSpear.SetHasHitAnimal true]
  end.

(** The [onMiss] calls of a whole life, and the state it ends in. *)
Fixpoint live (spearId : Z) (st : ThrownSpear.State) (steps : list Step)
  : nat * ThrownSpear.State :=
  match steps with
  | [] => (O, st)
  | s :: rest =>
      let effs := effects spearId st s in
      let (n, final) := live spearId (ThrownSpear.commit st effs) rest in
      ((ThrownSpear.misses effs + n)%nat, final)
  end.

End Lifetime.

(** A pending timeout that will call [spawnNewAnimal()]. *)
Definition isRespawnRequest (t : App.Timer * Z) : bool :=
  match fst t with App.SpawnNewAnimal _ => true | _ => false end.

Definition respawnRequests (l : list (App.Timer * Z)) : list (App.Timer * Z) :=
  filter isRespawnRequest l.

Definition isDeathTimer (e : Animal.Effect) : bool :=
  match e with
  | Animal.SetTimeout (Animal.LaterDeathAnimationComplete _) _ => true
  | _ => false
  end.

(** ** Freshness of a registry *)

(** A registry is fresh for a counter when its keys increase strictly in
    list order and all lie below the counter. *)
Definition fresh {A : Type} (key : A -> Z) (counter : Z) (l : list A) : Prop :=
  StronglySorted Z.lt (map key l) /\ Forall (fun x => (key x < counter)%Z) l.

Definition registriesFresh (st : App.State) : Prop :=
  fresh AnimalData.id (App.animalIdCounter st) (App.animals st)
  /\ fresh Spear.id (App.spearIdCounter st) (App.thrownSpears st).
From Stdlib Require Import Qabs.


(** ** The life of an animal *)

(** The life of one [Animal] component, render by render: a frame callback
    runs on the committed state with the props of that render, or the
    death-animation timeout fires. *)
Module AnimalLife.

Record Frame : Type := mkFrame {
  isPaused : bool;
  thrownSpears : list Spear.Data;
  delta : Q
}.

Inductive Step : Type :=
| Tick (f : Frame)
| DeathAnimationOver.

Definition effects (a : AnimalData.t) (st : Animal.State) (s : Step)
  : list Animal.Effect :=
  match s with
  | Tick f => snd (Animal.useFrame a (isPaused f) (thrownSpears f) st (delta f))
  | DeathAnimationOver => Animal.deathAnimationOver
  end.

Definition step (a : AnimalData.t) (st : Animal.State) (s : Step) : Animal.State :=
  Animal.commit st (effects a st s).

Definition live (a : AnimalData.t) (st : Animal.State) (steps : list Step)
  : Animal.State :=
  fold_left (step a) steps st.

(** The calls of each step of a life, in order. *)
Fixpoint trace (a : AnimalData.t) (st : Animal.State) (steps : list Step)
  : list (list Animal.Effect) :=
  match steps with
  | [] => []
  | s :: rest => effects a st s :: trace a (step a st s) rest
  end.

Definition isPausedStep (s : Step) : bool :=
  match s with Tick f => isPaused f | DeathAnimationOver => false end.

End AnimalLife.

(** The ids of the spears a list of calls records as stuck, that is, the
    spears a frame resolved a hit for. *)
Definition stuckBy (effs : list Animal.Effect) : list Z :=
  flat_map (fun e => match e with Animal.PushStuckSpear i => [i] | _ => [] end) effs.

Definition isPausedFrame (s : Lifetime.Step) : bool :=
  match s with Lifetime.Frame isPaused _ => isPaused | Lifetime.Hit => false end.

(** Where a spear may rest: at or above the ground, or stuck in the
    backboard, whose lower edge is at height [-5]. *)
Definition aboveGroundOrInBackboard (p : Vec3) : Prop :=
  ThrownSpear.groundY <= c1 p
  \/ (c2 p = ThrownSpear.backboardZ /\ - (5) <= c1 p).

(** ** The cooldown line of the overlay *)

Module Overlay.

Definition remainingCooldown (currentTime lastFireTime fireCooldown : Z) : Z :=
  let timeSinceLastFire := (currentTime - lastFireTime)%Z in
  Z.max 0 (fireCooldown - timeSinceLastFire).

(** [remainingCooldown > 0 ? ... : 'Ready']. *)
Definition showsReady (currentTime lastFireTime fireCooldown : Z) : bool :=
  negb (0 <? remainingCooldown currentTime lastFireTime fireCooldown)%Z.

End Overlay.

(** ** The spear in the hand *)

(** The [Spear] component: the mesh position its frame callback sets and
    the [lastValidPosition] ref.  The group is always rendered, so
    [meshRef] is attached; the [position] prop of the group never changes
    value, so only the frame callback moves the mesh. *)
Module SpearCursor.

Record State : Type := mkState {
  mesh : Vec3;
  lastValidPosition : Vec3
}.

Definition rest : Vec3 := mkVec3 0 (- (35 # 10)) 5.

Definition initial : State := mkState rest rest.

(** The callback given to [useFrame], for the props [position] and
    [spearState] of the current render. *)
Definition useFrame (position : option Vec3) (spearState : SPEAR_STATES)
           (st : State) : State :=
  match spearState with
  | GRIPPED =>
      match position with
      | Some p => mkState p p
      | None => mkState (lastValidPosition st) (lastValidPosition st)
      end
  | IDLE => mkState rest rest
  | _ => st
  end.

(** The effect with dependency [spearState], run after the first render
    and after every render in which [spearState] has changed.  Its
    [setSpearPosition] stores the value the state already has, and the
    [position] prop of the group keeps its value, so the mesh is not
    moved. *)
Definition useEffect (spearState : SPEAR_STATES) (st : State) : State :=
  match spearState with
  | IDLE => mkState (mesh st) rest
  | _ => st
  end.

Inductive Step : Type :=
| Frame (position : option Vec3) (spearState : SPEAR_STATES)
| Effect (spearState : SPEAR_STATES).

Definition step (st : State) (s : Step) : State :=
  match s with
  | Frame position spearState => useFrame position spearState st
  | Effect spearState => useEffect spearState st
  end.

Definition live (st : State) (steps : list Step) : State :=
  fold_left step steps st.

(** A step that brings no new aim point and no reset: a frame while
    gripped without input or while throwing, an effect run outside
    [IDLE]. *)
Definition holds (s : Step) : bool :=
  match s with
  | Frame None GRIPPED | Frame _ THROWING | Frame _ THROWN => true
  | Effect IDLE | Frame _ _ => false
  | Effect _ => true
  end.

End SpearCursor.

(** ** The first spawn *)

(** The effect of [App] with dependency [isPaused]: when the game is not
    paused it arms a one-second timeout that calls [spawnNewAnimal()], and
    its cleanup clears that timeout.  [timer] is the armed timeout, with
    the constants of the render that armed it. *)
Module InitialSpawn.

Record State : Type := mk {
  app : App.State;
  timer : option App.Closure
}.

(** The body of the effect, run after a render of [a]. *)
Definition effect (a : App.State) : State :=
  if negb (App.isPaused a) then mk a (Some (App.closure a)) else mk a None.

Definition mount (a : App.State) : State := effect a.

(** The pause button: [isPaused] changes, so the cleanup of the last run
    clears its timeout and the effect runs again. *)
Definition togglePause (st : State) : State :=
  effect (App.handleTogglePause (app st)).

(** One second has passed since the timeout was armed. *)
Definition elapse (randType randX : Q) (now : Z) (st : State) : State :=
  match timer st with
  | Some c => mk (App.spawnNewAnimal c None randType randX now (app st)) None
  | None => st
  end.

End InitialSpawn.

(** ** Score keeping along a session *)

(** The points an event hands to [handleAnimalHit]. *)
Definition hitPoints (st : App.State) (e : Session.Event) : Z :=
  match e with
  | Session.AnimalHit scorePoints _ _ => scorePoints
  | Session.Fire k _ _ _ =>
      match nth_error (App.timeouts st) k with
      | Some (App.HitAfterImpact scorePoints _ _, _) => scorePoints
      | _ => 0%Z
      end
  | _ => 0%Z
  end.

Fixpoint scored (st : App.State) (evs : list Session.Event) : Z :=
  match evs with
  | [] => 0%Z
  | e :: rest => (hitPoints st e + scored (Session.run st e) rest)%Z
  end.

(** An event that takes the spear with id [0] out of the registry on
    purpose: a restart, or the firing of its own miss timeout. *)
Definition retiresSpearZero (st : App.State) (e : Session.Event) : bool :=
  match e with
  | Session.Restart => true
  | Session.Fire k _ _ _ =>
      match nth_error (App.timeouts st) k with
      | Some (App.RemoveMissedSpear spearId, _) => (spearId =? 0)%Z
      | _ => false
      end
  | _ => false
  end.

(** ** The hand-tracking build: gestures, power meter and player health

    [App] of the second source file.  The player grips the spear with a
    fist and throws it by opening the hand; the strength of the throw is
    read from a power meter that swings between 0 and 100; animals that
    arrive take the player's health, and at zero the game is over.  A run
    of the hand effect that raises a [TypeError] is [None]. *)

Module HandGame.

(** *** Gestures *)

(** [landmarks[tips[i]].y > landmarks[pips[i]].y]. *)
Definition curled (l : list Landmark) (tip pip : nat) : bool :=
  Qltb (c1 (landmark l pip)) (c1 (landmark l tip)).

(** The [for (let i = 1; i < 5; i++)] loop over [fingerTips] and
    [fingerPIPs]. *)
Definition curledFingers (l : list Landmark) : nat :=
  let fingerTips := [4; 8; 12; 16; 20]%nat in
  let fingerPIPs := [3; 6; 10; 14; 18]%nat in
  fold_left (fun curledFingers i =>
               if curled l (nth i fingerTips O) (nth i fingerPIPs O)
               then S curledFingers else curledFingers)
            [1; 2; 3; 4]%nat O.

Definition detectFist (landmarks : option (list Landmark)) : bool :=
  match landmarks with
  | None => false
  | Some l =>
      if (List.length l <? 21)%nat then false
      else
        let thumbCrossing := Qltb (c0 (landmark l 4)) (c0 (landmark l 8)) in
        (3 <=? curledFingers l)%nat && thumbCrossing
  end.

(** One round of the loop of [detectOpenPalm]. *)
Definition isExtended (l : list Landmark) (tipI pipI mcpI : nat) : bool :=
  let tip := landmark l tipI in
  let pip := landmark l pipI in
  let mcp := landmark l mcpI in
  let tipAbovePip := Qltb (c1 tip) (c1 pip - (1 # 100)) in
  let pipAboveMcp := Qltb (c1 pip) (c1 mcp + (5 # 1000)) in
  tipAbovePip && pipAboveMcp.

Definition isOpen (l : list Landmark) (tipI mcpI : nat) : bool :=
  Qltb (c1 (landmark l tipI)) (c1 (landmark l mcpI) - (2 # 100)).

(** The loop: the pair [(openFingers, extendedFingers)] it ends with. *)
Definition fingerCounts (l : list Landmark) : nat * nat :=
  let fingerTips := [8; 12; 16; 20]%nat in
  let fingerPIPs := [6; 10; 14; 18]%nat in
  let fingerMCPs := [5; 9; 13; 17]%nat in
  fold_left (fun counts i =>
               let '(openFingers, extendedFingers) := counts in
               let tipI := nth i fingerTips O in
               let pipI := nth i fingerPIPs O in
               let mcpI := nth i fingerMCPs O in
               let extendedFingers :=
                 if isExtended l tipI pipI mcpI
                 then S extendedFingers else extendedFingers in
               let openFingers :=
                 if isOpen l tipI mcpI then S openFingers else openFingers in
               (openFingers, extendedFingers))
            [0; 1; 2; 3]%nat (O, O).

Definition thumbExtended (l : list Landmark) : bool :=
  let thumbTip := landmark l 4 in
  let thumbIp := landmark l 3 in
  let thumbMcp := landmark l 2 in
  let thumbXDistance := Qabs (c0 thumbTip - c0 thumbMcp) in
  let thumbYDistance := Qabs (c1 thumbTip - c1 thumbIp) in
  Qltb (25 # 1000) thumbXDistance || Qltb (2 # 100) thumbYDistance.

(** [criteriaA], [criteriaB] and [criteriaC]. *)
Definition criteria (l : list Landmark) : bool * bool * bool :=
  let '(openFingers, extendedFingers) := fingerCounts l in
  let criteriaA := (3 <=? extendedFingers)%nat && thumbExtended l in
  let criteriaB := (3 <=? openFingers)%nat && thumbExtended l in
  let criteriaC := (4 <=? extendedFingers)%nat in
  (criteriaA, criteriaB, criteriaC).

Definition detectOpenPalm (landmarks : option (list Landmark)) : bool :=
  match landmarks with
  | None => false
  | Some l =>
      if (List.length l <? 21)%nat then false
      else
        let '(criteriaA, criteriaB, criteriaC) := criteria l in
        criteriaA || criteriaB || criteriaC
  end.

(** *** State *)

Inductive Timer : Type :=
| ClearScreenFlash
| ClearHitMessage
| RemoveMissedSpear (spearId : Z)
| BackToIdle
| HitAfterImpact (scorePoints spearId : Z).

(** The [useState] cells and [useRef] values of [App], and the pending
    timeouts, oldest first. *)
Record State : Type := mk {
  spearState : SPEAR_STATES;
  handPosition : option Vec3;
  powerLevel : Z;
  thrownSpears : list Spear.Data;
  animals : list AnimalData.t;
  playerHealth : Z;
  score : Z;
  screenFlash : bool;
  hitMessage : string;
  isPaused : bool;
  isGameOver : bool;
  cameraRotation : Rotation;
  powerDirection : Z;
  spearIdCounter : Z;
  animalIdCounter : Z;
  timeouts : list (Timer * Z)
}.

Definition initial : State :=
  mk IDLE None 0 [] [] 100 0 false "" false false R0 1 0 0 [].

Definition setSpearState (v : SPEAR_STATES) (st : State) : State :=
  mk v (handPosition st) (powerLevel st) (thrownSpears st) (animals st)
    (playerHealth st) (score st) (screenFlash st) (hitMessage st)
    (isPaused st) (isGameOver st) (cameraRotation st) (powerDirection st)
    (spearIdCounter st) (animalIdCounter st) (timeouts st).

Definition setHandPosition (v : option Vec3) (st : State) : State :=
  mk (spearState st) v (powerLevel st) (thrownSpears st) (animals st)
    (playerHealth st) (score st) (screenFlash st) (hitMessage st)
    (isPaused st) (isGameOver st) (cameraRotation st) (powerDirection st)
    (spearIdCounter st) (animalIdCounter st) (timeouts st).

Definition setPowerLevel (v : Z) (st : State) : State :=
  mk (spearState st) (handPosition st) v (thrownSpears st) (animals st)
    (playerHealth st) (score st) (screenFlash st) (hitMessage st)
    (isPaused st) (isGameOver st) (cameraRotation st) (powerDirection st)
    (spearIdCounter st) (animalIdCounter st) (timeouts st).

Definition setThrownSpears (v : list Spear.Data) (st : State) : State :=
  mk (spearState st) (handPosition st) (powerLevel st) v (animals st)
    (playerHealth st) (score st) (screenFlash st) (hitMessage st)
    (isPaused st) (isGameOver st) (cameraRotation st) (powerDirection st)
    (spearIdCounter st) (animalIdCounter st) (timeouts st).

Definition setAnimals (v : list AnimalData.t) (st : State) : State :=
  mk (spearState st) (handPosition st) (powerLevel st) (thrownSpears st) v
    (playerHealth st) (score st) (screenFlash st) (hitMessage st)
    (isPaused st) (isGameOver st) (cameraRotation st) (powerDirection st)
    (spearIdCounter st) (animalIdCounter st) (timeouts st).

Definition setPlayerHealth (v : Z) (st : State) : State :=
  mk (spearState st) (handPosition st) (powerLevel st) (thrownSpears st)
    (animals st) v (score st) (screenFlash st) (hitMessage st) (isPaused st)
    (isGameOver st) (cameraRotation st) (powerDirection st)
    (spearIdCounter st) (animalIdCounter st) (timeouts st).

Definition setScore (v : Z) (st : State) : State :=
  mk (spearState st) (handPosition st) (powerLevel st) (thrownSpears st)
    (animals st) (playerHealth st) v (screenFlash st) (hitMessage st)
    (isPaused st) (isGameOver st) (cameraRotation st) (powerDirection st)
    (spearIdCounter st) (animalIdCounter st) (timeouts st).

Definition setScreenFlash (v : bool) (st : State) : State :=
  mk (spearState st) (handPosition st) (powerLevel st) (thrownSpears st)
    (animals st) (playerHealth st) (score st) v (hitMessage st) (isPaused st)
    (isGameOver st) (cameraRotation st) (powerDirection st)
    (spearIdCounter st) (animalIdCounter st) (timeouts st).

Definition setHitMessage (v : string) (st : State) : State :=
  mk (spearState st) (handPosition st) (powerLevel st) (thrownSpears st)
    (animals st) (playerHealth st) (score st) (screenFlash st) v (isPaused st)
    (isGameOver st) (cameraRotation st) (powerDirection st)
    (spearIdCounter st) (animalIdCounter st) (timeouts st).

Definition setIsPaused (v : bool) (st : State) : State :=
  mk (spearState st) (handPosition st) (powerLevel st) (thrownSpears st)
    (animals st) (playerHealth st) (score st) (screenFlash st) (hitMessage st)
    v (isGameOver st) (cameraRotation st) (powerDirection st)
    (spearIdCounter st) (animalIdCounter st) (timeouts st).

Definition setIsGameOver (v : bool) (st : State) : State :=
  mk (spearState st) (handPosition st) (powerLevel st) (thrownSpears st)
    (animals st) (playerHealth st) (score st) (screenFlash st) (hitMessage st)
    (isPaused st) v (cameraRotation st) (powerDirection st)
    (spearIdCounter st) (animalIdCounter st) (timeouts st).

Definition setCameraRotation (v : Rotation) (st : State) : State :=
  mk (spearState st) (handPosition st) (powerLevel st) (thrownSpears st)
    (animals st) (playerHealth st) (score st) (screenFlash st) (hitMessage st)
    (isPaused st) (isGameOver st) v (powerDirection st) (spearIdCounter st)
    (animalIdCounter st) (timeouts st).

Definition setPowerDirection (v : Z) (st : State) : State :=
  mk (spearState st) (handPosition st) (powerLevel st) (thrownSpears st)
    (animals st) (playerHealth st) (score st) (screenFlash st) (hitMessage st)
    (isPaused st) (isGameOver st) (cameraRotation st) v (spearIdCounter st)
    (animalIdCounter st) (timeouts st).

Definition setSpearIdCounter (v : Z) (st : State) : State :=
  mk (spearState st) (handPosition st) (powerLevel st) (thrownSpears st)
    (animals st) (playerHealth st) (score st) (screenFlash st) (hitMessage st)
    (isPaused st) (isGameOver st) (cameraRotation st) (powerDirection st) v
    (animalIdCounter st) (timeouts st).

Definition setAnimalIdCounter (v : Z) (st : State) : State :=
  mk (spearState st) (handPosition st) (powerLevel st) (thrownSpears st)
    (animals st) (playerHealth st) (score st) (screenFlash st) (hitMessage st)
    (isPaused st) (isGameOver st) (cameraRotation st) (powerDirection st)
    (spearIdCounter st) v (timeouts st).

Definition setTimeouts (v : list (Timer * Z)) (st : State) : State :=
  mk (spearState st) (handPosition st) (powerLevel st) (thrownSpears st)
    (animals st) (playerHealth st) (score st) (screenFlash st) (hitMessage st)
    (isPaused st) (isGameOver st) (cameraRotation st) (powerDirection st)
    (spearIdCounter st) (animalIdCounter st) v.

Definition setTimeout (cb : Timer) (ms : Z) (st : State) : State :=
  setTimeouts (timeouts st ++ [(cb, ms)]) st.

(** *** The power meter *)

(** One tick of the 30 ms interval.  The effect that owns the interval
    returns before creating it when [isPaused || isGameOver], and its
    cleanup clears it when either changes, so the interval ticks only
    while both are false. *)
Definition powerTick (st : State) : State :=
  if isPaused st || isGameOver st then st
  else
    let prev := powerLevel st in
    let newLevel := (prev + powerDirection st * 4)%Z in
    if (100 <=? newLevel)%Z then setPowerLevel 100 (setPowerDirection (- 1) st)
    else if (newLevel <=? 0)%Z then setPowerLevel 0 (setPowerDirection 1 st)
    else setPowerLevel newLevel st.

(** The velocity a throw gets at power [powerLevel]. *)
Definition throwVelocity (powerLevel : Z) : Vec3 :=
  let powerRatio := inject_Z powerLevel / 100 in
  let baseVelocity := 2 + powerRatio * 8 in
  let zVelocity := - baseVelocity * (1 + powerRatio * 8) in
  let yVelocity := 1 + powerRatio * 2 in
  let xVelocity := 0 in
  mkVec3 xVelocity yVelocity zVelocity.

(** *** The spawner *)

(** One tick of the 8 s interval.  The constants its guard reads are
    those of the render that created the interval, and the interval is
    created anew whenever [playerHealth], [isPaused] or [isGameOver]
    changes: they are the current values. *)
Definition spawnTick (randType randX : Q) (now : Z) (st : State) : State :=
  if (playerHealth st <=? 0)%Z || isPaused st || isGameOver st then st
  else
    let selectedType := HandVariant.selectType randType in
    let spawnX := (randX - (1 # 2)) * 15 in
    let spawnY := 0 in
    let spawnZ := - 25 in
    let newAnimal :=
      AnimalData.mk (animalIdCounter st) selectedType
                    (mkVec3 spawnX spawnY spawnZ) now in
    setAnimals (animals st ++ [newAnimal])
               (setAnimalIdCounter (animalIdCounter st + 1) st).

(** *** Handlers *)

Definition handleAnimalReachPlayer (damage : Z) (st : State) : State :=
  let prev := playerHealth st in
  let newHealth := Z.max 0 (prev - damage) in
  let st := if (newHealth <=? 0)%Z then setIsGameOver true st else st in
  let st := setPlayerHealth newHealth st in
  setTimeout ClearScreenFlash 200 (setScreenFlash true st).

Definition handleAnimalHit (scorePoints spearId : Z) (st : State) : State :=
  let st := setScore (score st + scorePoints)%Z st in
  if negb (spearId =? 0)%Z
  then setThrownSpears (App.removeSpear spearId (thrownSpears st)) st
  else st.

Definition handleHitMessage (message : string) (st : State) : State :=
  setTimeout ClearHitMessage 1500 (setHitMessage message st).

Definition handleSpearMiss (randomMessage : string) (spearId : Z) (st : State) : State :=
  setTimeout (RemoveMissedSpear spearId) 1000 (handleHitMessage randomMessage st).

Definition handleTogglePause (st : State) : State :=
  if negb (isGameOver st) then setIsPaused (negb (isPaused st)) st else st.

Definition handleRestart (st : State) : State :=
  let st := setPlayerHealth 100 st in
  let st := setScore 0 st in
  let st := setAnimals [] st in
  let st := setThrownSpears [] st in
  let st := setIsGameOver false st in
  let st := setIsPaused false st in
  let st := setHitMessage "" st in
  let st := setScreenFlash false st in
  let st := setSpearState IDLE st in
  let st := setSpearIdCounter 0 st in
  setAnimalIdCounter 0 st.

Definition handleCameraRotation (degrees : Rotation) (st : State) : State :=
  setCameraRotation degrees st.

Definition runTimer (t : Timer) (st : State) : State :=
  match t with
  | ClearScreenFlash => setScreenFlash false st
  | ClearHitMessage => setHitMessage "" st
  | RemoveMissedSpear spearId =>
      setThrownSpears (App.removeSpear spearId (thrownSpears st)) st
  | BackToIdle => setSpearState IDLE st
  | HitAfterImpact scorePoints spearId => handleAnimalHit scorePoints spearId st
  end.

(** *** The hand effect: grip and throw *)

(** The point the hand is at, from [handLandmarks[9]]. *)
Definition gripPoint (handCenter : Landmark) (rotation : Rotation) : Vec3 :=
  let x := ((1 # 2) - c0 handCenter) * 25 in
  let y := (1 - c1 handCenter) * (25 # 10) in
  let '(rotatedX, rotatedY) := App.rotateCoordinates x y rotation in
  mkVec3 rotatedX rotatedY (5 + c2 handCenter * - (3)).

(** The effect, run on the state [r] of the render that triggered it.
    [handLandmarks[9]] is [undefined] for an array of fewer than ten
    landmarks, and reading its [x] raises; spreading [handPosition]
    raises while it is [null]. *)
Definition handEffect (handLandmarks : option (list Landmark)) (isReady : bool)
           (now : Z) (r : State) : option State :=
  match handLandmarks with
  | Some l =>
      if isReady && negb (isPaused r) && negb (isGameOver r) then
        let isFist := detectFist handLandmarks in
        let isOpenPalm := detectOpenPalm handLandmarks in
        match nth_error l 9 with
        | None => None
        | Some handCenter =>
            let position := gripPoint handCenter (cameraRotation r) in
            let st :=
              if SPEAR_STATES_eqb (spearState r) GRIPPED
              then setHandPosition (Some position) r else r in
            if isFist && SPEAR_STATES_eqb (spearState r) IDLE then
              Some (setHandPosition (Some position) (setSpearState GRIPPED st))
            else if isOpenPalm && SPEAR_STATES_eqb (spearState r) GRIPPED then
              let velocity := throwVelocity (powerLevel r) in
              match handPosition r with
              | None => None
              | Some hand =>
                  let newSpear :=
                    Spear.mkData (spearIdCounter st) hand velocity now true false in
                  let st := setSpearIdCounter (spearIdCounter st + 1) st in
                  let st := setThrownSpears (thrownSpears st ++ [newSpear]) st in
                  let st := setSpearState THROWING st in
                  Some (setTimeout BackToIdle 500 st)
              end
            else Some st
        end
      else Some r
  | None => Some r
  end.

(** *** Sessions *)

Inductive Event : Type :=
| HandEffect (handLandmarks : option (list Landmark)) (isReady : bool) (now : Z)
| PowerTick
| SpawnTick (randType randX : Q) (now : Z)
| TogglePause
| Restart
| CameraRotation (degrees : Rotation)
| AnimalReachPlayer (damage : Z)
| AnimalHit (scorePoints spearId : Z)
| HitMessage (message : string)
| SpearMiss (randomMessage : string) (spearId : Z)
| Schedule (t : Timer) (ms : Z)
| Fire (k : nat)
| Cancel (k : nat).

Definition run (st : State) (e : Event) : option State :=
  match e with
  | HandEffect handLandmarks isReady now => handEffect handLandmarks isReady now st
  | PowerTick => Some (powerTick st)
  | SpawnTick randType randX now => Some (spawnTick randType randX now st)
  | TogglePause => Some (handleTogglePause st)
  | Restart => Some (handleRestart st)
  | CameraRotation degrees => Some (handleCameraRotation degrees st)
  | AnimalReachPlayer damage => Some (handleAnimalReachPlayer damage st)
  | AnimalHit scorePoints spearId => Some (handleAnimalHit scorePoints spearId st)
  | HitMessage message => Some (handleHitMessage message st)
  | SpearMiss randomMessage spearId => Some (handleSpearMiss randomMessage spearId st)
  | Schedule t ms => Some (setTimeout t ms st)
  | Fire k =>
      match nth_error (timeouts st) k with
      | Some (t, _) =>
          Some (runTimer t (setTimeouts (Session.dropNth k (timeouts st)) st))
      | None => Some st
      end
  | Cancel k => Some (setTimeouts (Session.dropNth k (timeouts st)) st)
  end.

Fixpoint exec (st : State) (evs : list Event) : option State :=
  match evs with
  | [] => Some st
  | e :: rest =>
      match run st e with
      | Some st' => exec st' rest
      | None => None
      end
  end.

(** What the surroundings guarantee of an event: a hand has at least ten
    landmarks (MediaPipe delivers twenty-one), and the damage of an animal
    type is not negative. *)
Definition expected (e : Event) : bool :=
  match e with
  | HandEffect (Some l) _ _ => (10 <=? List.length l)%nat
  | AnimalReachPlayer damage => (0 <=? damage)%Z
  | _ => true
  end.

(** What holds of every state of a session. *)
Definition sound (st : State) : Prop :=
  (0 <= playerHealth st <= 100)%Z
  /\ (isGameOver st = true <-> playerHealth st = 0%Z)
  /\ (0 <= powerLevel st <= 100)%Z
  /\ (powerDirection st = 1%Z \/ powerDirection st = (- 1)%Z)
  /\ (spearState st = GRIPPED -> handPosition st <> None).

(** The events whose code tests [isGameOver]. *)
Definition stoppedByGameOver (e : Event) : bool :=
  match e with
  | HandEffect _ _ _ | PowerTick | SpawnTick _ _ _ | TogglePause => true
  | _ => false
  end.

End HandGame.

(** ** Outcomes of the collision loop *)

(** The state the collision loop leads to: either no spear was resolved,
    or the health is one less than the frame found it, however many
    spears were resolved, and a health of [0] or less ends the life. *)
Definition loopOutcome (st s : Animal.State) : Prop :=
  Animal.position s = Animal.position st
  /\ ((Animal.health s = Animal.health st
       /\ Animal.isAlive s = Animal.isAlive st
       /\ Animal.isDying s = Animal.isDying st)
      \/ (Animal.health s = (Animal.health st - 1)%Z
          /\ Animal.isAlive s
             = (if (Animal.health st - 1 <=? 0)%Z then false else Animal.isAlive st)
          /\ Animal.isDying s
             = (if (Animal.health st - 1 <=? 0)%Z then true else Animal.isDying st))).

(** What holds of an animal's state throughout its life. *)
Definition healthy (a : AnimalData.t) (st : Animal.State) : Prop :=
  (0 <= Animal.health st <= AnimalType.health (AnimalData.type a))%Z
  /\ (Animal.isAlive st = true -> (1 <= Animal.health st)%Z)
  /\ (Animal.isDying st = true -> Animal.isAlive st = false).

Definition onTrack (a : AnimalData.t) (st : Animal.State) : Prop :=
  c0 (Animal.position st) = c0 (AnimalData.position a)
  /\ c1 (Animal.position st) = c1 (AnimalData.position a)
  /\ c2 (Animal.position st) < 8.

(** ** The sum of the weights *)


(** ** The animal of the hand-tracking build *)

(** The hook state of the [Animal] of the second source file is the one of
    the first; these are the updates its calls queue. *)
Module HandAnimal.

Definition apply (st : Animal.State) (e : HandVariant.Effect) : Animal.State :=
  match e with
  | HandVariant.SetIsAlive b =>
      Animal.mkState (Animal.position st) (Animal.health st) b
                     (Animal.stuckSpears st) (Animal.isDying st)
  | HandVariant.SetHealth h =>
      Animal.mkState (Animal.position st) h (Animal.isAlive st)
                     (Animal.stuckSpears st) (Animal.isDying st)
  | HandVariant.PushStuckSpear i =>
      Animal.mkState (Animal.position st) (Animal.health st) (Animal.isAlive st)
                     (Animal.stuckSpears st ++ [i]) (Animal.isDying st)
  | HandVariant.SetIsDying b =>
      Animal.mkState (Animal.position st) (Animal.health st) (Animal.isAlive st)
                     (Animal.stuckSpears st) b
  | HandVariant.SetPosition p =>
      Animal.mkState p (Animal.health st) (Animal.isAlive st)
                     (Animal.stuckSpears st) (Animal.isDying st)
  | HandVariant.OnReachPlayer _ | HandVariant.SpearSetHasHitAnimal _ _
  | HandVariant.OnHitMessage | HandVariant.SetTimeout _ _
  | HandVariant.OnHit _ _ => st
  end.

Definition commit (st : Animal.State) (effs : list HandVariant.Effect) : Animal.State :=
  fold_left apply effs st.

Definition isArrival (e : HandVariant.Effect) : bool :=
  match e with HandVariant.OnReachPlayer _ => true | _ => false end.

Definition isCollisionEffect (e : HandVariant.Effect) : bool :=
  match e with
  | HandVariant.SetHealth _ | HandVariant.PushStuckSpear _
  | HandVariant.SpearSetHasHitAnimal _ _ | HandVariant.OnHitMessage
  | HandVariant.SetTimeout _ _ | HandVariant.OnHit _ _
  | HandVariant.SetIsDying _ => true
  | _ => false
  end.

End HandAnimal.

(** How [Scene] of the second source file wires an [Animal] to [App]:
    [onReachPlayer] is [handleAnimalReachPlayer], [onHit] is
    [handleAnimalHit], [onHitMessage] is [handleHitMessage]. *)
Module HandScene.

Definition animalCall (randomMessage : string) (st : HandGame.State)
           (e : HandVariant.Effect) : HandGame.State :=
  match e with
  | HandVariant.OnReachPlayer damage => HandGame.handleAnimalReachPlayer damage st
  | HandVariant.OnHit scorePoints spearId =>
      HandGame.handleAnimalHit scorePoints spearId st
  | HandVariant.OnHitMessage => HandGame.handleHitMessage randomMessage st
  | HandVariant.SetTimeout (HandVariant.LaterOnHit scorePoints spearId) ms =>
      HandGame.setTimeout (HandGame.HitAfterImpact scorePoints spearId) ms st
  | _ => st
  end.

End HandScene.

(** ** Requests and callbacks among the pending timeouts *)

(** A pending death-animation callback. *)
Definition isDeathCallback (t : App.Timer * Z) : bool :=
  match fst t with App.DeathAnimationComplete _ _ => true | _ => false end.
(** ** Concrete scenes used below *)

Module Examples.

(** A spear in flight at frame time [1/64], about to hit nothing. *)
Definition flyingSpear : ThrownSpear.State :=
  ThrownSpear.mkState (mkVec3 0 (- 3) 0) (mkVec3 0 (23 # 10) (- 39)) true false false.

(** A spear thrown wide of the backboard ([x = 10]) whose next step
    carries it past [z = -35]. *)
Definition wideSpear : ThrownSpear.State :=
  ThrownSpear.mkState (mkVec3 10 0 (- (349 # 10))) (mkVec3 0 (- 2) (- 39))
                      true false false.

(** [wideSpear] one frame later: stored out of bounds, still active. *)
Definition wideSpearGone : ThrownSpear.State :=
  ThrownSpear.commit wideSpear (ThrownSpear.useFrame 1 false wideSpear (1 # 64)).

(** A cheetah hit once, half a unit short of the player. *)
Definition cheetah : AnimalData.t :=
  AnimalData.mk 4 CHEETAH (mkVec3 (1 # 4) (- 4) (- 25)) 0.

Definition cheetahNearPlayer : Animal.State :=
  Animal.mkState (mkVec3 (1 # 4) (- 4) (15 # 2)) 1 true [] false.

(** A session in progress: gripped, one spear in the air, one animal, a
    score, a last shot at [t = 5000] ms. *)
Definition antelope : AnimalData.t :=
  AnimalData.mk 2 ANTELOPE (mkVec3 0 (- 4) (- 25)) 4000.

Definition spearInAir : Spear.Data :=
  Spear.mkData 3 (mkVec3 0 (- 3) 0) App.throwVelocity 5000 true false.

Definition midGame : App.State :=
  App.mk GRIPPED (Some (mkVec3 0 (- 3) 5)) [spearInAir] [antelope] 150
         "HIT!" "" false R0 5000 4 3 [].

(** Thirty-three pose landmarks: the nose at [(1/2, 3/10)], both shoulders
    at height [1/2], the left wrist raised to [1/5], the rest at the origin. *)
Definition handUp : list Landmark :=
  map (fun i =>
         if (i =? 0)%nat then mkVec3 (1 # 2) (3 # 10) 0
         else if (i =? 11)%nat then mkVec3 (4 # 10) (1 # 2) 0
         else if (i =? 12)%nat then mkVec3 (6 # 10) (1 # 2) 0
         else if (i =? 15)%nat then mkVec3 (3 # 10) (1 # 5) 0
         else if (i =? 16)%nat then mkVec3 (7 # 10) (8 # 10) 0
         else origin)
      (seq 0 33).

(** The paused counterpart of [midGame]. *)
Definition pausedGame : App.State := App.handleTogglePause midGame.

(** The constants of a render in which the game runs. *)
Definition running : App.Closure := App.mkClosure false [antelope].

(** An antelope on its way, and a spear that has just come within reach. *)
Definition antelopeOnItsWay : Animal.State :=
  Animal.mkState (mkVec3 0 (- 4) (- 10)) 1 true [] false.

Definition spearAtAntelope : Spear.Data :=
  Spear.mkData 3 (mkVec3 0 (- 3) (- (73 # 10))) App.throwVelocity 5000 true false.

Definition antelopeHunt : App.State :=
  App.mk GRIPPED (Some (mkVec3 0 (- 3) 5)) [spearAtAntelope] [antelope] 0
         "" "" false R0 5000 4 3 [].

(** The state of a spear [n] frames of [1/64] s after it was thrown from
    [aim]. *)
Definition inFlight (spearId : Z) (aim : Vec3) (n : nat) : ThrownSpear.State :=
  snd (Lifetime.live spearId (ThrownSpear.initial aim App.throwVelocity)
         (repeat (Lifetime.Frame false (1 # 64)) n)).

Definition thrown (spearId : Z) (aim : Vec3) (now : Z) (n : nat) : Spear.Data :=
  Spear.render (Spear.mkData spearId aim App.throwVelocity now true false)
               (inFlight spearId aim n).

(** An elephant hit twice already.  Spear 7 was thrown wide and has flown
    one frame when the game is paused; spear 8 is thrown right after the
    game resumes, a second later, and has not moved yet. *)
Definition elephant : AnimalData.t :=
  AnimalData.mk 1 ELEPHANT (mkVec3 0 (- 4) (- 25)) 1000.

Definition woundedElephant : Animal.State :=
  Animal.mkState (mkVec3 0 (- 4) 3) 1 true [5%Z; 6%Z] false.

Definition spearSeven : Spear.Data := thrown 7 (mkVec3 (24 # 10) (- 3) 5) 9000 1.

Definition spearEight : Spear.Data := thrown 8 (mkVec3 0 (- 3) 5) 10100 0.

Definition elephantHunt : App.State :=
  App.mk GRIPPED (Some (mkVec3 0 (- 3) 5)) [spearSeven; spearEight] [elephant] 200
         "" "" false R0 10100 9 2 [].

(** A spear thrown low from [(0, -3, 5)]: after 35 frames it is a
    hair above the ground, next to a fresh elephant that has walked from
    [z = -25] to [z = -19]. *)
Definition lowAim : Vec3 := mkVec3 0 (- 3) 5.

Definition lowSpear : ThrownSpear.State := inFlight 9 lowAim 35.

Definition lowSpearData : Spear.Data := thrown 9 lowAim 20000 35.

Definition freshElephant : Animal.State :=
  Animal.mkState (mkVec3 0 (- 4) (- 19)) 3 true [] false.

Definition lowThrow : App.State :=
  App.mk GRIPPED (Some lowAim) [lowSpearData] [elephant] 0
         "" "" false R0 20000 10 2 [].

(** The frame before. *)
Definition lowSpearDataBefore : Spear.Data := thrown 9 lowAim 20000 34.

Definition freshElephantBefore : Animal.State :=
  Animal.mkState (mkVec3 0 (- 4) (- 19 - (4 # 10) * (1 # 64))) 3 true [] false.

(** A first spawn, an arrival of that animal, and its replacement. *)
Definition spawnArriveRespawn : list Session.Event :=
  [Session.Schedule (App.SpawnNewAnimal running) 1000;
   Session.Fire 0 (1 # 2) (1 # 2) 1000;
   Session.AnimalReachPlayer running 50 0;
   Session.Fire 0 (3 # 4) (1 # 4) 9000].

End Examples.


(** ** More scenes *)

Module Scenes.

(** The low throw of [Examples], seen from the elephant: the frame in
    which the spear comes within reach, then two more frames with the same
    spear still in the registry. *)
Definition reach : AnimalLife.Step :=
  AnimalLife.Tick (AnimalLife.mkFrame false [Examples.lowSpearData] (1 # 64)).

Definition afterwards : list AnimalLife.Step := [reach; reach].

(** A second elephant, one lane over, next to the first. *)
Definition otherElephant : AnimalData.t :=
  AnimalData.mk 2 ELEPHANT (mkVec3 (1 # 4) (- 4) (- 25)) 2000.

Definition otherElephantState : Animal.State :=
  Animal.mkState (mkVec3 (1 # 4) (- 4) (- 19)) 3 true [] false.

(** A life with pauses: two frames, a pause of three frames, two more. *)
Definition interrupted : list Lifetime.Step :=
  [Lifetime.Frame false (1 # 64); Lifetime.Frame false (1 # 64);
   Lifetime.Frame true (1 # 64); Lifetime.Frame true (1 # 2);
   Lifetime.Frame true (1 # 64);
   Lifetime.Frame false (1 # 64); Lifetime.Frame false (1 # 64)].

(** The spear of the low throw after it has touched the ground. *)
Definition landed : ThrownSpear.State := Examples.inFlight 9 Examples.lowAim 36.

(** Twenty landmarks only: the pose model lost most of the body. *)
Definition partialPose : list Landmark := firstn 20 Examples.handUp.

(** The nose of [Examples.handUp]. *)
Definition nose : Vec3 := mkVec3 (1 # 2) (3 # 10) 0.

(** A running game whose first spawn has already happened. *)
Definition afterFirstSpawn : InitialSpawn.State :=
  InitialSpawn.mk Examples.midGame None.

(** The first throw of a session: the spear with id [0] is in the air. *)
Definition firstSpear : Spear.Data :=
  Spear.mkData 0 Examples.lowAim App.throwVelocity 1000 true false.

Definition firstThrow : App.State :=
  App.mk THROWING (Some Examples.lowAim) [firstSpear] [Examples.elephant] 0
         "" "" false R0 1000 1 2 [(App.BackToGripped, 500%Z)].

(** The player aims left, loses the tracking, throws, aims again. *)
Definition aimAndThrow : list SpearCursor.Step :=
  [SpearCursor.Frame None GRIPPED;
   SpearCursor.Effect THROWING;
   SpearCursor.Frame (Some (mkVec3 3 (- 2) 5)) THROWING;
   SpearCursor.Effect GRIPPED;
   SpearCursor.Frame None GRIPPED].

(** A half-closed hand of twenty-one landmarks: the four fingertips hang
    below their middle joints but above the knuckles, the thumb lies
    across the index finger. *)
Definition halfClosedHand : list Landmark :=
  map (fun i =>
         if existsb (Nat.eqb i) [8; 12; 16; 20]%nat then mkVec3 (1 # 2) (4 # 10) 0
         else if existsb (Nat.eqb i) [6; 10; 14; 18]%nat then mkVec3 (1 # 2) (3 # 10) 0
         else if existsb (Nat.eqb i) [5; 9; 13; 17]%nat then mkVec3 (1 # 2) (1 # 2) 0
         else if (i =? 4)%nat then mkVec3 (2 # 10) (1 # 2) 0
         else if (i =? 2)%nat then mkVec3 (3 # 10) (1 # 2) 0
         else mkVec3 (1 # 2) (6 # 10) 0)
      (seq 0 21).

(** A short game with the hand: grip, throw, two elephants arrive, the
    player tries to pause, the throw's timeout fires. *)
Definition handSession : list HandGame.Event :=
  [HandGame.HandEffect (Some halfClosedHand) true 1000;
   HandGame.HandEffect (Some halfClosedHand) true 1033;
   HandGame.PowerTick;
   HandGame.AnimalReachPlayer 50;
   HandGame.AnimalReachPlayer 50;
   HandGame.TogglePause;
   HandGame.Fire 0].

(** The hand game right after a throw. *)
Definition justThrown : HandGame.State :=
  HandGame.mk THROWING (Some (mkVec3 0 1 5)) 40
    [Spear.mkData 0 (mkVec3 0 1 5) (HandGame.throwVelocity 40) 1033 true false]
    [] 100 0 false "" false false R0 1 1 0 [(HandGame.BackToIdle, 500%Z)].

(** The hand game after the player's health has run out. *)
Definition lost : HandGame.State :=
  HandGame.mk GRIPPED (Some (mkVec3 0 1 5)) 40 [] [] 0 75 true "" false true R0 1 2 3 [].

(** The first animal of a session, an antelope with id [0], a step away
    from a spear; one spear (id [0]) has been thrown and removed before. *)
Definition firstAntelope : AnimalData.t :=
  AnimalData.mk 0 ANTELOPE (mkVec3 0 (- 4) (- 25)) 1000.

Definition secondSpear : Spear.Data :=
  Spear.mkData 1 (mkVec3 0 (- 3) (- (73 # 10))) App.throwVelocity 5000 true false.

Definition firstHunt : App.State :=
  App.mk GRIPPED (Some Examples.lowAim) [secondSpear] [firstAntelope] 0
         "" "" false R0 5000 2 1 [].

(** A spear in the air right in front of the player line. *)
Definition spearAtTheLine : Spear.Data :=
  Spear.mkData 6 (mkVec3 0 (- 3) 7) App.throwVelocity 5000 true false.

(** The hand game: a cheetah hit once, half a unit short of the player,
    and a twin of it with another id. *)
Definition handCheetah : AnimalData.t :=
  AnimalData.mk 4 HandVariant.CHEETAH (mkVec3 (1 # 4) 0 (- 25)) 0.

Definition handCheetahTwin : AnimalData.t :=
  AnimalData.mk 5 HandVariant.CHEETAH (mkVec3 (1 # 4) 0 (- 25)) 0.

Definition handCheetahNearPlayer : Animal.State :=
  Animal.mkState (mkVec3 (1 # 4) 0 (15 # 2)) 1 true [] false.

Definition handSpearAtTheLine : Spear.Data :=
  Spear.mkData 6 (mkVec3 0 1 7) (HandGame.throwVelocity 40) 5000 true false.

Definition handUnderAttack : HandGame.State :=
  HandGame.mk GRIPPED (Some (mkVec3 0 1 5)) 40 [handSpearAtTheLine]
    [handCheetah; handCheetahTwin] 100 0 false "" false false R0 1 7 6 [].

(** A kill as [App] sees it: the hit message, the impact timeout, the
    direct hit event, the death timer; then the impact timeout fires. *)
Definition killAndScore : list Session.Event :=
  [Session.HitMessage "HIT!";
   Session.Schedule (App.HitAfterImpact 50 3 2) 500;
   Session.AnimalHit 50 3 2;
   Session.Schedule (App.DeathAnimationComplete Examples.running 2) 800;
   Session.Fire 1 (1 # 2) (1 # 2) 5600].

(** One long frame (the tab was in the background for fifteen seconds)
    that takes a fresh elephant from its spawn point to [z = -19]. *)
Definition longWalk : AnimalLife.Step :=
  AnimalLife.Tick (AnimalLife.mkFrame false [] 15).

End Scenes.
(** * Properties *)

(** ** Comparisons on rationals *)

Lemma Qleb_le (a b : Q) : Qleb a b = true <-> (a <= b)%Q.
Proof. apply Qle_bool_iff. Qed.

Lemma Qltb_lt (a b : Q) : Qltb a b = true <-> (a < b)%Q.
Proof.
  unfold Qltb. rewrite negb_true_iff. split; intro H.
  - apply Qnot_le_lt. intro Hle. apply Qle_bool_iff in Hle. congruence.
  - destruct (Qle_bool b a) eqn:E; [|reflexivity].
    apply Qle_bool_iff in E. exfalso. exact (Qlt_not_le _ _ H E).
Qed.

Lemma Qltb_false_le (a b : Q) : Qltb a b = false <-> (b <= a)%Q.
Proof.
  unfold Qltb. rewrite negb_false_iff. apply Qle_bool_iff.
Qed.

Lemma Qleb_false_lt (a b : Q) : Qleb a b = false <-> (b < a)%Q.
Proof.
  unfold Qleb. split; intro H.
  - apply Qnot_le_lt. intro Hle. apply Qle_bool_iff in Hle. congruence.
  - destruct (Qle_bool a b) eqn:E; [|reflexivity].
    apply Qle_bool_iff in E. exfalso. exact (Qlt_not_le _ _ H E).
Qed.

(** ** Projectile physics *)

Section SpearPhysics.

Import ThrownSpear.

Variable spearId : Z.

Lemma reportMiss_misses (st : State) : (misses (reportMiss spearId st) <= 1)%nat.
Proof.
  unfold reportMiss, misses.
  destruct (negb (hasTriggeredMiss st) && negb (hasHitAnimal st)); simpl; lia.
Qed.

Lemma commit_app (st : State) (l1 l2 : list Effect) :
  commit st (l1 ++ l2) = commit (commit st l1) l2.
Proof. unfold commit. apply fold_left_app. Qed.

(** [reportMiss] touches neither the kinematic state nor [isActive]. *)
Lemma commit_reportMiss (st0 st : State) :
  position (commit st (reportMiss spearId st0)) = position st
  /\ velocity (commit st (reportMiss spearId st0)) = velocity st
  /\ isActive (commit st (reportMiss spearId st0)) = isActive st
  /\ hasHitAnimal (commit st (reportMiss spearId st0)) = hasHitAnimal st.
Proof.
  unfold reportMiss.
  destruct (negb (hasTriggeredMiss st0) && negb (hasHitAnimal st0)); simpl; auto.
Qed.

Lemma running_frame (st : State) :
  meshRef st = true -> isActive st = true ->
  negb (meshRef st) || negb (isActive st) || false = false.
Proof. intros -> ->. reflexivity. Qed.

End SpearPhysics.

(** C6, at a concrete spear: active, not paused, but stored out of bounds
    and hence unmounted.  Its frame callback returns at the first guard:
    the velocity keeps its [y] component and the position does not move. *)
Lemma C6_unmounted_active_spear_is_not_integrated :
  let st := Examples.wideSpearGone in
  let delta := 1 # 64 in
  let st' := ThrownSpear.commit st (ThrownSpear.useFrame 1 false st delta) in
  ThrownSpear.isActive st = true
  /\ ThrownSpear.meshRef st = false
  /\ ThrownSpear.useFrame 1 false st delta = []
  /\ st' = st
  /\ ~ c1 (ThrownSpear.velocity st')
        == c1 (ThrownSpear.velocity st) - (98 # 10) * delta.
Proof.
  cbv zeta. repeat split.
  vm_compute. discriminate.
Qed.

(** C6, as the code has it.  A spear whose group is mounted (its stored
    position is within the render bounds) and which is active and not
    paused first loses [9.8 * delta] of vertical velocity and then moves by
    the new velocity times [delta].  Of the terminal tests the backboard
    comes first and clamps [z] to the plane and deactivates; only when it
    fails the ground is tried, clamping [y] to the floor and deactivating;
    only when both fail the position is stored as computed (out of bounds
    or not).  One frame therefore deactivates at most once and reports at
    most one miss. *)
Theorem C6_integration_then_prioritised_terminals
  (spearId : Z) (st : ThrownSpear.State) (delta : Q) :
  ThrownSpear.meshRef st = true ->
  ThrownSpear.isActive st = true ->
  let v := ThrownSpear.velocity st in
  let p := ThrownSpear.position st in
  let newVelocity := mkVec3 (c0 v) (c1 v - (98 # 10) * delta) (c2 v) in
  let newPosition :=
    mkVec3 (c0 p + c0 newVelocity * delta)
           (c1 p + c1 newVelocity * delta)
           (c2 p + c2 newVelocity * delta) in
  let effs := ThrownSpear.useFrame spearId false st delta in
  let st' := ThrownSpear.commit st effs in
  ThrownSpear.velocity st' = newVelocity
  /\ (ThrownSpear.hitsBackboard newPosition = true ->
        ThrownSpear.position st' = mkVec3 (c0 newPosition) (c1 newPosition) (- (299 # 10))
        /\ ThrownSpear.isActive st' = false)
  /\ (ThrownSpear.hitsBackboard newPosition = false ->
      ThrownSpear.hitsGround newPosition = true ->
        ThrownSpear.position st' = mkVec3 (c0 newPosition) (- (325 # 100)) (c2 newPosition)
        /\ ThrownSpear.isActive st' = false)
  /\ (ThrownSpear.hitsBackboard newPosition = false ->
      ThrownSpear.hitsGround newPosition = false ->
        ThrownSpear.position st' = newPosition
        /\ ThrownSpear.isActive st' = true)
  /\ (ThrownSpear.deactivations effs <= 1)%nat
  /\ (ThrownSpear.misses effs <= 1)%nat.
Proof.
  intros Hmesh Hact v p newVelocity newPosition effs st'.
  assert (Hrun : effs =
    if ThrownSpear.hitsBackboard newPosition then
      ThrownSpear.SetIsActive false :: ThrownSpear.reportMiss spearId st
        ++ [ThrownSpear.SetVelocity newVelocity;
            ThrownSpear.SetPosition (setC2 newPosition ThrownSpear.backboardZ)]
    else if ThrownSpear.hitsGround newPosition then
      ThrownSpear.SetIsActive false :: ThrownSpear.reportMiss spearId st
        ++ [ThrownSpear.SetVelocity newVelocity;
            ThrownSpear.SetPosition (setC1 newPosition ThrownSpear.groundY)]
    else if ThrownSpear.outOfBounds newPosition then
      ThrownSpear.reportMiss spearId st
        ++ [ThrownSpear.SetVelocity newVelocity; ThrownSpear.SetPosition newPosition]
    else [ThrownSpear.SetVelocity newVelocity; ThrownSpear.SetPosition newPosition]).
  { subst effs. unfold ThrownSpear.useFrame.
    rewrite (running_frame st Hmesh Hact). reflexivity. }
  assert (Hmiss : forall l, (ThrownSpear.misses
            (ThrownSpear.reportMiss spearId st ++ [ThrownSpear.SetVelocity newVelocity;
                                                   ThrownSpear.SetPosition l]) <= 1)%nat).
  { intro l. unfold ThrownSpear.misses. rewrite filter_app, length_app. simpl.
    pose proof (reportMiss_misses spearId st) as H. unfold ThrownSpear.misses in H. lia. }
  assert (Hdeact : forall l, ThrownSpear.deactivations
            (ThrownSpear.reportMiss spearId st ++ [ThrownSpear.SetVelocity newVelocity;
                                                   ThrownSpear.SetPosition l]) = 0%nat).
  { intro l. unfold ThrownSpear.deactivations, ThrownSpear.reportMiss.
    destruct (negb _ && negb _); reflexivity. }
  assert (Hcommit : forall s l,
            let s' := ThrownSpear.commit s
                        (ThrownSpear.reportMiss spearId st
                           ++ [ThrownSpear.SetVelocity newVelocity; ThrownSpear.SetPosition l]) in
            ThrownSpear.velocity s' = newVelocity /\ ThrownSpear.position s' = l
            /\ ThrownSpear.isActive s' = ThrownSpear.isActive s).
  { intros s l. cbv zeta. rewrite commit_app.
    destruct (commit_reportMiss spearId st s) as (_ & _ & Ha & _).
    simpl. auto. }
  subst st'. rewrite Hrun.
  destruct (ThrownSpear.hitsBackboard newPosition) eqn:Hb;
    [| destruct (ThrownSpear.hitsGround newPosition) eqn:Hg;
       [| destruct (ThrownSpear.outOfBounds newPosition) eqn:Ho ] ].
  - change (ThrownSpear.commit st (ThrownSpear.SetIsActive false :: ?l))
      with (ThrownSpear.commit (ThrownSpear.apply st (ThrownSpear.SetIsActive false)) l).
    destruct (Hcommit (ThrownSpear.apply st (ThrownSpear.SetIsActive false))
                      (setC2 newPosition ThrownSpear.backboardZ)) as (Hv & Hp & Ha).
    repeat split; try discriminate; auto.
    + unfold ThrownSpear.deactivations in *. simpl.
      specialize (Hdeact (setC2 newPosition ThrownSpear.backboardZ)). simpl in Hdeact. lia.
    + unfold ThrownSpear.misses. simpl. apply Hmiss.
  - change (ThrownSpear.commit st (ThrownSpear.SetIsActive false :: ?l))
      with (ThrownSpear.commit (ThrownSpear.apply st (ThrownSpear.SetIsActive false)) l).
    destruct (Hcommit (ThrownSpear.apply st (ThrownSpear.SetIsActive false))
                      (setC1 newPosition ThrownSpear.groundY)) as (Hv & Hp & Ha).
    repeat split; try discriminate; auto.
    + unfold ThrownSpear.deactivations in *. simpl.
      specialize (Hdeact (setC1 newPosition ThrownSpear.groundY)). simpl in Hdeact. lia.
    + unfold ThrownSpear.misses. simpl. apply Hmiss.
  - destruct (Hcommit st newPosition) as (Hv & Hp & Ha).
    repeat split; try discriminate; auto; try congruence.
    + rewrite Hdeact. lia.
  - simpl. repeat split; try discriminate; auto.
Qed.

Lemma C6_integration_witness :
  ThrownSpear.meshRef Examples.flyingSpear = true
  /\ ThrownSpear.isActive Examples.flyingSpear = true
  /\ ThrownSpear.velocity
       (ThrownSpear.commit Examples.flyingSpear
          (ThrownSpear.useFrame 7 false Examples.flyingSpear (1 # 64)))
     = mkVec3 0 ((23 # 10) - (98 # 10) * (1 # 64)) (- 39).
Proof.
  split; [reflexivity | split; [reflexivity |]].
  exact (proj1 (C6_integration_then_prioritised_terminals
                  7 Examples.flyingSpear (1 # 64) eq_refl eq_refl)).
Defined.

(** A spear whose committed position is out of bounds is unmounted; its
    frame callback does nothing, whatever the other flags say. *)
Lemma unmounted_spear_is_inert (spearId : Z) (isPaused : bool)
      (st : ThrownSpear.State) (delta : Q) :
  ThrownSpear.outOfBounds (ThrownSpear.position st) = true ->
  ThrownSpear.useFrame spearId isPaused st delta = [].
Proof.
  intro H. unfold ThrownSpear.useFrame, ThrownSpear.meshRef. rewrite H. reflexivity.
Qed.

(** C5, at a concrete spear: the new position is past the depth limit and
    touches neither backboard nor ground, and the spear is still active
    after the frame. *)
Lemma C5_out_of_bounds_stays_active :
  let st := Examples.wideSpear in
  let delta := 1 # 64 in
  let newPosition :=
    ThrownSpear.advance (ThrownSpear.position st)
      (ThrownSpear.applyGravity (ThrownSpear.velocity st) delta) delta in
  ThrownSpear.meshRef st = true
  /\ ThrownSpear.isActive st = true
  /\ ThrownSpear.outOfBounds newPosition = true
  /\ ThrownSpear.hitsBackboard newPosition = false
  /\ ThrownSpear.hitsGround newPosition = false
  /\ ThrownSpear.isActive
       (ThrownSpear.commit st (ThrownSpear.useFrame 1 false st delta)) <> false.
Proof.
  cbv zeta. repeat split; try reflexivity.
  vm_compute. discriminate.
Qed.

(** C5, as the code has it.  When the new position of a running spear is
    out of bounds and touches neither backboard nor ground, the frame
    stores it unclamped and leaves [isActive] true; it reports a miss
    exactly when neither latch is set; and since the component then renders
    [null], no later frame callback updates the spear again. *)
Theorem C5_out_of_bounds_unclamped_not_deactivated
  (spearId : Z) (st : ThrownSpear.State) (delta : Q) :
  ThrownSpear.meshRef st = true ->
  ThrownSpear.isActive st = true ->
  let newPosition :=
    ThrownSpear.advance (ThrownSpear.position st)
      (ThrownSpear.applyGravity (ThrownSpear.velocity st) delta) delta in
  ThrownSpear.outOfBounds newPosition = true ->
  ThrownSpear.hitsBackboard newPosition = false ->
  ThrownSpear.hitsGround newPosition = false ->
  let effs := ThrownSpear.useFrame spearId false st delta in
  let st' := ThrownSpear.commit st effs in
  ThrownSpear.position st' = newPosition
  /\ ThrownSpear.isActive st' = true
  /\ ThrownSpear.deactivations effs = 0%nat
  /\ ThrownSpear.misses effs =
       (if negb (ThrownSpear.hasTriggeredMiss st) && negb (ThrownSpear.hasHitAnimal st)
        then 1%nat else 0%nat)
  /\ forall isPaused delta', ThrownSpear.useFrame spearId isPaused st' delta' = [].
Proof.
  intros Hmesh Hact newPosition Ho Hb Hg effs st'.
  assert (Heffs : effs = ThrownSpear.reportMiss spearId st
            ++ [ThrownSpear.SetVelocity (ThrownSpear.applyGravity (ThrownSpear.velocity st) delta);
                ThrownSpear.SetPosition newPosition]).
  { subst effs. unfold ThrownSpear.useFrame.
    rewrite (running_frame st Hmesh Hact). cbv zeta.
    fold newPosition. rewrite Hb, Hg, Ho. reflexivity. }
  assert (Hpos : ThrownSpear.position st' = newPosition).
  { subst st'. rewrite Heffs, commit_app. reflexivity. }
  split; [exact Hpos|].
  split.
  { subst st'. rewrite Heffs, commit_app.
    destruct (commit_reportMiss spearId st st) as (_ & _ & Ha & _).
    simpl. congruence. }
  split.
  { rewrite Heffs. unfold ThrownSpear.deactivations, ThrownSpear.reportMiss.
    destruct (negb _ && negb _); reflexivity. }
  split.
  { rewrite Heffs. unfold ThrownSpear.misses, ThrownSpear.reportMiss.
    destruct (negb _ && negb _); reflexivity. }
  intros isPaused delta'. apply unmounted_spear_is_inert. rewrite Hpos. exact Ho.
Qed.

Lemma C5_out_of_bounds_witness :
  ThrownSpear.meshRef Examples.wideSpear = true
  /\ ThrownSpear.isActive Examples.wideSpear = true
  /\ ThrownSpear.isActive
       (ThrownSpear.commit Examples.wideSpear
          (ThrownSpear.useFrame 1 false Examples.wideSpear (1 # 64))) = true.
Proof.
  split; [reflexivity | split; [reflexivity |]].
  exact (proj1 (proj2 (C5_out_of_bounds_unclamped_not_deactivated
                         1 Examples.wideSpear (1 # 64)
                         eq_refl eq_refl eq_refl eq_refl eq_refl))).
Defined.

(** ** Animal motor *)

Lemma animal_commit_app (st : Animal.State) (l1 l2 : list Animal.Effect) :
  Animal.commit st (l1 ++ l2) = Animal.commit (Animal.commit st l1) l2.
Proof. unfold Animal.commit. apply fold_left_app. Qed.

(** An animal that is not alive, or a paused one, makes no call and
    touches no spear. *)
Lemma animal_frame_guard (a : AnimalData.t) (isPaused : bool)
      (spears : list Spear.Data) (st : Animal.State) (delta : Q) :
  Animal.isAlive st = false \/ isPaused = true ->
  Animal.useFrame a isPaused spears st delta = (spears, []).
Proof.
  intros [H | H]; unfold Animal.useFrame; rewrite H; simpl;
    [reflexivity | now rewrite orb_true_r].
Qed.

(** The collision loop never reports an arrival. *)
Lemma forEach_no_arrival (a : AnimalData.t) (st : Animal.State) (np : Vec3)
      (spears : list Spear.Data) :
  filter Animal.isArrival (snd (Animal.forEach a st np spears)) = [].
Proof.
  induction spears as [| s rest IH]; simpl; [reflexivity |].
  destruct (Animal.checkSpear a st np s) as [s' e1] eqn:E1.
  destruct (Animal.forEach a st np rest) as [r' e2] eqn:E2.
  simpl in *. rewrite filter_app, IH, app_nil_r.
  unfold Animal.checkSpear in E1.
  destruct (negb (Spear.isActive s) || _); [inversion E1; reflexivity |].
  destruct (Animal.withinHitRadius np (Spear.position s));
    [| inversion E1; reflexivity].
  inversion E1; subst. destruct (_ <=? 0)%Z; reflexivity.
Qed.

(** The same three facts for the [Animal] of the hand-tracking build. *)
Lemma hand_commit_app (st : Animal.State) (l1 l2 : list HandVariant.Effect) :
  HandAnimal.commit st (l1 ++ l2) = HandAnimal.commit (HandAnimal.commit st l1) l2.
Proof. unfold HandAnimal.commit. apply fold_left_app. Qed.

Lemma hand_frame_guard (a : AnimalData.t) (isPaused : bool)
      (spears : list Spear.Data) (st : Animal.State) (delta : Q) :
  Animal.isAlive st = false \/ isPaused = true ->
  HandVariant.useFrame a isPaused spears st delta = (spears, []).
Proof.
  intros [H | H]; unfold HandVariant.useFrame; rewrite H; simpl;
    [reflexivity | now rewrite orb_true_r].
Qed.

Lemma hand_forEach_no_arrival (a : AnimalData.t) (st : Animal.State) (np : Vec3)
      (spears : list Spear.Data) :
  filter HandAnimal.isArrival (snd (HandVariant.forEach a st np spears)) = [].
Proof.
  induction spears as [| s rest IH]; simpl; [reflexivity |].
  destruct (HandVariant.checkSpear a st np s) as [s' e1] eqn:E1.
  destruct (HandVariant.forEach a st np rest) as [r' e2] eqn:E2.
  simpl in *. rewrite filter_app, IH, app_nil_r.
  unfold HandVariant.checkSpear in E1.
  destruct (negb (Spear.isActive s) || _); [inversion E1; reflexivity |].
  destruct (Animal.withinHitRadius np (Spear.position s));
    [| inversion E1; reflexivity].
  inversion E1; subst. destruct (_ <=? 0)%Z; reflexivity.
Qed.

(** In the hand-tracking variant the arrival call carries the damage only. *)
Lemma hand_variant_arrival (a : AnimalData.t) (spears : list Spear.Data)
      (st : Animal.State) (delta : Q) :
  Animal.isAlive st = true ->
  8 <= c2 (Animal.position st)
       + Animal.currentSpeed (AnimalData.type a) (Animal.health st) * delta ->
  HandVariant.useFrame a false spears st delta
  = (spears, [HandVariant.OnReachPlayer (AnimalType.damage (AnimalData.type a));
              HandVariant.SetIsAlive false]).
Proof.
  intros Halive Hge. unfold HandVariant.useFrame. rewrite Halive. simpl.
  apply Qleb_le in Hge. rewrite Hge. reflexivity.
Qed.

(** What [filter] leaves of the registry when an id is removed. *)
Lemma removeAnimal_In (animalId : Z) (l : list AnimalData.t) (x : AnimalData.t) :
  In x (App.removeAnimal animalId l) <-> In x l /\ AnimalData.id x <> animalId.
Proof.
  unfold App.removeAnimal. rewrite filter_In, negb_true_iff, Z.eqb_neq. tauto.
Qed.

(** C7.  In both source files an alive, unpaused animal moves with
    [speed = baseSpeed + (maxHealth - health) * speedIncrease].  While the
    new [z] stays below [8] the frame stores [(x, y, z + speed * delta)] and
    reports no arrival.  When the new [z] reaches [8] the frame makes
    exactly two calls, the arrival call and [setIsAlive(false)]: no spear
    is examined, no position is stored, no dying phase is entered, the
    component stops rendering, and the animal's later frames do nothing.
    In [src/App.jsx] the arrival call is [onReachPlayer(damage, id)] and
    [App] takes exactly the animals with that id out of its registry.  In
    the hand-tracking build it is [onReachPlayer(damage)]: the player
    loses health and the registry is left as it is. *)
Theorem C7_animal_motor_and_arrival
  (a : AnimalData.t) (spears : list Spear.Data) (st : Animal.State) (delta : Q) :
  Animal.isAlive st = true ->
  let t := AnimalData.type a in
  let speed :=
    AnimalType.baseSpeed t
    + inject_Z (AnimalType.health t - Animal.health st) * AnimalType.speedIncrease t in
  let newZ := c2 (Animal.position st) + speed * delta in
  let moved := mkVec3 (c0 (Animal.position st)) (c1 (Animal.position st)) newZ in
  let spears' := fst (Animal.useFrame a false spears st delta) in
  let effs := snd (Animal.useFrame a false spears st delta) in
  let st' := Animal.commit st effs in
  let handSpears' := fst (HandVariant.useFrame a false spears st delta) in
  let handEffs := snd (HandVariant.useFrame a false spears st delta) in
  let handSt' := HandAnimal.commit st handEffs in
  (newZ < 8 ->
     Animal.position st' = moved
     /\ filter Animal.isArrival effs = []
     /\ Animal.position handSt' = moved
     /\ filter HandAnimal.isArrival handEffs = [])
  /\ (8 <= newZ ->
        (effs = [Animal.OnReachPlayer (AnimalType.damage t) (AnimalData.id a);
                 Animal.SetIsAlive false]
         /\ spears' = spears
         /\ filter Animal.isCollisionEffect effs = []
         /\ Animal.position st' = Animal.position st
         /\ Animal.isAlive st' = false
         /\ Animal.isDying st' = Animal.isDying st
         /\ (Animal.isDying st = false -> Animal.rendered st' = false)
         /\ (forall c msg app x,
               In x (App.animals (fold_left (Scene.animalCall c msg) effs app))
               <-> In x (App.animals app) /\ AnimalData.id x <> AnimalData.id a)
         /\ (forall isPaused spears2 delta2,
               Animal.useFrame a isPaused spears2 st' delta2 = (spears2, [])))
        /\ (handEffs = [HandVariant.OnReachPlayer (AnimalType.damage t);
                        HandVariant.SetIsAlive false]
            /\ handSpears' = spears
            /\ filter HandAnimal.isCollisionEffect handEffs = []
            /\ Animal.position handSt' = Animal.position st
            /\ Animal.isAlive handSt' = false
            /\ Animal.isDying handSt' = Animal.isDying st
            /\ (Animal.isDying st = false -> Animal.rendered handSt' = false)
            /\ (forall msg app,
                  let app' := fold_left (HandScene.animalCall msg) handEffs app in
                  HandGame.animals app' = HandGame.animals app
                  /\ HandGame.playerHealth app'
                     = Z.max 0 (HandGame.playerHealth app - AnimalType.damage t))
            /\ (forall isPaused spears2 delta2,
                  HandVariant.useFrame a isPaused spears2 handSt' delta2
                  = (spears2, [])))).
Proof.
  intros Halive t speed newZ moved spears' effs st' handSpears' handEffs handSt'.
  assert (Hframe : Animal.useFrame a false spears st delta =
            if Qleb 8 newZ then
              (spears, [Animal.OnReachPlayer (AnimalType.damage t) (AnimalData.id a);
                        Animal.SetIsAlive false])
            else (fst (Animal.forEach a st moved spears),
                  snd (Animal.forEach a st moved spears) ++ [Animal.SetPosition moved])).
  { unfold Animal.useFrame. rewrite Halive. simpl.
    fold t. unfold Animal.currentSpeed. fold speed. fold newZ. fold moved.
    destruct (Qleb 8 newZ); [reflexivity |].
    destruct (Animal.forEach a st moved spears); reflexivity. }
  assert (Hhand : HandVariant.useFrame a false spears st delta =
            if Qleb 8 newZ then
              (spears, [HandVariant.OnReachPlayer (AnimalType.damage t);
                        HandVariant.SetIsAlive false])
            else (fst (HandVariant.forEach a st moved spears),
                  snd (HandVariant.forEach a st moved spears)
                  ++ [HandVariant.SetPosition moved])).
  { unfold HandVariant.useFrame. rewrite Halive. simpl.
    fold t. unfold Animal.currentSpeed. fold speed. fold newZ. fold moved.
    destruct (Qleb 8 newZ); [reflexivity |].
    destruct (HandVariant.forEach a st moved spears); reflexivity. }
  split.
  - intro Hlt. apply Qleb_false_lt in Hlt.
    subst st' effs handSt' handEffs. rewrite Hframe, Hhand, Hlt. simpl.
    split; [rewrite animal_commit_app; reflexivity |].
    split; [rewrite filter_app, forEach_no_arrival; reflexivity |].
    split; [rewrite hand_commit_app; reflexivity |].
    rewrite filter_app, hand_forEach_no_arrival. reflexivity.
  - intro Hge. apply Qleb_le in Hge.
    subst st' effs spears' handSt' handEffs handSpears'.
    rewrite Hframe, Hhand, Hge. simpl. split.
    + do 6 (split; [reflexivity |]).
      split; [intro Hd; unfold Animal.rendered; simpl; exact Hd |].
      split.
      * intros c msg app x.
        assert (E : App.animals (App.handleAnimalReachPlayer c
                                   (AnimalType.damage t) (AnimalData.id a) app)
                    = App.removeAnimal (AnimalData.id a) (App.animals app)).
        { unfold App.handleAnimalReachPlayer.
          destruct (find _ (App.c_animals c)); reflexivity. }
        change (In x (App.animals (App.handleAnimalReachPlayer c
                                     (AnimalType.damage t) (AnimalData.id a) app))
                <-> In x (App.animals app) /\ AnimalData.id x <> AnimalData.id a).
        rewrite E. apply removeAnimal_In.
      * intros isPaused spears2 delta2. apply animal_frame_guard. left. reflexivity.
    + do 6 (split; [reflexivity |]).
      split; [intro Hd; unfold Animal.rendered; simpl; exact Hd |].
      split.
      * intros msg app. cbv zeta. simpl. unfold HandGame.handleAnimalReachPlayer.
        destruct (_ <=? 0)%Z; split; reflexivity.
      * intros isPaused spears2 delta2. apply hand_frame_guard. left. reflexivity.
Qed.

Lemma C7_animal_motor_witness :
  Animal.isAlive Examples.cheetahNearPlayer = true
  /\ Animal.withinHitRadius (mkVec3 (1 # 4) (- 4) 9)
                            (Spear.position Scenes.spearAtTheLine) = true
  /\ snd (Animal.useFrame Examples.cheetah false [Scenes.spearAtTheLine]
                          Examples.cheetahNearPlayer 1)
     = [Animal.OnReachPlayer 25 4; Animal.SetIsAlive false]
  /\ fst (Animal.useFrame Examples.cheetah false [Scenes.spearAtTheLine]
                          Examples.cheetahNearPlayer 1)
     = [Scenes.spearAtTheLine].
Proof.
  split; [reflexivity | split; [reflexivity |]].
  assert (Hge : 8 <= c2 (Animal.position Examples.cheetahNearPlayer)
                     + (AnimalType.baseSpeed (AnimalData.type Examples.cheetah)
                        + inject_Z (AnimalType.health (AnimalData.type Examples.cheetah)
                                    - Animal.health Examples.cheetahNearPlayer)
                          * AnimalType.speedIncrease (AnimalData.type Examples.cheetah))
                       * 1).
  { vm_compute. discriminate. }
  pose proof (proj1 (proj2 (C7_animal_motor_and_arrival
                              Examples.cheetah [Scenes.spearAtTheLine]
                              Examples.cheetahNearPlayer 1 eq_refl) Hge)) as H.
  split; [exact (proj1 H) | exact (proj1 (proj2 H))].
Defined.

(** C7, at a concrete animal of the hand-tracking build: the arrival call
    of a cheetah and that of its twin with another id are the same call,
    which names no animal, while [src/App.jsx] tells the two apart; and
    after the call both are still in the registry, the player's health is
    down by 25. *)
Lemma C7_hand_arrival_carries_no_id :
  let frame a :=
    snd (HandVariant.useFrame a false [Scenes.handSpearAtTheLine]
                              Scenes.handCheetahNearPlayer 1) in
  let app := fold_left (HandScene.animalCall "HIT!") (frame Scenes.handCheetah)
                       Scenes.handUnderAttack in
  frame Scenes.handCheetah
  = [HandVariant.OnReachPlayer 25; HandVariant.SetIsAlive false]
  /\ AnimalData.id Scenes.handCheetahTwin <> AnimalData.id Scenes.handCheetah
  /\ frame Scenes.handCheetahTwin = frame Scenes.handCheetah
  /\ snd (Animal.useFrame Scenes.handCheetahTwin false [Scenes.handSpearAtTheLine]
                          Scenes.handCheetahNearPlayer 1)
     <> snd (Animal.useFrame Scenes.handCheetah false [Scenes.handSpearAtTheLine]
                             Scenes.handCheetahNearPlayer 1)
  /\ HandGame.animals app = [Scenes.handCheetah; Scenes.handCheetahTwin]
  /\ HandGame.playerHealth Scenes.handUnderAttack = 100%Z
  /\ HandGame.playerHealth app = 75%Z.
Proof.
  cbv zeta. repeat split; try reflexivity; intro H; vm_compute in H; discriminate.
Qed.

(** ** Weighted choice of the archetype *)

Section WeightedChoice.

Let w := AnimalType.spawnWeight.

Lemma fold_weight_acc (l : list AnimalType.t) (acc : Q) :
  fold_left (fun sum type => sum + w type) l acc
  == acc + fold_left (fun sum type => sum + w type) l 0.
Proof.
  revert acc. induction l as [| t l IH]; intro acc; simpl.
  - ring.
  - rewrite (IH (acc + w t)), (IH (0 + w t)). ring.
Qed.

Lemma totalWeight_cons (t : AnimalType.t) (l : list AnimalType.t) :
  App.totalWeight (t :: l) == w t + App.totalWeight l.
Proof.
  unfold App.totalWeight. simpl. fold w.
  rewrite (fold_weight_acc l (0 + w t)). ring.
Qed.

Lemma totalWeight_nonneg (l : list AnimalType.t) :
  Forall (fun t => 0 <= w t) l -> 0 <= App.totalWeight l.
Proof.
  induction 1 as [| t l Ht _ IH].
  - unfold App.totalWeight. simpl. apply Qle_refl.
  - rewrite totalWeight_cons. lra.
Qed.


End WeightedChoice.





(** The same loop serves the hand-tracking variant's table. *)
Example hand_variant_selection :
  HandVariant.selectType (1 # 2) = HandVariant.ANTELOPE
  /\ App.selectType (1 # 2) = ELEPHANT
  /\ App.selectType (3 # 4) = ANTELOPE.
Proof. repeat split. Qed.

(** ** Restart *)

(** C9, at a session in progress: after the restart the time of the last
    shot is still the old one, not the initial [0]. *)
Lemma C9_restart_keeps_lastFireTime :
  App.lastFireTime (App.handleRestart Examples.midGame) = 5000%Z
  /\ App.lastFireTime (App.handleRestart Examples.midGame)
     <> App.lastFireTime App.initial.
Proof. split; [reflexivity | discriminate]. Qed.

(** C9, as the code has it.  One call of [handleRestart] sets the score to
    [0], empties both registries, returns the spear to [IDLE], resets both
    id counters to [0], clears both messages and the pause flag; the aim
    point, the camera rotation, the time of the last shot and the pending
    timeouts are left as they were. *)
Theorem C9_restart_resets_all_but_cooldown (st : App.State) :
  App.handleRestart st
  = App.mk IDLE (App.headPosition st) [] [] 0 "" "" false
           (App.cameraRotation st) (App.lastFireTime st) 0 0 (App.timeouts st).
Proof. reflexivity. Qed.

(** ** Fire control *)

(** The head-tracking half of the pose effect leaves everything the fire
    block writes, except the spear state, untouched. *)
Lemma fire_cases (r : App.State) (isHandRaised : bool) (now : Z) (st : App.State) :
  App.fire r isHandRaised now st = st
  \/ exists aim,
       App.headPosition r = Some aim
       /\ isHandRaised = true
       /\ App.spearState r = GRIPPED
       /\ (App.FIRE_COOLDOWN <= now - App.lastFireTime r)%Z
       /\ App.fire r isHandRaised now st
          = App.mk THROWING (App.headPosition st)
                   (App.thrownSpears st
                    ++ [Spear.mkData (App.spearIdCounter st) aim App.throwVelocity
                                     now true false])
                   (App.animals st) (App.score st) (App.hitMessage st)
                   (App.flashMessage st) (App.isPaused st) (App.cameraRotation st)
                   now (App.spearIdCounter st + 1) (App.animalIdCounter st)
                   (App.timeouts st ++ [(App.BackToGripped, 500%Z)]).
Proof.
  unfold App.fire.
  destruct (App.headPosition r) as [aim |]; [| now left].
  destruct isHandRaised; [| now left].
  destruct (App.spearState r) eqn:Es; try now left.
  simpl.
  destruct (App.FIRE_COOLDOWN <=? now - App.lastFireTime r)%Z eqn:Ec; [| now left].
  right. exists aim. apply Z.leb_le in Ec. repeat split; auto.
Qed.

Lemma app_neq_self {A : Type} (l : list A) (x : A) : l ++ [x] <> l.
Proof.
  intro H. apply (f_equal (@List.length A)) in H.
  rewrite length_app in H. simpl in H. lia.
Qed.

(** What one run of the pose effect does to the registry of spears: either
    nothing, or it appends one spear, and then all fire conditions held. *)
Lemma poseEffect_cases (poseLandmarks : option (list Landmark)) (isReady : bool)
      (now : Z) (r : App.State) :
  let st := App.poseEffect poseLandmarks isReady now r in
  (App.thrownSpears st = App.thrownSpears r
   /\ App.spearIdCounter st = App.spearIdCounter r
   /\ App.lastFireTime st = App.lastFireTime r
   /\ App.timeouts st = App.timeouts r
   /\ (App.spearState st = THROWING -> App.spearState r = THROWING))
  \/ (exists aim,
        App.headPosition r = Some aim
        /\ App.isPaused r = false
        /\ isReady = true
        /\ detectHandRaised poseLandmarks = true
        /\ App.spearState r = GRIPPED
        /\ (App.FIRE_COOLDOWN <= now - App.lastFireTime r)%Z
        /\ App.thrownSpears st
           = App.thrownSpears r
             ++ [Spear.mkData (App.spearIdCounter r) aim App.throwVelocity now true false]
        /\ App.spearIdCounter st = (App.spearIdCounter r + 1)%Z
        /\ App.lastFireTime st = now
        /\ App.spearState st = THROWING
        /\ App.timeouts st = App.timeouts r ++ [(App.BackToGripped, 500%Z)]).
Proof.
  cbv zeta. unfold App.poseEffect.
  destruct poseLandmarks as [l |]; [| left; repeat split; auto].
  destruct isReady; cbn [andb negb]; [| left; repeat split; auto].
  destruct (App.isPaused r) eqn:Ep; cbn [andb negb]; [left; repeat split; auto |].
  match goal with |- context [App.fire r ?h now ?t] => set (tracked := t) end.
  assert (Ht : App.thrownSpears tracked = App.thrownSpears r
               /\ App.spearIdCounter tracked = App.spearIdCounter r
               /\ App.lastFireTime tracked = App.lastFireTime r
               /\ App.timeouts tracked = App.timeouts r
               /\ (App.spearState tracked = THROWING -> App.spearState r = THROWING)).
  { subst tracked.
    destruct (getHeadPosition (Some l)); destruct (App.spearState r) eqn:Es;
      simpl; repeat split; auto; intros; congruence. }
  destruct Ht as (Ht1 & Ht2 & Ht3 & Ht4 & Ht5).
  destruct (fire_cases r (detectHandRaised (Some l)) now tracked)
    as [Hsame | (aim & Hh & Hr & Hg & Hc & Hf)].
  - left. rewrite Hsame. repeat split; auto.
  - right. exists aim. rewrite Hf. simpl.
    rewrite Ht1, Ht2, Ht4. repeat split; auto.
Qed.

(** Inside the cooldown the fire block does nothing at all. *)
Lemma fire_inside_cooldown (r : App.State) (isHandRaised : bool) (now : Z)
      (st : App.State) :
  (now - App.lastFireTime r < App.FIRE_COOLDOWN)%Z ->
  App.fire r isHandRaised now st = st.
Proof.
  intro H. destruct (fire_cases r isHandRaised now st) as [E | (aim & _ & _ & _ & Hc & _)];
    [exact E | lia].
Qed.

(** Inside the cooldown a run of the pose effect can only move the aim
    point and switch between [IDLE] and [GRIPPED]. *)
Lemma poseEffect_inside_cooldown (poseLandmarks : option (list Landmark))
      (isReady : bool) (now : Z) (r : App.State) :
  (now - App.lastFireTime r < App.FIRE_COOLDOWN)%Z ->
  exists aim state,
    App.poseEffect poseLandmarks isReady now r
    = App.setSpearState state (App.setHeadPosition aim r)
    /\ (state = THROWING -> App.spearState r = THROWING).
Proof.
  intro Hc. unfold App.poseEffect.
  assert (Hsame : exists aim state,
            r = App.setSpearState state (App.setHeadPosition aim r)
            /\ (state = THROWING -> App.spearState r = THROWING)).
  { exists (App.headPosition r), (App.spearState r). destruct r; auto. }
  destruct poseLandmarks as [l |]; [| exact Hsame].
  destruct (isReady && negb (App.isPaused r)); [| exact Hsame].
  rewrite fire_inside_cooldown by exact Hc.
  destruct (getHeadPosition (Some l)) as [hp |];
    destruct (App.spearState r) eqn:Es; simpl;
    eexists; eexists; (split; [reflexivity | intros; congruence]).
Qed.

(** C3.  (1) A run of the pose effect that creates a projectile found the
    spear [GRIPPED], the hand raised, and at least [1000] ms elapsed since
    the last shot (and the game unpaused); it creates exactly one, and
    records the time.  (2) A run less than [1000] ms after the last shot
    creates none; it can only move the aim point and switch between [IDLE]
    and [GRIPPED], so the registry, the id counter, the recorded time and
    the pending timeouts stay as they were: nothing is queued.  (3) Hence of two
    attempts less than [1000] ms apart, the first of which fires, exactly
    one projectile results, whatever happened to the rest of the state in
    between. *)
Theorem C3_fire_needs_grip_signal_cooldown :
  (forall poseLandmarks isReady now r,
     App.thrownSpears (App.poseEffect poseLandmarks isReady now r)
       <> App.thrownSpears r ->
     App.spearState r = GRIPPED
     /\ detectHandRaised poseLandmarks = true
     /\ (now - App.lastFireTime r >= App.FIRE_COOLDOWN)%Z
     /\ App.isPaused r = false
     /\ (exists spear,
           App.thrownSpears (App.poseEffect poseLandmarks isReady now r)
           = App.thrownSpears r ++ [spear]
           /\ Spear.id spear = App.spearIdCounter r)
     /\ App.lastFireTime (App.poseEffect poseLandmarks isReady now r) = now)
  /\ (forall poseLandmarks isReady now r,
        (now - App.lastFireTime r < App.FIRE_COOLDOWN)%Z ->
        let st := App.poseEffect poseLandmarks isReady now r in
        (exists aim state,
           st = App.setSpearState state (App.setHeadPosition aim r)
           /\ (state = THROWING -> App.spearState r = THROWING))
        /\ App.thrownSpears st = App.thrownSpears r
        /\ App.spearIdCounter st = App.spearIdCounter r
        /\ App.lastFireTime st = App.lastFireTime r
        /\ App.timeouts st = App.timeouts r)
  /\ (forall lm1 ready1 now1 r1 lm2 ready2 now2 r2,
        let st1 := App.poseEffect lm1 ready1 now1 r1 in
        App.thrownSpears st1 <> App.thrownSpears r1 ->
        (now2 - now1 < App.FIRE_COOLDOWN)%Z ->
        App.lastFireTime r2 = App.lastFireTime st1 ->
        App.thrownSpears r2 = App.thrownSpears st1 ->
        exists spear,
          App.thrownSpears (App.poseEffect lm2 ready2 now2 r2)
          = App.thrownSpears r1 ++ [spear]).
Proof.
  assert (P1 : forall poseLandmarks isReady now r,
     App.thrownSpears (App.poseEffect poseLandmarks isReady now r)
       <> App.thrownSpears r ->
     App.spearState r = GRIPPED
     /\ detectHandRaised poseLandmarks = true
     /\ (now - App.lastFireTime r >= App.FIRE_COOLDOWN)%Z
     /\ App.isPaused r = false
     /\ (exists spear,
           App.thrownSpears (App.poseEffect poseLandmarks isReady now r)
           = App.thrownSpears r ++ [spear]
           /\ Spear.id spear = App.spearIdCounter r)
     /\ App.lastFireTime (App.poseEffect poseLandmarks isReady now r) = now).
  { intros lm ready now r Hneq.
    destruct (poseEffect_cases lm ready now r)
      as [(Hs & _) | (aim & Hh & Hp & Hr & Hd & Hg & Hc & Hs & Hi & Hl & _)].
    - contradiction.
    - repeat split; auto; [lia |].
      eexists. split; [exact Hs | reflexivity]. }
  assert (P2 : forall poseLandmarks isReady now r,
        (now - App.lastFireTime r < App.FIRE_COOLDOWN)%Z ->
        let st := App.poseEffect poseLandmarks isReady now r in
        (exists aim state,
           st = App.setSpearState state (App.setHeadPosition aim r)
           /\ (state = THROWING -> App.spearState r = THROWING))
        /\ App.thrownSpears st = App.thrownSpears r
        /\ App.spearIdCounter st = App.spearIdCounter r
        /\ App.lastFireTime st = App.lastFireTime r
        /\ App.timeouts st = App.timeouts r).
  { intros lm ready now r Hlt. cbv zeta.
    destruct (poseEffect_inside_cooldown lm ready now r Hlt) as (aim & state & E & Hs).
    split; [exists aim, state; auto |].
    rewrite E. repeat split. }
  split; [exact P1 | split; [exact P2 |]].
  intros lm1 ready1 now1 r1 lm2 ready2 now2 r2 st1 Hfired Hlt Hlast Hsp.
  destruct (P1 lm1 ready1 now1 r1 Hfired) as (_ & _ & _ & _ & (spear & Heq & _) & Hnow).
  exists spear.
  destruct (P2 lm2 ready2 now2 r2) as (_ & Hs2 & _).
  { rewrite Hlast. fold st1 in Hnow. rewrite Hnow. exact Hlt. }
  rewrite Hs2, Hsp. exact Heq.
Qed.

Lemma C3_fire_witness :
  App.thrownSpears
    (App.poseEffect (Some Examples.handUp) true 6000 Examples.midGame)
  <> App.thrownSpears Examples.midGame
  /\ App.spearState Examples.midGame = GRIPPED
  /\ detectHandRaised (Some Examples.handUp) = true
  /\ (6000 - App.lastFireTime Examples.midGame >= App.FIRE_COOLDOWN)%Z.
Proof.
  assert (H : App.thrownSpears
                (App.poseEffect (Some Examples.handUp) true 6000 Examples.midGame)
              <> App.thrownSpears Examples.midGame).
  { intro E. apply (f_equal (@List.length Spear.Data)) in E.
    vm_compute in E. discriminate E. }
  split; [exact H |].
  destruct (proj1 C3_fire_needs_grip_signal_cooldown
                  (Some Examples.handUp) true 6000%Z Examples.midGame H)
    as (Hg & Hd & Hc & _).
  repeat split; assumption.
Defined.

(** ** Identities *)

Section Registry.

Context {A : Type} (key : A -> Z).

Lemma fresh_nil (counter : Z) : fresh key counter [].
Proof. split; constructor. Qed.

Lemma sorted_filter (f : A -> bool) (l : list A) :
  StronglySorted Z.lt (map key l) -> StronglySorted Z.lt (map key (filter f l)).
Proof.
  induction l as [| x l IH]; simpl; intro H; [constructor |].
  apply StronglySorted_inv in H. destruct H as [Hs Hx].
  destruct (f x); simpl; [| auto].
  constructor; [auto |].
  rewrite Forall_map in *. rewrite Forall_forall in *.
  intros y Hy. apply filter_In in Hy. apply Hx. tauto.
Qed.

Lemma fresh_filter (counter : Z) (f : A -> bool) (l : list A) :
  fresh key counter l -> fresh key counter (filter f l).
Proof.
  intros [Hs Hb]. split; [now apply sorted_filter |].
  rewrite Forall_forall in *. intros x Hx. apply filter_In in Hx. apply Hb. tauto.
Qed.

Lemma sorted_push (l : list A) (x : A) :
  StronglySorted Z.lt (map key l) ->
  Forall (fun y => (key y < key x)%Z) l ->
  StronglySorted Z.lt (map key (l ++ [x])).
Proof.
  induction l as [| y l IH]; simpl; intros Hs Hb.
  - repeat constructor.
  - apply StronglySorted_inv in Hs. destruct Hs as [Hs Hy].
    inversion Hb; subst.
    constructor; [auto |].
    rewrite map_app. apply Forall_app. split; [exact Hy |].
    simpl. repeat constructor. assumption.
Qed.

Lemma fresh_push (counter : Z) (l : list A) (x : A) :
  fresh key counter l -> key x = counter -> fresh key (counter + 1) (l ++ [x]).
Proof.
  intros [Hs Hb] Hk. split.
  - apply sorted_push; [exact Hs |]. rewrite Hk. exact Hb.
  - apply Forall_app. split.
    + eapply Forall_impl; [| exact Hb]. simpl. intros. lia.
    + repeat constructor. lia.
Qed.

Lemma sorted_NoDup (l : list Z) : StronglySorted Z.lt l -> NoDup l.
Proof.
  induction 1 as [| x l Hs IH Hx]; constructor; [| exact IH].
  intro Hin. rewrite Forall_forall in Hx. specialize (Hx x Hin). lia.
Qed.

End Registry.

Lemma filter_all {A : Type} (l : list A) : filter (fun _ => true) l = l.
Proof. induction l; simpl; congruence. Qed.

(** The head-tracking half and the fire block never touch the animals. *)
Lemma poseEffect_animals (poseLandmarks : option (list Landmark)) (isReady : bool)
      (now : Z) (r : App.State) :
  App.animals (App.poseEffect poseLandmarks isReady now r) = App.animals r
  /\ App.animalIdCounter (App.poseEffect poseLandmarks isReady now r)
     = App.animalIdCounter r.
Proof.
  unfold App.poseEffect, App.fire.
  repeat match goal with
         | |- context [match ?x with _ => _ end] => destruct x
         end; split; reflexivity.
Qed.

Lemma spawnFresh_cases (c : App.Closure) (randType randX : Q) (now : Z) (st : App.State) :
  App.spawnFresh c randType randX now st = st
  \/ (App.c_isPaused c = false
      /\ App.spawnFresh c randType randX now st
         = App.setAnimals (fun prev => prev ++ [App.newAnimalOf st randType randX now])
             (App.setAnimalIdCounter (App.animalIdCounter st + 1) st)).
Proof.
  unfold App.spawnFresh. destruct (App.c_isPaused c); [left | right]; auto.
Qed.

(** What one event does to the animal registry and its counter: it keeps
    the counter and filters the registry, or it is a restart, or it appends
    one animal whose id is the counter's value and advances the counter. *)
Lemma run_animals (st : App.State) (e : Session.Event) :
  let st' := Session.run st e in
  (App.animalIdCounter st' = App.animalIdCounter st
   /\ exists f, App.animals st' = filter f (App.animals st))
  \/ (e = Session.Restart /\ App.animalIdCounter st' = 0%Z /\ App.animals st' = [])
  \/ (exists a, App.animals st' = App.animals st ++ [a]
                /\ AnimalData.id a = App.animalIdCounter st
                /\ App.animalIdCounter st' = (App.animalIdCounter st + 1)%Z).
Proof.
  assert (Hkeep : forall s : App.State,
            App.animalIdCounter s = App.animalIdCounter st ->
            App.animals s = App.animals st ->
            App.animalIdCounter s = App.animalIdCounter st
            /\ exists f, App.animals s = filter f (App.animals st)).
  { intros s Hc Ha. split; [exact Hc |].
    exists (fun _ => true). now rewrite filter_all. }
  assert (Hfresh : forall c u v now (s : App.State),
            App.animalIdCounter s = App.animalIdCounter st ->
            App.animals s = App.animals st ->
            let s' := App.spawnFresh c u v now s in
            (App.animalIdCounter s' = App.animalIdCounter st
             /\ exists f, App.animals s' = filter f (App.animals st))
            \/ (exists a, App.animals s' = App.animals st ++ [a]
                          /\ AnimalData.id a = App.animalIdCounter st
                          /\ App.animalIdCounter s' = (App.animalIdCounter st + 1)%Z)).
  { intros c u v now s Hc Ha. cbv zeta.
    destruct (spawnFresh_cases c u v now s) as [-> | [_ ->]].
    - left. now apply Hkeep.
    - right. exists (App.newAnimalOf s u v now). simpl.
      rewrite Ha, Hc. auto. }
  cbv zeta. destruct e; simpl.
  - left. destruct (poseEffect_animals poseLandmarks isReady now st). now apply Hkeep.
  - left. now apply Hkeep.
  - right. left. auto.
  - left. now apply Hkeep.
  - left. split.
    + unfold App.handleAnimalReachPlayer. destruct (find _ _); reflexivity.
    + eexists. unfold App.handleAnimalReachPlayer.
      destruct (find _ _); reflexivity.
  - left. apply Hkeep; unfold App.handleAnimalHit; destruct (negb _); reflexivity.
  - left. now apply Hkeep.
  - left. now apply Hkeep.
  - left. now apply Hkeep.
  - destruct (nth_error (App.timeouts st) k) as [[t ms] |]; [| left; now apply Hkeep].
    destruct t; simpl; try (left; now apply Hkeep).
    + destruct (Hfresh c randType randX now
                  (App.setTimeouts (Session.dropNth k (App.timeouts st)) st)
                  eq_refl eq_refl) as [H | H]; [left | right; right]; exact H.
    + left. apply Hkeep; unfold App.handleAnimalHit; destruct (negb _); reflexivity.
    + destruct (negb (animalId =? 0)%Z).
      * left. split; [reflexivity |]. eexists. reflexivity.
      * destruct (Hfresh c randType randX now
                    (App.setTimeouts (Session.dropNth k (App.timeouts st)) st)
                    eq_refl eq_refl) as [H | H]; [left | right; right]; exact H.
  - left. now apply Hkeep.
Qed.

(** The same for the spears. *)
Lemma run_spears (st : App.State) (e : Session.Event) :
  let st' := Session.run st e in
  (App.spearIdCounter st' = App.spearIdCounter st
   /\ exists f, App.thrownSpears st' = filter f (App.thrownSpears st))
  \/ (e = Session.Restart /\ App.spearIdCounter st' = 0%Z /\ App.thrownSpears st' = [])
  \/ (exists s, App.thrownSpears st' = App.thrownSpears st ++ [s]
                /\ Spear.id s = App.spearIdCounter st
                /\ App.spearIdCounter st' = (App.spearIdCounter st + 1)%Z).
Proof.
  assert (Hkeep : forall s : App.State,
            App.spearIdCounter s = App.spearIdCounter st ->
            App.thrownSpears s = App.thrownSpears st ->
            App.spearIdCounter s = App.spearIdCounter st
            /\ exists f, App.thrownSpears s = filter f (App.thrownSpears st)).
  { intros s Hc Ha. split; [exact Hc |].
    exists (fun _ => true). now rewrite filter_all. }
  assert (Hhit : forall p i a (s : App.State),
            App.spearIdCounter s = App.spearIdCounter st ->
            App.thrownSpears s = App.thrownSpears st ->
            App.spearIdCounter (App.handleAnimalHit p i a s) = App.spearIdCounter st
            /\ exists f, App.thrownSpears (App.handleAnimalHit p i a s)
                         = filter f (App.thrownSpears st)).
  { intros p i a s Hc Ha. unfold App.handleAnimalHit.
    destruct (negb (i =? 0)%Z); simpl.
    - split; [exact Hc |]. eexists. rewrite Ha. reflexivity.
    - now apply Hkeep. }
  assert (Hspawn : forall c d u v now (s : App.State),
            App.spearIdCounter s = App.spearIdCounter st ->
            App.thrownSpears s = App.thrownSpears st ->
            App.spearIdCounter (App.spawnNewAnimal c d u v now s) = App.spearIdCounter st
            /\ App.thrownSpears (App.spawnNewAnimal c d u v now s) = App.thrownSpears st).
  { intros c d u v now s Hc Ha. unfold App.spawnNewAnimal, App.spawnFresh.
    destruct d as [dead |]; [destruct (App.truthy (Some dead)) |];
      try destruct (App.c_isPaused c); simpl; auto. }
  cbv zeta. destruct e; simpl.
  - destruct (poseEffect_cases poseLandmarks isReady now st)
      as [(Hs & Hc & _) | (aim & _ & _ & _ & _ & _ & _ & Hs & Hc & _)].
    + left. now apply Hkeep.
    + right. right. eexists. split; [exact Hs |]. split; [reflexivity | exact Hc].
  - left. now apply Hkeep.
  - right. left. auto.
  - left. now apply Hkeep.
  - left. apply Hkeep; unfold App.handleAnimalReachPlayer; destruct (find _ _); reflexivity.
  - left. now apply Hhit.
  - left. now apply Hkeep.
  - left. now apply Hkeep.
  - left. now apply Hkeep.
  - destruct (nth_error (App.timeouts st) k) as [[t ms] |]; [| left; now apply Hkeep].
    destruct t; simpl; try (left; now apply Hkeep).
    + left.
      destruct (Hspawn c None randType randX now
                  (App.setTimeouts (Session.dropNth k (App.timeouts st)) st)
                  eq_refl eq_refl) as [H1 H2].
      apply Hkeep; [exact H1 | exact H2].
    + left. split; [reflexivity |]. eexists. reflexivity.
    + left. now apply Hhit.
    + left.
      destruct (Hspawn c (Some animalId) randType randX now
                  (App.setTimeouts (Session.dropNth k (App.timeouts st)) st)
                  eq_refl eq_refl) as [H1 H2].
      apply Hkeep; [exact H1 | exact H2].
  - left. now apply Hkeep.
Qed.

Lemma run_keeps_fresh (st : App.State) (e : Session.Event) :
  registriesFresh st -> registriesFresh (Session.run st e).
Proof.
  intros [Ha Hs]. split.
  - destruct (run_animals st e) as [(Hc & f & Hf) | [(_ & Hc & Hf) | (a & Hf & Hi & Hc)]];
      rewrite Hc, Hf.
    + now apply fresh_filter.
    + apply fresh_nil.
    + now apply fresh_push.
  - destruct (run_spears st e) as [(Hc & f & Hf) | [(_ & Hc & Hf) | (a & Hf & Hi & Hc)]];
      rewrite Hc, Hf.
    + now apply fresh_filter.
    + apply fresh_nil.
    + now apply fresh_push.
Qed.

Lemma exec_keeps_fresh (evs : list Session.Event) :
  forall st, registriesFresh st -> registriesFresh (Session.exec st evs).
Proof.
  induction evs as [| e evs IH]; intros st H; simpl; [exact H |].
  apply IH. now apply run_keeps_fresh.
Qed.

(** Along a stretch without restart the ids a counter hands out increase
    strictly and start at the counter's value. *)
Lemma animalIds_increase (evs : list Session.Event) :
  forall st,
    forallb (fun e => negb (Session.isRestart e)) evs = true ->
    StronglySorted Z.lt (Session.animalIdsAssigned st evs)
    /\ Forall (fun i => (App.animalIdCounter st <= i)%Z) (Session.animalIdsAssigned st evs).
Proof.
  induction evs as [| e evs IH]; intros st Hn; simpl.
  - split; constructor.
  - simpl in Hn. apply andb_true_iff in Hn. destruct Hn as [He Hn].
    destruct (IH (Session.run st e) Hn) as [Hs Hb].
    assert (Hmono : (App.animalIdCounter st <= App.animalIdCounter (Session.run st e))%Z).
    { destruct (run_animals st e) as [(Hc & _) | [(Hr & _) | (_ & _ & _ & Hc)]].
      - rewrite Hc. lia.
      - subst e. discriminate.
      - rewrite Hc. lia. }
    destruct (App.animalIdCounter (Session.run st e) =? App.animalIdCounter st + 1)%Z eqn:E;
      simpl.
    + apply Z.eqb_eq in E. split.
      * constructor; [exact Hs |].
        eapply Forall_impl; [| exact Hb]. simpl. intros. lia.
      * constructor; [lia |].
        eapply Forall_impl; [| exact Hb]. simpl. intros. lia.
    + split; [exact Hs |].
      eapply Forall_impl; [| exact Hb]. simpl. intros. lia.
Qed.

Lemma spearIds_increase (evs : list Session.Event) :
  forall st,
    forallb (fun e => negb (Session.isRestart e)) evs = true ->
    StronglySorted Z.lt (Session.spearIdsAssigned st evs)
    /\ Forall (fun i => (App.spearIdCounter st <= i)%Z) (Session.spearIdsAssigned st evs).
Proof.
  induction evs as [| e evs IH]; intros st Hn; simpl.
  - split; constructor.
  - simpl in Hn. apply andb_true_iff in Hn. destruct Hn as [He Hn].
    destruct (IH (Session.run st e) Hn) as [Hs Hb].
    assert (Hmono : (App.spearIdCounter st <= App.spearIdCounter (Session.run st e))%Z).
    { destruct (run_spears st e) as [(Hc & _) | [(Hr & _) | (_ & _ & _ & Hc)]].
      - rewrite Hc. lia.
      - subst e. discriminate.
      - rewrite Hc. lia. }
    destruct (App.spearIdCounter (Session.run st e) =? App.spearIdCounter st + 1)%Z eqn:E;
      simpl.
    + apply Z.eqb_eq in E. split.
      * constructor; [exact Hs |].
        eapply Forall_impl; [| exact Hb]. simpl. intros. lia.
      * constructor; [lia |].
        eapply Forall_impl; [| exact Hb]. simpl. intros. lia.
    + split; [exact Hs |].
      eapply Forall_impl; [| exact Hb]. simpl. intros. lia.
Qed.

(** C10.  (1) An animal or a spear that enters its registry carries the
    current value of its counter as id, and the counter moves on by one.
    (2) Along any sequence of events without a restart the ids each counter
    hands out increase strictly, so each is greater than all handed out
    before it in the session.  (3) In every state a session can reach from
    the initial one, restarts included, the animals have pairwise distinct
    ids below the animal counter and the spears have pairwise distinct ids
    below the spear counter. *)
Theorem C10_ids_increase_and_are_distinct :
  (forall st e,
     (forall a, In a (App.animals (Session.run st e)) -> ~ In a (App.animals st) ->
        AnimalData.id a = App.animalIdCounter st
        /\ App.animalIdCounter (Session.run st e) = (App.animalIdCounter st + 1)%Z)
     /\ (forall s, In s (App.thrownSpears (Session.run st e)) ->
           ~ In s (App.thrownSpears st) ->
           Spear.id s = App.spearIdCounter st
           /\ App.spearIdCounter (Session.run st e) = (App.spearIdCounter st + 1)%Z))
  /\ (forall st evs,
        forallb (fun e => negb (Session.isRestart e)) evs = true ->
        StronglySorted Z.lt (Session.animalIdsAssigned st evs)
        /\ StronglySorted Z.lt (Session.spearIdsAssigned st evs))
  /\ (forall evs,
        let st := Session.exec App.initial evs in
        NoDup (map AnimalData.id (App.animals st))
        /\ NoDup (map Spear.id (App.thrownSpears st))
        /\ Forall (fun a => (AnimalData.id a < App.animalIdCounter st)%Z) (App.animals st)
        /\ Forall (fun s => (Spear.id s < App.spearIdCounter st)%Z) (App.thrownSpears st)).
Proof.
  split; [| split].
  - intros st e. split.
    + intros a Hin Hnot.
      destruct (run_animals st e) as [(_ & f & Hf) | [(_ & _ & Hf) | (a' & Hf & Hi & Hc)]];
        rewrite Hf in Hin.
      * apply filter_In in Hin. tauto.
      * destruct Hin.
      * apply in_app_or in Hin. destruct Hin as [Hin | [<- | []]]; [tauto | auto].
    + intros s Hin Hnot.
      destruct (run_spears st e) as [(_ & f & Hf) | [(_ & _ & Hf) | (s' & Hf & Hi & Hc)]];
        rewrite Hf in Hin.
      * apply filter_In in Hin. tauto.
      * destruct Hin.
      * apply in_app_or in Hin. destruct Hin as [Hin | [<- | []]]; [tauto | auto].
  - intros st evs Hn. split.
    + apply (animalIds_increase evs st Hn).
    + apply (spearIds_increase evs st Hn).
  - intros evs st.
    assert (H0 : registriesFresh App.initial).
    { split; apply fresh_nil. }
    destruct (exec_keeps_fresh evs H0) as [[Has Hab] [Hss Hsb]].
    fold st in Has, Hab, Hss, Hsb.
    repeat split; auto using sorted_NoDup.
Qed.

Lemma C10_ids_witness :
  forallb (fun e => negb (Session.isRestart e)) Examples.spawnArriveRespawn = true
  /\ StronglySorted Z.lt
       (Session.animalIdsAssigned App.initial Examples.spawnArriveRespawn).
Proof.
  split; [reflexivity |].
  exact (proj1 (proj1 (proj2 C10_ids_increase_and_are_distinct)
                      App.initial Examples.spawnArriveRespawn eq_refl)).
Defined.

Example ids_assigned_in_witness :
  Session.animalIdsAssigned App.initial Examples.spawnArriveRespawn = [0%Z; 1%Z]
  /\ map AnimalData.id
       (App.animals (Session.exec App.initial Examples.spawnArriveRespawn)) = [1%Z].
Proof. split; reflexivity. Qed.

(** ** Respawn *)

Lemma respawnRequests_app (l1 l2 : list (App.Timer * Z)) :
  respawnRequests (l1 ++ l2) = respawnRequests l1 ++ respawnRequests l2.
Proof. apply filter_app. Qed.

(** A frame callback only acts when the render its props came from was not
    paused: the handlers it calls belong to an unpaused render. *)
Lemma acting_frame_is_unpaused (c : App.Closure) (a : AnimalData.t)
      (spears : list Spear.Data) (st : Animal.State) (delta : Q) :
  snd (Animal.useFrame a (App.c_isPaused c) spears st delta) <> [] ->
  App.c_isPaused c = false.
Proof.
  intro H. destruct (App.c_isPaused c) eqn:E; [| reflexivity].
  rewrite animal_frame_guard in H by (right; reflexivity). now elim H.
Qed.

(** What one call of a removal handler does.  (1) The arrival handler
    takes exactly the animals with the given id out of the registry and
    leaves exactly one more respawn request pending, spawning nothing yet.
    (2) The death-animation callback of an animal with a non-zero id does
    the same; (3) for the animal with id [0] it removes nothing and spawns
    the replacement at once.  (4) A respawn request made by an unpaused
    render, when it fires, adds exactly one animal with a fresh id and no
    further request, whatever the pause flag is at that moment: the pause
    test of [spawnNewAnimal] reads the constant of the render that made
    the request.  (5) Only unpaused renders make requests, since a paused
    [Animal] frame calls nothing. *)
Lemma removal_call_respawns_once :
  (forall c damage animalId st,
     let st' := App.handleAnimalReachPlayer c damage animalId st in
     (forall x, In x (App.animals st')
                <-> In x (App.animals st) /\ AnimalData.id x <> animalId)
     /\ App.animalIdCounter st' = App.animalIdCounter st
     /\ respawnRequests (App.timeouts st')
        = respawnRequests (App.timeouts st) ++ [(App.SpawnNewAnimal c, 1000%Z)])
  /\ (forall c animalId randType randX now st,
        animalId <> 0%Z ->
        let st' := App.runTimer (App.DeathAnimationComplete c animalId)
                                randType randX now st in
        (forall x, In x (App.animals st')
                   <-> In x (App.animals st) /\ AnimalData.id x <> animalId)
        /\ App.animalIdCounter st' = App.animalIdCounter st
        /\ App.timeouts st' = App.timeouts st ++ [(App.SpawnNewAnimal c, 100%Z)])
  /\ (forall c randType randX now st,
        App.c_isPaused c = false ->
        let st' := App.runTimer (App.DeathAnimationComplete c 0)
                                randType randX now st in
        App.animals st' = App.animals st ++ [App.newAnimalOf st randType randX now]
        /\ App.timeouts st' = App.timeouts st)
  /\ (forall c randType randX now st,
        App.c_isPaused c = false ->
        let st' := App.runTimer (App.SpawnNewAnimal c) randType randX now st in
        App.animals st' = App.animals st ++ [App.newAnimalOf st randType randX now]
        /\ AnimalData.id (App.newAnimalOf st randType randX now) = App.animalIdCounter st
        /\ App.animalIdCounter st' = (App.animalIdCounter st + 1)%Z
        /\ App.timeouts st' = App.timeouts st
        /\ App.isPaused st' = App.isPaused st)
  /\ (forall c msg a ast delta spears app t ms,
        In (t, ms) (App.timeouts
                      (snd (Scene.animalFrame c msg a ast delta spears app))) ->
        ~ In (t, ms) (App.timeouts app) ->
        App.c_isPaused c = false).
Proof.
  split; [| split; [| split; [| split]]].
  - intros c damage animalId st. cbv zeta.
    assert (E : App.animals (App.handleAnimalReachPlayer c damage animalId st)
                = App.removeAnimal animalId (App.animals st)).
    { unfold App.handleAnimalReachPlayer.
      destruct (find _ (App.c_animals c)); reflexivity. }
    split; [intro x; rewrite E; apply removeAnimal_In |].
    unfold App.handleAnimalReachPlayer.
    destruct (find _ (App.c_animals c)); simpl; split;
      rewrite ?respawnRequests_app; simpl; rewrite ?app_nil_r; reflexivity.
  - intros c animalId randType randX now st Hid. cbv zeta. simpl.
    apply Z.eqb_neq in Hid. rewrite Hid. simpl.
    split; [intro x; apply removeAnimal_In | split; reflexivity].
  - intros c randType randX now st Hp. cbv zeta. simpl.
    unfold App.spawnFresh. rewrite Hp. simpl. split; reflexivity.
  - intros c randType randX now st Hp. cbv zeta. simpl.
    unfold App.spawnFresh. rewrite Hp. simpl. repeat split.
  - intros c msg a ast delta spears app t ms Hin Hnot.
    apply (@acting_frame_is_unpaused c a spears ast delta).
    intro Hnil. apply Hnot.
    unfold Scene.animalFrame in Hin.
    destruct (Animal.useFrame a (App.c_isPaused c) spears ast delta) as [sp effs].
    simpl in Hnil. subst effs. exact Hin.
Qed.

(** A request made while the game ran still spawns its animal when it
    fires during a pause. *)
Example respawn_fires_while_paused :
  App.c_isPaused Examples.running = false
  /\ App.isPaused Examples.pausedGame = true
  /\ App.animals
       (App.runTimer (App.SpawnNewAnimal Examples.running) (1 # 2) (1 # 2) 7000
                     Examples.pausedGame)
     = App.animals Examples.pausedGame
       ++ [App.newAnimalOf Examples.pausedGame (1 # 2) (1 # 2) 7000].
Proof. repeat split. Qed.

(** C4, evaluated.  An elephant at health 1 with two spears within reach
    in the same frame: the frame arms two death-animation callbacks for
    the one animal.  The first removes the elephant and requests a
    respawn; the second finds nothing to remove and requests another; the
    two requests spawn two animals.  One animal is removed, two replace
    it.  And the first animal of a session, the one with id [0]: its
    death-animation callback removes nothing and requests nothing, it
    spawns the replacement at once, and the dead animal stays in the
    registry. *)
Theorem C4_one_removal_two_replacements :
  (let c := App.closure Examples.elephantHunt in
   let '(_, ast, app) :=
     Scene.animalFrame c "HIT!" Examples.elephant Examples.woundedElephant (1 # 64)
       [Examples.spearSeven; Examples.spearEight] Examples.elephantHunt in
   let fired n := Scene.fireTimeouts n (1 # 2) (1 # 2) 14000 app in
   map AnimalData.id (App.animals Examples.elephantHunt) = [1%Z]
   /\ Animal.isAlive ast = false
   /\ filter isDeathCallback (App.timeouts app)
      = [(App.DeathAnimationComplete c 1, 3000%Z);
         (App.DeathAnimationComplete c 1, 3000%Z)]
   /\ respawnRequests (App.timeouts app) = []
   /\ map AnimalData.id (App.animals (fired 3%nat)) = []
   /\ respawnRequests (App.timeouts (fired 3%nat)) = [(App.SpawnNewAnimal c, 100%Z)]
   /\ map AnimalData.id (App.animals (fired 6%nat)) = []
   /\ respawnRequests (App.timeouts (fired 6%nat))
      = [(App.SpawnNewAnimal c, 100%Z); (App.SpawnNewAnimal c, 100%Z)]
   /\ map AnimalData.id (App.animals (fired 7%nat)) = [2%Z]
   /\ map AnimalData.id (App.animals (fired 8%nat)) = [2%Z; 3%Z]
   /\ App.timeouts (fired 8%nat) = [])
  /\ (let c := App.closure Scenes.firstHunt in
      let '(_, ast, app) :=
        Scene.animalFrame c "HIT!" Scenes.firstAntelope Examples.antelopeOnItsWay
          (1 # 64) [Scenes.secondSpear] Scenes.firstHunt in
      let fired n := Scene.fireTimeouts n (1 # 2) (1 # 2) 7000 app in
      map AnimalData.id (App.animals Scenes.firstHunt) = [0%Z]
      /\ Animal.isAlive ast = false
      /\ filter isDeathCallback (App.timeouts app)
         = [(App.DeathAnimationComplete c 0, 800%Z)]
      /\ map AnimalData.id (App.animals (fired 2%nat)) = [0%Z]
      /\ respawnRequests (App.timeouts (fired 2%nat)) = []
      /\ map AnimalData.id (App.animals (fired 3%nat)) = [0%Z; 1%Z]
      /\ respawnRequests (App.timeouts (fired 3%nat)) = []
      /\ App.timeouts (fired 3%nat) = []).
Proof. split; vm_compute; repeat split. Qed.

(** A request made by a paused render would spawn nothing; by (5) of
    [removal_call_respawns_once], the game makes none. *)
Lemma paused_closure_spawns_nothing (c : App.Closure) (randType randX : Q)
      (now : Z) (st : App.State) :
  App.c_isPaused c = true ->
  App.runTimer (App.SpawnNewAnimal c) randType randX now st = st.
Proof. intro H. simpl. unfold App.spawnFresh. now rewrite H. Qed.

(** ** Collisions *)

(** Once [isAlive] is false the animal's frame resolves no collision: no
    health change, no hit event, no spear touched, in any later frame. *)
Lemma dead_animal_is_inert (a : AnimalData.t) (isPaused : bool)
      (spears : list Spear.Data) (st : Animal.State) (delta : Q) :
  Animal.isAlive st = false ->
  Animal.useFrame a isPaused spears st delta = (spears, []).
Proof. intro H. apply animal_frame_guard. now left. Qed.

(** When the death animation is over the dead animal is no longer drawn. *)
Lemma dead_animal_unmounts (st : Animal.State) :
  Animal.isAlive st = false ->
  Animal.rendered (Animal.commit st Animal.deathAnimationOver) = false.
Proof. intro H. unfold Animal.rendered. simpl. now rewrite H. Qed.

(** Resolving a lethal hit calls [onHit] twice for the same spear: once
    directly and once through the 500 ms timeout. *)
Lemma lethal_hit_emits_two_hit_events (a : AnimalData.t) (st : Animal.State)
      (newPosition : Vec3) (spear : Spear.Data) :
  Spear.isActive spear = true ->
  existsb (Z.eqb (Spear.id spear)) (Animal.stuckSpears st) = false ->
  Animal.withinHitRadius newPosition (Spear.position spear) = true ->
  (Animal.health st - 1 <= 0)%Z ->
  Animal.hitEvents (snd (Animal.checkSpear a st newPosition spear))
  = [Animal.SetTimeout
       (Animal.LaterOnHit (AnimalType.score (AnimalData.type a)) (Spear.id spear)
                          (AnimalData.id a)) 500;
     Animal.OnHit (AnimalType.score (AnimalData.type a)) (Spear.id spear)
                  (AnimalData.id a)].
Proof.
  intros Ha Hs Hr Hl. unfold Animal.checkSpear.
  rewrite Ha, Hs, Hr. simpl.
  apply Z.leb_le in Hl. rewrite Hl. reflexivity.
Qed.

(** Both ways of calling [onHit] add the score. *)
Lemma every_hit_event_scores (scorePoints spearId animalId : Z) (randType randX : Q)
      (now : Z) (st : App.State) :
  App.score (App.handleAnimalHit scorePoints spearId animalId st)
  = (App.score st + scorePoints)%Z
  /\ App.score (App.runTimer (App.HitAfterImpact scorePoints spearId animalId)
                             randType randX now st)
     = (App.score st + scorePoints)%Z.
Proof.
  simpl. unfold App.handleAnimalHit. destruct (negb _); split; reflexivity.
Qed.

(** C1, evaluated.  An antelope (one hit to kill, 50 points) and one spear
    within reach: the frame that kills it emits two hit events, and when
    the timeouts have fired the score has grown by 100.  An elephant at
    health 1 and two spears within reach in the same frame: both are
    resolved against health 1, giving four hit events and two death
    timers; the score grows by 400 and two animals replace the one. *)
Theorem C1_lethal_hit_is_scored_twice :
  (let effs := snd (Animal.useFrame Examples.antelope false
                      [Examples.spearAtAntelope] Examples.antelopeOnItsWay (1 # 64)) in
   let '(_, st', app) :=
     Scene.animalFrame (App.closure Examples.antelopeHunt) "HIT!"
       Examples.antelope Examples.antelopeOnItsWay (1 # 64)
       [Examples.spearAtAntelope] Examples.antelopeHunt in
   let final := Scene.fireTimeouts 10 (1 # 2) (1 # 2) 6000 app in
   Animal.health st' = 0%Z
   /\ Animal.isAlive st' = false
   /\ Animal.hitEvents effs
      = [Animal.SetTimeout (Animal.LaterOnHit 50 3 2) 500; Animal.OnHit 50 3 2]
   /\ App.score Examples.antelopeHunt = 0%Z
   /\ App.score app = 50%Z
   /\ App.score final = 100%Z
   /\ App.timeouts final = [])
  /\ (let effs := snd (Animal.useFrame Examples.elephant false
                         [Examples.spearSeven; Examples.spearEight]
                         Examples.woundedElephant (1 # 64)) in
      let '(_, st', app) :=
        Scene.animalFrame (App.closure Examples.elephantHunt) "HIT!"
          Examples.elephant Examples.woundedElephant (1 # 64)
          [Examples.spearSeven; Examples.spearEight] Examples.elephantHunt in
      let final := Scene.fireTimeouts 10 (1 # 2) (1 # 2) 14000 app in
      Animal.health Examples.woundedElephant = 1%Z
      /\ Animal.health st' = 0%Z
      /\ Animal.hitEvents effs
         = [Animal.SetTimeout (Animal.LaterOnHit 100 7 1) 500; Animal.OnHit 100 7 1;
            Animal.SetTimeout (Animal.LaterOnHit 100 8 1) 500; Animal.OnHit 100 8 1]
      /\ List.length (filter isDeathTimer effs) = 2%nat
      /\ App.score Examples.elephantHunt = 200%Z
      /\ App.score final = 600%Z
      /\ map AnimalData.id (App.animals Examples.elephantHunt) = [1%Z]
      /\ map AnimalData.id (App.animals final) = [2%Z; 3%Z]).
Proof. split; vm_compute; repeat split. Qed.

(** ** Misses *)

Section MissLatch.

Variable spearId : Z.

(** A frame reports a miss only when neither latch is set in the state it
    reads, and then it sets the miss latch. *)
Lemma frame_miss_sets_latch (isPaused : bool) (st : ThrownSpear.State) (delta : Q) :
  let effs := ThrownSpear.useFrame spearId isPaused st delta in
  (ThrownSpear.misses effs = 0%nat
   /\ ThrownSpear.hasTriggeredMiss (ThrownSpear.commit st effs)
      = ThrownSpear.hasTriggeredMiss st
   /\ ThrownSpear.hasHitAnimal (ThrownSpear.commit st effs) = ThrownSpear.hasHitAnimal st)
  \/ (ThrownSpear.misses effs = 1%nat
      /\ ThrownSpear.hasTriggeredMiss st = false
      /\ ThrownSpear.hasHitAnimal st = false
      /\ ThrownSpear.hasTriggeredMiss (ThrownSpear.commit st effs) = true
      /\ ThrownSpear.hasHitAnimal (ThrownSpear.commit st effs) = false).
Proof.
  cbv zeta. unfold ThrownSpear.useFrame.
  destruct (negb (ThrownSpear.meshRef st) || negb (ThrownSpear.isActive st) || isPaused);
    [left; repeat split |].
  unfold ThrownSpear.reportMiss.
  destruct (ThrownSpear.hasTriggeredMiss st) eqn:Em;
    destruct (ThrownSpear.hasHitAnimal st) eqn:Eh; simpl;
    repeat match goal with
           | |- context [if ?b then _ else _] => destruct b
           end; simpl; rewrite ?Em, ?Eh; auto 10.
Qed.

(** Over a life in which every update is committed before the next frame
    runs, [onMiss] is called at most once, and never once [hasHitAnimal]
    has been committed. *)
Lemma committed_life_misses (steps : list Lifetime.Step) :
  forall st,
    (fst (Lifetime.live spearId st steps) <= 1)%nat
    /\ (ThrownSpear.hasTriggeredMiss st = true \/ ThrownSpear.hasHitAnimal st = true ->
        fst (Lifetime.live spearId st steps) = 0%nat).
Proof.
  induction steps as [| s rest IH]; intro st; simpl; [split; auto |].
  destruct (Lifetime.live spearId
              (ThrownSpear.commit st (Lifetime.effects spearId st s)) rest)
    as [n final] eqn:E.
  pose proof (IH (ThrownSpear.commit st (Lifetime.effects spearId st s))) as [Hle Hz].
  rewrite E in Hle, Hz. simpl in *.
  destruct s as [isPaused delta |]; simpl in *.
  - destruct (frame_miss_sets_latch isPaused st delta)
      as [(H0 & Hm & Hh) | (H1 & Hm & Hh & Hm' & Hh')].
    + rewrite H0. split; [lia |].
      intro Hl. rewrite Hz; [reflexivity |]. rewrite Hm, Hh. exact Hl.
    + rewrite H1. rewrite Hz by (left; exact Hm'). split; [lia |].
      intros [Hl | Hl]; congruence.
  - split; [rewrite Hz by (right; reflexivity); lia |].
    intros _. apply Hz. right. reflexivity.
Qed.

End MissLatch.

(** C2, evaluated.  A spear about to touch the ground beside an elephant,
    out of its reach one frame earlier.  In one and the same frame the
    elephant's callback resolves a hit by this spear (it calls
    [setHasHitAnimal(true)] and schedules the hit event) and the spear's
    callback, which still reads [hasHitAnimal = false], reports a miss.
    After the frame the spear holds both [hasHitAnimal] and
    [hasTriggeredMiss], in whichever order the two callbacks ran, and [App]
    shows the miss message with both the hit and the removal of the missed
    spear pending. *)
Theorem C2_miss_reported_for_spear_that_hit :
  let spearId := Spear.id Examples.lowSpearData in
  let delta := 1 # 64 in
  let c := App.closure Examples.lowThrow in
  let animalEffs :=
    snd (Animal.useFrame Examples.elephant false [Examples.lowSpearData]
                         Examples.freshElephant delta) in
  let spearEffs := ThrownSpear.useFrame spearId false Examples.lowSpear delta in
  let after :=
    ThrownSpear.commit Examples.lowSpear (Scene.hitsOn spearId animalEffs ++ spearEffs) in
  let after' :=
    ThrownSpear.commit Examples.lowSpear (spearEffs ++ Scene.hitsOn spearId animalEffs) in
  let app :=
    snd (Scene.spearFrame c "Missed!" spearId Examples.lowSpear delta
           (snd (Scene.animalFrame c "HIT!" Examples.elephant Examples.freshElephant
                   delta [Examples.lowSpearData] Examples.lowThrow))) in
  Animal.hitEvents
    (snd (Animal.useFrame Examples.elephant false [Examples.lowSpearDataBefore]
                          Examples.freshElephantBefore delta)) = []
  /\ Spear.isActive Examples.lowSpearData = true
  /\ ThrownSpear.hasHitAnimal Examples.lowSpear = false
  /\ ThrownSpear.hasTriggeredMiss Examples.lowSpear = false
  /\ Scene.hitsOn spearId animalEffs = [ThrownSpear.SetHasHitAnimal true]
  /\ Animal.hitEvents animalEffs = [Animal.SetTimeout (Animal.LaterOnHit 100 9 1) 500]
  /\ filter ThrownSpear.isMiss spearEffs = [ThrownSpear.OnMiss 9]
  /\ ThrownSpear.hasHitAnimal after = true
  /\ ThrownSpear.hasTriggeredMiss after = true
  /\ after' = after
  /\ App.hitMessage app = "Missed!"%string
  /\ map fst (App.timeouts app)
     = [App.ClearHitMessage; App.HitAfterImpact 100 9 1;
        App.ClearHitMessage; App.RemoveMissedSpear 9].
Proof. vm_compute. repeat split. Qed.

(** * Further properties of the simulation *)

(** ** Hits and the stuck list *)

Lemma stuck_test (i : Z) (l : list Z) : existsb (Z.eqb i) l = true <-> In i l.
Proof.
  rewrite existsb_exists. split.
  - intros (x & Hx & E). apply Z.eqb_eq in E. now subst.
  - intro H. exists i. split; [exact H | apply Z.eqb_refl].
Qed.

Lemma stuckBy_app (l1 l2 : list Animal.Effect) :
  stuckBy (l1 ++ l2) = stuckBy l1 ++ stuckBy l2.
Proof. unfold stuckBy. apply flat_map_app. Qed.

(** What the body of the collision loop can return for one spear: nothing,
    or the block of calls of a resolved hit. *)
Lemma checkSpear_cases (a : AnimalData.t) (st : Animal.State) (np : Vec3)
      (spear : Spear.Data) :
  Animal.checkSpear a st np spear = (spear, [])
  \/ (Spear.isActive spear = true
      /\ ~ In (Spear.id spear) (Animal.stuckSpears st)
      /\ Animal.withinHitRadius np (Spear.position spear) = true
      /\ fst (Animal.checkSpear a st np spear) = Spear.setIsActive spear false
      /\ stuckBy (snd (Animal.checkSpear a st np spear)) = [Spear.id spear]
      /\ forall s : Animal.State,
           let s' := Animal.commit s (snd (Animal.checkSpear a st np spear)) in
           Animal.position s' = Animal.position s
           /\ Animal.health s' = (Animal.health st - 1)%Z
           /\ Animal.stuckSpears s' = Animal.stuckSpears s ++ [Spear.id spear]
           /\ Animal.isAlive s'
              = (if (Animal.health st - 1 <=? 0)%Z then false else Animal.isAlive s)
           /\ Animal.isDying s'
              = (if (Animal.health st - 1 <=? 0)%Z then true else Animal.isDying s)).
Proof.
  unfold Animal.checkSpear.
  destruct (Spear.isActive spear) eqn:Ea; simpl; [| now left].
  destruct (existsb (Z.eqb (Spear.id spear)) (Animal.stuckSpears st)) eqn:Es;
    [now left |].
  destruct (Animal.withinHitRadius np (Spear.position spear)) eqn:Er; [| now left].
  right. repeat split.
  - intro Hin. apply stuck_test in Hin. congruence.
  - simpl. destruct (Animal.health st - 1 <=? 0)%Z; reflexivity.
  - destruct (Animal.health st - 1 <=? 0)%Z; reflexivity.
  - destruct (Animal.health st - 1 <=? 0)%Z; reflexivity.
  - destruct (Animal.health st - 1 <=? 0)%Z; reflexivity.
  - destruct (Animal.health st - 1 <=? 0)%Z; reflexivity.
  - destruct (Animal.health st - 1 <=? 0)%Z; reflexivity.
Qed.

Lemma forEach_outcome (a : AnimalData.t) (st : Animal.State) (np : Vec3)
      (spears : list Spear.Data) :
  forall s, loopOutcome st s ->
            loopOutcome st (Animal.commit s (snd (Animal.forEach a st np spears))).
Proof.
  induction spears as [| spear rest IH]; intros s Hs; simpl; [exact Hs |].
  destruct (Animal.checkSpear a st np spear) as [sp e1] eqn:E1.
  destruct (Animal.forEach a st np rest) as [r e2] eqn:E2.
  simpl in *. rewrite animal_commit_app. apply IH.
  destruct (checkSpear_cases a st np spear) as [H | (_ & _ & _ & _ & _ & H)];
    rewrite E1 in H.
  - inversion H; subst. exact Hs.
  - simpl in H. destruct (H s) as (Hp & Hh & _ & Ha & Hd).
    destruct Hs as [Hpos Hs]. split; [congruence |].
    right. split; [exact Hh |].
    destruct (Animal.health st - 1 <=? 0)%Z; [auto |].
    destruct Hs as [(_ & Ha' & Hd') | (_ & Ha' & Hd')]; split; congruence.
Qed.

(** One step of a life, by cases. *)
Lemma step_cases (a : AnimalData.t) (st : Animal.State) (s : AnimalLife.Step) :
  let st' := AnimalLife.step a st s in
  st' = st
  \/ (Animal.isAlive st = true
      /\ st' = Animal.mkState (Animal.position st) (Animal.health st) false
                              (Animal.stuckSpears st) (Animal.isDying st))
  \/ (Animal.isAlive st = true
      /\ (exists z, z < 8
                    /\ Animal.position st'
                       = mkVec3 (c0 (Animal.position st)) (c1 (Animal.position st)) z)
      /\ ((Animal.health st' = Animal.health st
           /\ Animal.isAlive st' = Animal.isAlive st
           /\ Animal.isDying st' = Animal.isDying st)
          \/ (Animal.health st' = (Animal.health st - 1)%Z
              /\ Animal.isAlive st'
                 = (if (Animal.health st - 1 <=? 0)%Z then false else Animal.isAlive st)
              /\ Animal.isDying st'
                 = (if (Animal.health st - 1 <=? 0)%Z then true else Animal.isDying st))))
  \/ (s = AnimalLife.DeathAnimationOver
      /\ st' = Animal.mkState (Animal.position st) (Animal.health st)
                              (Animal.isAlive st) (Animal.stuckSpears st) false).
Proof.
  cbv zeta. destruct s as [f |]; [| right; right; right; split; reflexivity].
  unfold AnimalLife.step, AnimalLife.effects, Animal.useFrame.
  destruct (Animal.isAlive st) eqn:Ea; simpl; [| now left].
  destruct (AnimalLife.isPaused f); simpl; [now left |].
  match goal with |- context [Qleb 8 ?z] => set (newZ := z) end.
  destruct (Qleb 8 newZ) eqn:Ez.
  - right. left. split; [reflexivity |]. simpl. reflexivity.
  - right. right. left. split; [reflexivity |].
    set (np := mkVec3 (c0 (Animal.position st)) (c1 (Animal.position st)) newZ).
    pose proof (@forEach_outcome a st np (AnimalLife.thrownSpears f) st) as Hout.
    destruct (Animal.forEach a st np (AnimalLife.thrownSpears f)) as [sp effs].
    simpl in *. rewrite animal_commit_app.
    destruct Hout as [Hpos Hrest].
    { split; [reflexivity | left; auto]. }
    split.
    + exists newZ. split; [now apply Qleb_false_lt | reflexivity].
    + simpl. rewrite Ea in Hrest. exact Hrest.
Qed.

Lemma stuckSpears_grow (st : Animal.State) (effs : list Animal.Effect) (i : Z) :
  In i (Animal.stuckSpears st) \/ In i (stuckBy effs) ->
  In i (Animal.stuckSpears (Animal.commit st effs)).
Proof.
  revert st. induction effs as [| e effs IH]; intros st H; simpl.
  - destruct H as [H | []]. exact H.
  - apply IH. destruct e; simpl in *; try tauto.
    destruct H as [H | [H | H]]; [left | left | right]; auto;
      apply in_or_app; simpl; auto.
Qed.

Lemma forEach_stuckBy (a : AnimalData.t) (st : Animal.State) (np : Vec3)
      (spears : list Spear.Data) (i : Z) :
  In i (stuckBy (snd (Animal.forEach a st np spears))) ->
  ~ In i (Animal.stuckSpears st).
Proof.
  induction spears as [| spear rest IH]; simpl; [tauto |].
  destruct (Animal.checkSpear a st np spear) as [sp e1] eqn:E1.
  destruct (Animal.forEach a st np rest) as [r e2] eqn:E2.
  simpl in *. rewrite stuckBy_app. intro H. apply in_app_or in H.
  destruct H as [H | H]; [| auto].
  destruct (checkSpear_cases a st np spear) as [Hc | (_ & Hn & _ & _ & Hs & _)];
    rewrite E1 in *; simpl in *.
  - inversion Hc; subst. destruct H.
  - rewrite Hs in H. destruct H as [<- | []]. exact Hn.
Qed.

Lemma frame_stuckBy (a : AnimalData.t) (st : Animal.State) (s : AnimalLife.Step) (i : Z) :
  In i (stuckBy (AnimalLife.effects a st s)) -> ~ In i (Animal.stuckSpears st).
Proof.
  destruct s as [f |]; simpl; [| tauto].
  unfold Animal.useFrame.
  destruct (negb (Animal.isAlive st) || AnimalLife.isPaused f); simpl; [tauto |].
  match goal with |- context [Qleb 8 ?z] => destruct (Qleb 8 z) end; simpl; [tauto |].
  match goal with
  | |- context [Animal.forEach a st ?np ?sp] =>
      pose proof (@forEach_stuckBy a st np sp i) as H;
      destruct (Animal.forEach a st np sp) as [sp' effs]
  end.
  simpl in *. rewrite stuckBy_app. simpl. rewrite app_nil_r. exact H.
Qed.

(** X1.  A spear an animal has resolved a hit for is on the animal's stuck
    list from the next render on, and no later frame of that animal
    resolves a hit for it again, however long it stays within reach. *)
Theorem stuck_spear_is_never_hit_again
  (a : AnimalData.t) (st : Animal.State) (s : AnimalLife.Step)
  (steps : list AnimalLife.Step) (i : Z) :
  In i (stuckBy (AnimalLife.effects a st s)) ->
  In i (Animal.stuckSpears (AnimalLife.step a st s))
  /\ Forall (fun effs => ~ In i (stuckBy effs))
            (AnimalLife.trace a (AnimalLife.step a st s) steps).
Proof.
  intro Hhit.
  assert (Hin : In i (Animal.stuckSpears (AnimalLife.step a st s))).
  { unfold AnimalLife.step. apply stuckSpears_grow. now right. }
  split; [exact Hin |].
  revert Hin. generalize (AnimalLife.step a st s). clear Hhit st s.
  induction steps as [| s steps IH]; intros st Hin; simpl; constructor.
  - intro H. exact (@frame_stuckBy a st s i H Hin).
  - apply IH. unfold AnimalLife.step. apply stuckSpears_grow. now left.
Qed.

Lemma stuck_spear_witness :
  In 9%Z (stuckBy (AnimalLife.effects Examples.elephant Examples.freshElephant
                                      Scenes.reach))
  /\ Forall (fun effs => ~ In 9%Z (stuckBy effs))
            (AnimalLife.trace Examples.elephant
               (AnimalLife.step Examples.elephant Examples.freshElephant Scenes.reach)
               Scenes.afterwards).
Proof.
  assert (H : In 9%Z (stuckBy (AnimalLife.effects Examples.elephant
                                 Examples.freshElephant Scenes.reach))).
  { vm_compute. left. reflexivity. }
  split; [exact H |].
  exact (proj2 (@stuck_spear_is_never_hit_again
                  Examples.elephant Examples.freshElephant Scenes.reach
                  Scenes.afterwards 9%Z H)).
Defined.

(** ** Health and position along a life *)

Lemma step_keeps_healthy (a : AnimalData.t) (st : Animal.State) (s : AnimalLife.Step) :
  healthy a st ->
  healthy a (AnimalLife.step a st s)
  /\ (Animal.health (AnimalLife.step a st s) <= Animal.health st)%Z.
Proof.
  intros (Hb & Ha & Hd).
  destruct (step_cases a st s)
    as [-> | [(Hal & ->) | [(Hal & _ & H) | (_ & ->)]]].
  - split; [repeat split; auto; lia | lia].
  - simpl. split; [| lia]. repeat split; simpl; auto; try lia; discriminate.
  - specialize (Ha Hal).
    destruct H as [(Hh & Hi & Hy) | (Hh & Hi & Hy)]; rewrite Hh.
    + split; [| lia]. unfold healthy. rewrite Hh, Hi, Hy. auto.
    + split; [| lia]. unfold healthy. rewrite Hh, Hi, Hy.
      destruct (Animal.health st - 1 <=? 0)%Z eqn:E.
      * repeat split; auto; try lia; discriminate.
      * apply Z.leb_gt in E. repeat split; auto; lia.
  - simpl. split; [| lia]. repeat split; simpl; auto; try lia; discriminate.
Qed.

Lemma live_app (a : AnimalData.t) (st : Animal.State) (l1 l2 : list AnimalLife.Step) :
  AnimalLife.live a st (l1 ++ l2) = AnimalLife.live a (AnimalLife.live a st l1) l2.
Proof. unfold AnimalLife.live. apply fold_left_app. Qed.

Lemma live_keeps_healthy (a : AnimalData.t) (steps : list AnimalLife.Step) :
  forall st, healthy a st ->
             healthy a (AnimalLife.live a st steps)
             /\ (Animal.health (AnimalLife.live a st steps) <= Animal.health st)%Z.
Proof.
  induction steps as [| s steps IH]; intros st H; simpl; [split; [exact H | lia] |].
  destruct (@step_keeps_healthy a st s H) as [H1 Hle].
  destruct (IH _ H1) as [H2 Hle2]. split; [exact H2 | lia].
Qed.

(** X2.  For an animal whose type needs at least one hit, at every moment
    of its life, whatever spears fly and whenever its timers fire: the
    health lies between [0] and the type's health; it never increases;
    an animal that is alive has at least one hit left; and an animal that
    is dying is not alive. *)
Theorem animal_health_stays_in_range
  (a : AnimalData.t) (before after : list AnimalLife.Step) :
  (1 <= AnimalType.health (AnimalData.type a))%Z ->
  let earlier := AnimalLife.live a (Animal.initial a) before in
  let later := AnimalLife.live a (Animal.initial a) (before ++ after) in
  (0 <= Animal.health later <= AnimalType.health (AnimalData.type a))%Z
  /\ (Animal.health later <= Animal.health earlier)%Z
  /\ (Animal.isAlive later = true -> (1 <= Animal.health later)%Z)
  /\ (Animal.isDying later = true -> Animal.isAlive later = false).
Proof.
  intros Hmax earlier later.
  assert (H0 : healthy a (Animal.initial a)).
  { repeat split; simpl; try lia; discriminate. }
  destruct (@live_keeps_healthy a before _ H0) as [H1 _].
  fold earlier in H1.
  destruct (@live_keeps_healthy a after _ H1) as [(Hb & Ha & Hd) Hle].
  subst later. rewrite live_app. fold earlier. auto.
Qed.

Lemma animal_health_witness :
  (1 <= AnimalType.health (AnimalData.type Examples.elephant))%Z
  /\ Animal.health
       (AnimalLife.live Examples.elephant (Animal.initial Examples.elephant)
                        ([Scenes.longWalk; Scenes.reach] ++ Scenes.afterwards)) = 2%Z
  /\ (0 <= Animal.health
             (AnimalLife.live Examples.elephant (Animal.initial Examples.elephant)
                              ([Scenes.longWalk; Scenes.reach] ++ Scenes.afterwards))
       <= 3)%Z.
Proof.
  assert (H : (1 <= AnimalType.health (AnimalData.type Examples.elephant))%Z)
    by (vm_compute; discriminate).
  split; [exact H |]. split; [vm_compute; reflexivity |].
  exact (proj1 (@animal_health_stays_in_range Examples.elephant
                  [Scenes.longWalk; Scenes.reach] Scenes.afterwards H)).
Defined.

Lemma step_keeps_track (a : AnimalData.t) (st : Animal.State) (s : AnimalLife.Step) :
  onTrack a st -> onTrack a (AnimalLife.step a st s).
Proof.
  intros (Hx & Hy & Hz).
  destruct (step_cases a st s)
    as [-> | [(_ & ->) | [(_ & (z & Hz' & Hp) & _) | (_ & ->)]]];
    unfold onTrack; simpl; auto.
  rewrite Hp. simpl. auto.
Qed.

(** X3.  An animal spawned short of the player line is never stored at or
    beyond it, and it never leaves its lane: at every moment of its life
    its [x] and [y] are those of its spawn point and its [z] is below [8]. *)
Theorem animal_stays_in_lane_short_of_player
  (a : AnimalData.t) (steps : list AnimalLife.Step) :
  c2 (AnimalData.position a) < 8 ->
  let st := AnimalLife.live a (Animal.initial a) steps in
  c0 (Animal.position st) = c0 (AnimalData.position a)
  /\ c1 (Animal.position st) = c1 (AnimalData.position a)
  /\ c2 (Animal.position st) < 8.
Proof.
  intros H0. cbv zeta.
  assert (H : onTrack a (Animal.initial a)) by (repeat split; exact H0).
  revert H. generalize (Animal.initial a).
  induction steps as [| s steps IH]; intros st H; simpl; [exact H |].
  apply IH. now apply step_keeps_track.
Qed.

Lemma animal_lane_witness :
  c2 (AnimalData.position Examples.elephant) < 8
  /\ c2 (Animal.position
           (AnimalLife.live Examples.elephant (Animal.initial Examples.elephant)
                            Scenes.afterwards)) < 8.
Proof.
  assert (H : c2 (AnimalData.position Examples.elephant) < 8) by reflexivity.
  split; [exact H |].
  exact (proj2 (proj2 (@animal_stays_in_lane_short_of_player
                         Examples.elephant Scenes.afterwards H))).
Defined.

(** ** One spear, one animal *)

Lemma forEach_ids (a : AnimalData.t) (st : Animal.State) (np : Vec3)
      (spears : list Spear.Data) :
  map Spear.id (fst (Animal.forEach a st np spears)) = map Spear.id spears.
Proof.
  induction spears as [| spear rest IH]; simpl; [reflexivity |].
  destruct (checkSpear_cases a st np spear) as [Hc | (_ & _ & _ & Hf & _)];
    destruct (Animal.checkSpear a st np spear) as [sp e1];
    destruct (Animal.forEach a st np rest) as [r e2]; simpl in *.
  - inversion Hc; subst. now rewrite IH.
  - subst sp. simpl. now rewrite IH.
Qed.

(** A spear the loop resolved a hit for leaves the loop inactive. *)
Lemma forEach_deactivates (a : AnimalData.t) (st : Animal.State) (np : Vec3)
      (spears : list Spear.Data) (i : Z) :
  In i (stuckBy (snd (Animal.forEach a st np spears))) ->
  exists s, In s (fst (Animal.forEach a st np spears))
            /\ Spear.id s = i /\ Spear.isActive s = false.
Proof.
  induction spears as [| spear rest IH]; simpl; [tauto |].
  destruct (checkSpear_cases a st np spear) as [Hc | (_ & _ & _ & Hf & Hs & _)];
    destruct (Animal.checkSpear a st np spear) as [sp e1];
    destruct (Animal.forEach a st np rest) as [r e2]; simpl in *;
    rewrite stuckBy_app; intro H; apply in_app_or in H.
  - inversion Hc; subst. destruct H as [[] | H].
    destruct (IH H) as (s & Hin & Hid & Hact). exists s. auto.
  - destruct H as [H | H].
    + rewrite Hs in H. destruct H as [<- | []].
      exists sp. subst sp. simpl. auto.
    + destruct (IH H) as (s & Hin & Hid & Hact). exists s. auto.
Qed.

(** A spear the loop resolves a hit for entered the loop active. *)
Lemma forEach_needs_active (a : AnimalData.t) (st : Animal.State) (np : Vec3)
      (spears : list Spear.Data) (i : Z) :
  In i (stuckBy (snd (Animal.forEach a st np spears))) ->
  exists s, In s spears /\ Spear.id s = i /\ Spear.isActive s = true.
Proof.
  induction spears as [| spear rest IH]; simpl; [tauto |].
  destruct (checkSpear_cases a st np spear) as [Hc | (Ha & _ & _ & _ & Hs & _)];
    destruct (Animal.checkSpear a st np spear) as [sp e1];
    destruct (Animal.forEach a st np rest) as [r e2]; simpl in *;
    rewrite stuckBy_app; intro H; apply in_app_or in H.
  - inversion Hc; subst. destruct H as [[] | H].
    destruct (IH H) as (s & Hin & Hid & Hact). exists s. auto.
  - destruct H as [H | H].
    + rewrite Hs in H. destruct H as [<- | []]. exists spear. auto.
    + destruct (IH H) as (s & Hin & Hid & Hact). exists s. auto.
Qed.

Lemma same_key_same_element {A : Type} (key : A -> Z) (l : list A) (x y : A) :
  NoDup (map key l) -> In x l -> In y l -> key x = key y -> x = y.
Proof.
  induction l as [| z l IH]; simpl; intros Hnd Hx Hy Hk; [destruct Hx |].
  inversion Hnd as [| ? ? Hnot Hnd']; subst.
  destruct Hx as [-> | Hx]; destruct Hy as [-> | Hy]; auto.
  - exfalso. apply Hnot. rewrite Hk. now apply in_map.
  - exfalso. apply Hnot. rewrite <- Hk. now apply in_map.
Qed.

(** The spears a frame callback returns and the hits it resolved, with the
    guards of the callback taken into account. *)
Lemma useFrame_spears (a : AnimalData.t) (isPaused : bool)
      (spears : list Spear.Data) (st : Animal.State) (delta : Q) :
  map Spear.id (fst (Animal.useFrame a isPaused spears st delta)) = map Spear.id spears
  /\ (forall i, In i (stuckBy (snd (Animal.useFrame a isPaused spears st delta))) ->
        (exists s, In s (fst (Animal.useFrame a isPaused spears st delta))
                   /\ Spear.id s = i /\ Spear.isActive s = false)
        /\ (exists s, In s spears /\ Spear.id s = i /\ Spear.isActive s = true)).
Proof.
  unfold Animal.useFrame.
  destruct (negb (Animal.isAlive st) || isPaused); simpl; [split; [auto | tauto] |].
  match goal with |- context [Qleb 8 ?z] => destruct (Qleb 8 z) end; simpl;
    [split; [auto | tauto] |].
  match goal with
  | |- context [Animal.forEach a st ?np spears] =>
      pose proof (forEach_ids a st np spears) as Hids;
      pose proof (@forEach_deactivates a st np spears) as Hd;
      pose proof (@forEach_needs_active a st np spears) as Hn;
      destruct (Animal.forEach a st np spears) as [sp effs]
  end.
  simpl in *. split; [exact Hids |].
  intros i Hi. rewrite stuckBy_app in Hi. simpl in Hi. rewrite app_nil_r in Hi. auto.
Qed.

(** X4.  Within one frame a spear is resolved against at most one animal:
    when the callbacks of two animals run one after the other over the same
    registry (of spears with distinct ids), a spear the first one resolved a
    hit for is passed over by the second, even if it is within its reach. *)
Theorem spear_hits_one_animal_per_frame
  (a b : AnimalData.t) (sta stb : Animal.State) (delta : Q)
  (spears : list Spear.Data) (i : Z) :
  NoDup (map Spear.id spears) ->
  let first := Animal.useFrame a false spears sta delta in
  let second := Animal.useFrame b false (fst first) stb delta in
  In i (stuckBy (snd first)) -> ~ In i (stuckBy (snd second)).
Proof.
  intros Hnd first second Hfirst Hsecond.
  destruct (useFrame_spears a false spears sta delta) as [Hids Hhit].
  fold first in Hids, Hhit.
  destruct (Hhit i Hfirst) as [(s & Hin & Hid & Hoff) _].
  destruct (useFrame_spears b false (fst first) stb delta) as [_ Hhit2].
  fold second in Hhit2.
  destruct (Hhit2 i Hsecond) as [_ (s' & Hin' & Hid' & Hon)].
  assert (E : s = s').
  { apply (same_key_same_element Spear.id (fst first)); try assumption.
    - rewrite Hids. exact Hnd.
    - congruence. }
  subst s'. congruence.
Qed.

Lemma one_animal_per_frame_witness :
  NoDup (map Spear.id [Examples.lowSpearData])
  /\ In 9%Z (stuckBy (snd (Animal.useFrame Examples.elephant false
                             [Examples.lowSpearData] Examples.freshElephant (1 # 64))))
  /\ ~ In 9%Z
        (stuckBy
           (snd (Animal.useFrame Scenes.otherElephant false
                   (fst (Animal.useFrame Examples.elephant false
                           [Examples.lowSpearData] Examples.freshElephant (1 # 64)))
                   Scenes.otherElephantState (1 # 64)))).
Proof.
  assert (Hnd : NoDup (map Spear.id [Examples.lowSpearData])).
  { repeat constructor. simpl. tauto. }
  assert (H : In 9%Z (stuckBy (snd (Animal.useFrame Examples.elephant false
                             [Examples.lowSpearData] Examples.freshElephant (1 # 64))))).
  { vm_compute. left. reflexivity. }
  split; [exact Hnd | split; [exact H |]].
  exact (@spear_hits_one_animal_per_frame
           Examples.elephant Scenes.otherElephant Examples.freshElephant
           Scenes.otherElephantState (1 # 64) [Examples.lowSpearData] 9%Z Hnd H).
Defined.

(** In the scene of the witness the second elephant would have been hit,
    had the first not taken the spear. *)
Example second_elephant_was_in_reach :
  stuckBy (snd (Animal.useFrame Scenes.otherElephant false [Examples.lowSpearData]
                                Scenes.otherElephantState (1 # 64))) = [9%Z].
Proof. vm_compute. reflexivity. Qed.

(** ** The flight of a spear *)

(** One frame of a spear, by cases: the callback returns at its guard, or
    the spear moves and ends on the backboard, on the ground, or where the
    step took it. *)
Lemma frame_cases (spearId : Z) (isPaused : bool) (st : ThrownSpear.State) (delta : Q) :
  let st' := ThrownSpear.commit st (ThrownSpear.useFrame spearId isPaused st delta) in
  let nv := ThrownSpear.applyGravity (ThrownSpear.velocity st) delta in
  let np := ThrownSpear.advance (ThrownSpear.position st) nv delta in
  ((ThrownSpear.meshRef st = false \/ ThrownSpear.isActive st = false
    \/ isPaused = true)
   /\ ThrownSpear.useFrame spearId isPaused st delta = [] /\ st' = st)
  \/ (ThrownSpear.meshRef st = true /\ ThrownSpear.isActive st = true
      /\ isPaused = false
      /\ ThrownSpear.velocity st' = nv
      /\ ThrownSpear.hasHitAnimal st' = ThrownSpear.hasHitAnimal st
      /\ ((ThrownSpear.hitsBackboard np = true
           /\ ThrownSpear.position st' = setC2 np ThrownSpear.backboardZ
           /\ ThrownSpear.isActive st' = false)
          \/ (ThrownSpear.hitsGround np = true
              /\ ThrownSpear.position st' = setC1 np ThrownSpear.groundY
              /\ ThrownSpear.isActive st' = false)
          \/ (ThrownSpear.hitsGround np = false
              /\ ThrownSpear.position st' = np
              /\ ThrownSpear.isActive st' = true))).
Proof.
  cbv zeta. unfold ThrownSpear.useFrame.
  destruct (ThrownSpear.meshRef st) eqn:Em; simpl; [| left; auto].
  destruct (ThrownSpear.isActive st) eqn:Ea; simpl; [| left; auto].
  destruct isPaused; simpl; [left; auto |].
  right. repeat (split; [reflexivity |]).
  set (nv := ThrownSpear.applyGravity (ThrownSpear.velocity st) delta).
  set (np := ThrownSpear.advance (ThrownSpear.position st) nv delta).
  unfold ThrownSpear.reportMiss.
  destruct (ThrownSpear.hitsBackboard np) eqn:Eb;
    [| destruct (ThrownSpear.hitsGround np) eqn:Eg;
       [| destruct (ThrownSpear.outOfBounds np) eqn:Eo ] ];
    destruct (negb (ThrownSpear.hasTriggeredMiss st) && negb (ThrownSpear.hasHitAnimal st));
    simpl; rewrite ?Ea; auto 10.
Qed.

Lemma hitsBackboard_height (p : Vec3) :
  ThrownSpear.hitsBackboard p = true -> - (5) <= c1 p.
Proof.
  unfold ThrownSpear.hitsBackboard. rewrite !andb_true_iff.
  intros [[[[_ _] _] H] _]. now apply Qleb_le.
Qed.

Lemma live_cons (spearId : Z) (st : ThrownSpear.State) (s : Lifetime.Step)
      (rest : list Lifetime.Step) :
  Lifetime.live spearId st (s :: rest)
  = ((ThrownSpear.misses (Lifetime.effects spearId st s)
      + fst (Lifetime.live spearId
               (ThrownSpear.commit st (Lifetime.effects spearId st s)) rest))%nat,
     snd (Lifetime.live spearId
            (ThrownSpear.commit st (Lifetime.effects spearId st s)) rest)).
Proof.
  simpl. destruct (Lifetime.live spearId _ rest). reflexivity.
Qed.

(** X5.  A spear never sinks below the ground unless it sticks in the
    backboard: after every frame that moves it, and from then on for the
    rest of its life, its height is at least [-3.25], or it sits exactly
    on the backboard plane at a height of at least [-5]. *)
Theorem spear_rests_above_ground_or_in_backboard :
  (forall spearId st delta,
     ThrownSpear.meshRef st = true -> ThrownSpear.isActive st = true ->
     aboveGroundOrInBackboard
       (ThrownSpear.position
          (ThrownSpear.commit st (ThrownSpear.useFrame spearId false st delta))))
  /\ (forall spearId steps st,
        aboveGroundOrInBackboard (ThrownSpear.position st) ->
        aboveGroundOrInBackboard
          (ThrownSpear.position (snd (Lifetime.live spearId st steps)))).
Proof.
  assert (Hmoved : forall spearId isPaused st delta,
            ThrownSpear.meshRef st = true -> ThrownSpear.isActive st = true ->
            isPaused = false ->
            aboveGroundOrInBackboard
              (ThrownSpear.position
                 (ThrownSpear.commit st
                    (ThrownSpear.useFrame spearId isPaused st delta)))).
  { intros spearId isPaused st delta Hm Ha Hp.
    destruct (frame_cases spearId isPaused st delta)
      as [([E | [E | E]] & _) |
          (_ & _ & _ & _ & _ & [(Hb & Hq & _) | [(Hg & Hq & _) | (Hg & Hq & _)]])];
      try congruence; rewrite Hq.
    - right. split; [reflexivity | exact (@hitsBackboard_height _ Hb)].
    - left. exact (Qle_refl _).
    - left. apply Qlt_le_weak. now apply Qleb_false_lt. }
  split.
  - intros spearId st delta Hm Ha. now apply Hmoved.
  - intros spearId. induction steps as [| s steps IH]; intros st H; [exact H |].
    rewrite live_cons. simpl. apply IH.
    destruct s as [isPaused delta |]; simpl; [| exact H].
    destruct (frame_cases spearId isPaused st delta)
      as [(_ & _ & ->) | (Hm & Ha & Hp & _)]; [exact H |].
    now apply Hmoved.
Qed.

Lemma spear_rest_witness :
  ThrownSpear.meshRef Examples.lowSpear = true
  /\ ThrownSpear.isActive Examples.lowSpear = true
  /\ aboveGroundOrInBackboard
       (ThrownSpear.position
          (ThrownSpear.commit Examples.lowSpear
             (ThrownSpear.useFrame 9 false Examples.lowSpear (1 # 64)))).
Proof.
  assert (Hm : ThrownSpear.meshRef Examples.lowSpear = true) by (vm_compute; reflexivity).
  assert (Ha : ThrownSpear.isActive Examples.lowSpear = true) by (vm_compute; reflexivity).
  split; [exact Hm | split; [exact Ha |]].
  exact (proj1 spear_rests_above_ground_or_in_backboard 9%Z Examples.lowSpear (1 # 64) Hm Ha).
Defined.

(** A spear never changes its [x] and [z] velocity. *)
Lemma step_velocity (spearId : Z) (st : ThrownSpear.State) (s : Lifetime.Step) :
  let st' := ThrownSpear.commit st (Lifetime.effects spearId st s) in
  c0 (ThrownSpear.velocity st') = c0 (ThrownSpear.velocity st)
  /\ c2 (ThrownSpear.velocity st') = c2 (ThrownSpear.velocity st)
  /\ (c0 (ThrownSpear.velocity st) == 0 ->
      c0 (ThrownSpear.position st') == c0 (ThrownSpear.position st)).
Proof.
  cbv zeta. destruct s as [isPaused delta |]; simpl;
    [| repeat split; reflexivity].
  destruct (frame_cases spearId isPaused st delta)
    as [(_ & _ & ->) | (_ & _ & _ & Hv & _ & Hpos)];
    [repeat split; reflexivity |].
  rewrite Hv. repeat split.
  intro H0.
  assert (Hx : c0 (ThrownSpear.advance (ThrownSpear.position st)
                     (ThrownSpear.applyGravity (ThrownSpear.velocity st) delta) delta)
               == c0 (ThrownSpear.position st)).
  { simpl. rewrite H0. ring. }
  destruct Hpos as [(_ & -> & _) | [(_ & -> & _) | (_ & -> & _)]]; exact Hx.
Qed.

(** X6.  A spear keeps its lateral and forward velocity for life, gravity
    only acts on the vertical one; and a spear thrown without lateral
    velocity, as every spear of the game is, never leaves the [x] it was
    thrown from. *)
Theorem spear_never_drifts_sideways
  (spearId : Z) (steps : list Lifetime.Step) (st : ThrownSpear.State) :
  c0 (ThrownSpear.velocity st) == 0 ->
  let final := snd (Lifetime.live spearId st steps) in
  c0 (ThrownSpear.velocity final) = c0 (ThrownSpear.velocity st)
  /\ c2 (ThrownSpear.velocity final) = c2 (ThrownSpear.velocity st)
  /\ c0 (ThrownSpear.position final) == c0 (ThrownSpear.position st).
Proof.
  revert st. induction steps as [| s steps IH]; intros st H0; cbv zeta.
  - simpl. repeat split; reflexivity.
  - rewrite live_cons. simpl.
    destruct (step_velocity spearId st s) as (Hx & Hz & Hp).
    destruct (IH (ThrownSpear.commit st (Lifetime.effects spearId st s)))
      as (Hx' & Hz' & Hp').
    { rewrite Hx. exact H0. }
    repeat split; try congruence.
    rewrite Hp'. now apply Hp.
Qed.

Lemma spear_drift_witness :
  c0 (ThrownSpear.velocity (ThrownSpear.initial Examples.lowAim App.throwVelocity)) == 0
  /\ c0 (ThrownSpear.position (Examples.inFlight 9 Examples.lowAim 35))
     == c0 Examples.lowAim.
Proof.
  assert (H : c0 (ThrownSpear.velocity
                    (ThrownSpear.initial Examples.lowAim App.throwVelocity)) == 0)
    by reflexivity.
  split; [exact H |].
  exact (proj2 (proj2 (@spear_never_drifts_sideways 9%Z
                         (repeat (Lifetime.Frame false (1 # 64)) 35)
                         (ThrownSpear.initial Examples.lowAim App.throwVelocity) H))).
Defined.

(** ** Pause *)

Lemma paused_frame_does_nothing (spearId : Z) (st : ThrownSpear.State) (delta : Q) :
  ThrownSpear.useFrame spearId true st delta = [].
Proof.
  unfold ThrownSpear.useFrame. now rewrite orb_true_r.
Qed.

(** X7.  Paused frames leave no trace: the state a spear or an animal ends
    in, and the misses a spear reports, are those of the same life with
    the paused frames taken out, however many there were and whatever
    frame times they carried. *)
Theorem paused_frames_leave_no_trace :
  (forall spearId steps st,
     Lifetime.live spearId st steps
     = Lifetime.live spearId st (filter (fun s => negb (isPausedFrame s)) steps))
  /\ (forall a steps st,
        AnimalLife.live a st steps
        = AnimalLife.live a st
            (filter (fun s => negb (AnimalLife.isPausedStep s)) steps)).
Proof.
  split.
  - intros spearId. induction steps as [| s steps IH]; intro st; [reflexivity |].
    destruct s as [[|] delta |].
    + cbn [filter isPausedFrame negb]. rewrite live_cons.
      cbn [Lifetime.effects]. rewrite paused_frame_does_nothing.
      change (ThrownSpear.commit st []) with st.
      change (ThrownSpear.misses []) with 0%nat. cbn [Nat.add].
      rewrite <- IH. now destruct (Lifetime.live spearId st steps).
    + cbn [filter isPausedFrame negb]. rewrite !live_cons, IH. reflexivity.
    + cbn [filter isPausedFrame negb]. rewrite !live_cons, IH. reflexivity.
  - intros a. induction steps as [| s steps IH]; intro st; [reflexivity |].
    destruct s as [f |].
    + destruct (AnimalLife.isPaused f) eqn:Ep.
      * cbn [filter AnimalLife.isPausedStep]. rewrite Ep. cbn [negb].
        unfold AnimalLife.live in *. cbn [fold_left].
        replace (AnimalLife.step a st (AnimalLife.Tick f)) with st; [apply IH |].
        unfold AnimalLife.step, AnimalLife.effects.
        rewrite Ep, animal_frame_guard by (right; reflexivity). reflexivity.
      * cbn [filter AnimalLife.isPausedStep]. rewrite Ep. cbn [negb].
        unfold AnimalLife.live in *. cbn [fold_left]. apply IH.
    + cbn [filter AnimalLife.isPausedStep negb].
      unfold AnimalLife.live in *. cbn [fold_left]. apply IH.
Qed.

(** ** Stuck spears *)

(** X8.  A spear that has been deactivated, on the backboard or on the
    ground, stays exactly where it is for the rest of its life and never
    reports a miss again, also when animals register hits on it later. *)
Theorem deactivated_spear_stays_put
  (spearId : Z) (steps : list Lifetime.Step) (st : ThrownSpear.State) :
  ThrownSpear.isActive st = false ->
  let final := snd (Lifetime.live spearId st steps) in
  fst (Lifetime.live spearId st steps) = 0%nat
  /\ ThrownSpear.position final = ThrownSpear.position st
  /\ ThrownSpear.velocity final = ThrownSpear.velocity st
  /\ ThrownSpear.isActive final = false.
Proof.
  revert st. induction steps as [| s steps IH]; intros st Ha; cbv zeta.
  - simpl. auto.
  - rewrite live_cons. simpl.
    assert (Hs : ThrownSpear.misses (Lifetime.effects spearId st s) = 0%nat
                 /\ ThrownSpear.position
                      (ThrownSpear.commit st (Lifetime.effects spearId st s))
                    = ThrownSpear.position st
                 /\ ThrownSpear.velocity
                      (ThrownSpear.commit st (Lifetime.effects spearId st s))
                    = ThrownSpear.velocity st
                 /\ ThrownSpear.isActive
                      (ThrownSpear.commit st (Lifetime.effects spearId st s))
                    = false).
    { destruct s as [isPaused delta |]; simpl; [| auto].
      destruct (frame_cases spearId isPaused st delta)
        as [(_ & -> & ->) | (_ & Ha' & _)]; [auto | congruence]. }
    destruct Hs as (Hm & Hp & Hv & Ha').
    destruct (IH _ Ha') as (Hm' & Hp' & Hv' & Ha'').
    rewrite Hm, Hm'. repeat split; congruence.
Qed.

Lemma deactivated_spear_witness :
  ThrownSpear.isActive Scenes.landed = false
  /\ ThrownSpear.position
       (snd (Lifetime.live 9 Scenes.landed (Lifetime.Hit :: Scenes.interrupted)))
     = ThrownSpear.position Scenes.landed.
Proof.
  assert (H : ThrownSpear.isActive Scenes.landed = false) by (vm_compute; reflexivity).
  split; [exact H |].
  exact (proj1 (proj2 (@deactivated_spear_stays_put 9%Z
                         (Lifetime.Hit :: Scenes.interrupted) Scenes.landed H))).
Defined.

(** ** What a hit does to the spear *)

Lemma hitsOn_only_sets_the_flag (spearId : Z) (effs : list Animal.Effect) :
  forall st,
    exists h,
      ThrownSpear.commit st (Scene.hitsOn spearId effs)
      = ThrownSpear.mkState (ThrownSpear.position st) (ThrownSpear.velocity st)
                            (ThrownSpear.isActive st) (ThrownSpear.hasTriggeredMiss st) h.
Proof.
  induction effs as [| e effs IH]; intro st.
  - exists (ThrownSpear.hasHitAnimal st). destruct st; reflexivity.
  - unfold Scene.hitsOn in *. cbn [flat_map]. rewrite commit_app.
    match goal with
    | |- context [ThrownSpear.commit st ?l] =>
        assert (Hl : exists h, ThrownSpear.commit st l
                  = ThrownSpear.mkState (ThrownSpear.position st)
                      (ThrownSpear.velocity st) (ThrownSpear.isActive st)
                      (ThrownSpear.hasTriggeredMiss st) h)
    end.
    { destruct e; try (exists (ThrownSpear.hasHitAnimal st); destruct st; reflexivity).
      destruct (spearId0 =? spearId)%Z.
      - exists b. reflexivity.
      - exists (ThrownSpear.hasHitAnimal st). destruct st; reflexivity. }
    destruct Hl as [h ->]. destruct (IH (ThrownSpear.mkState
      (ThrownSpear.position st) (ThrownSpear.velocity st) (ThrownSpear.isActive st)
      (ThrownSpear.hasTriggeredMiss st) h)) as [h' E].
    exists h'. exact E.
Qed.

(** X9.  Registering a hit does not stop the spear.  The calls of an
    animal's frame change nothing of the spear's component but
    [hasHitAnimal]; the [isActive = false] the animal wrote on the shared
    object is overwritten by the next render with the component's own
    flag; and the spear's next frame moves it exactly as if it had not
    hit. *)
Theorem hit_does_not_stop_the_spear
  (spearId : Z) (effs : list Animal.Effect) (obj : Spear.Data)
  (st : ThrownSpear.State) (isPaused : bool) (delta : Q) :
  let hit := ThrownSpear.commit st (Scene.hitsOn spearId effs) in
  let next := ThrownSpear.commit hit (ThrownSpear.useFrame spearId isPaused hit delta) in
  let unhit := ThrownSpear.commit st (ThrownSpear.useFrame spearId isPaused st delta) in
  ThrownSpear.position hit = ThrownSpear.position st
  /\ ThrownSpear.velocity hit = ThrownSpear.velocity st
  /\ ThrownSpear.isActive hit = ThrownSpear.isActive st
  /\ Spear.isActive (Spear.render (Spear.setIsActive obj false) hit)
     = ThrownSpear.isActive st
  /\ ThrownSpear.position next = ThrownSpear.position unhit
  /\ ThrownSpear.velocity next = ThrownSpear.velocity unhit
  /\ ThrownSpear.isActive next = ThrownSpear.isActive unhit.
Proof.
  cbv zeta. destruct (hitsOn_only_sets_the_flag spearId effs st) as [h ->].
  destruct st as [p v a m h0]. cbn [ThrownSpear.position ThrownSpear.velocity
    ThrownSpear.isActive ThrownSpear.hasTriggeredMiss Spear.render Spear.isActive].
  repeat (split; [reflexivity |]).
  unfold ThrownSpear.useFrame, ThrownSpear.meshRef, ThrownSpear.reportMiss.
  cbn [ThrownSpear.position ThrownSpear.velocity ThrownSpear.isActive
       ThrownSpear.hasTriggeredMiss ThrownSpear.hasHitAnimal].
  destruct (negb (negb (ThrownSpear.outOfBounds p)) || negb a || isPaused);
    [repeat split |].
  repeat match goal with
         | |- context [if ?b then _ else _] => destruct b
         end; repeat split.
Qed.

(** ** Pose input and fire control *)

(** X10.  With fewer than 33 landmarks there is neither a head position
    nor a raised hand, and a run of the pose effect never throws: it leaves
    the registry, the id counter, the time of the last shot and the
    timeouts alone; if the game is ready and running it puts the aim point
    at [(0, -2, 5)] and takes a gripped spear back to [IDLE]. *)
Theorem short_pose_never_fires
  (l : list Landmark) (isReady : bool) (now : Z) (r : App.State) :
  (List.length l < 33)%nat ->
  let st := App.poseEffect (Some l) isReady now r in
  getHeadPosition (Some l) = None
  /\ detectHandRaised (Some l) = false
  /\ App.thrownSpears st = App.thrownSpears r
  /\ App.spearIdCounter st = App.spearIdCounter r
  /\ App.lastFireTime st = App.lastFireTime r
  /\ App.timeouts st = App.timeouts r
  /\ (isReady = true -> App.isPaused r = false ->
      App.headPosition st = Some (mkVec3 0 (- 2) 5)
      /\ App.spearState st
         = (if SPEAR_STATES_eqb (App.spearState r) GRIPPED then IDLE
            else App.spearState r)).
Proof.
  intros Hlen. cbv zeta.
  assert (Hh : getHeadPosition (Some l) = None).
  { unfold getHeadPosition. apply Nat.ltb_lt in Hlen. now rewrite Hlen. }
  assert (Hd : detectHandRaised (Some l) = false).
  { unfold detectHandRaised. apply Nat.ltb_lt in Hlen. now rewrite Hlen. }
  split; [exact Hh | split; [exact Hd |]].
  unfold App.poseEffect. rewrite Hh, Hd.
  destruct isReady; cbn [andb];
    [| repeat (split || intro); try reflexivity; discriminate].
  destruct (App.isPaused r) eqn:Ep; cbn [negb];
    [repeat (split || intro); try reflexivity; discriminate |].
  unfold App.fire.
  destruct (App.headPosition r); cbn [andb];
    destruct (App.spearState r) eqn:Es; repeat (split || intro);
    cbn; rewrite ?Es; reflexivity.
Qed.

Lemma short_pose_witness :
  (List.length Scenes.partialPose < 33)%nat
  /\ App.thrownSpears (App.poseEffect (Some Scenes.partialPose) true 9000 Examples.midGame)
     = App.thrownSpears Examples.midGame
  /\ App.spearState (App.poseEffect (Some Scenes.partialPose) true 9000 Examples.midGame)
     = IDLE.
Proof.
  assert (H : (List.length Scenes.partialPose < 33)%nat) by (vm_compute; lia).
  split; [exact H |].
  destruct (@short_pose_never_fires Scenes.partialPose true 9000%Z Examples.midGame H)
    as (_ & _ & Hs & _ & _ & _ & Hg).
  split; [exact Hs |].
  exact (proj2 (Hg eq_refl eq_refl)).
Defined.

Lemma showsReady_iff (currentTime lastFireTime fireCooldown : Z) :
  Overlay.showsReady currentTime lastFireTime fireCooldown = true
  <-> (fireCooldown <= currentTime - lastFireTime)%Z.
Proof.
  unfold Overlay.showsReady, Overlay.remainingCooldown.
  rewrite negb_true_iff, Z.ltb_ge. lia.
Qed.

(** X11.  The overlay and the fire block agree.  The cooldown line reads
    'Ready' exactly when the cooldown test of the fire block passes.  When
    it reads 'Ready' and the pose has a raised hand, the tracker is ready,
    the game runs and the spear is gripped with an aim point, the run of
    the pose effect throws exactly one spear: it starts at the aim point
    of the render the effect belongs to, not at the one this run computes,
    with velocity [(0, 2.3, -39)].  When the line does not read 'Ready',
    no run throws. *)
Theorem ready_label_agrees_with_fire :
  (forall now last,
     Overlay.showsReady now last App.FIRE_COOLDOWN = true
     <-> (App.FIRE_COOLDOWN <= now - last)%Z)
  /\ (forall l now r aim,
        detectHandRaised (Some l) = true ->
        App.isPaused r = false ->
        App.spearState r = GRIPPED ->
        App.headPosition r = Some aim ->
        Overlay.showsReady now (App.lastFireTime r) App.FIRE_COOLDOWN = true ->
        let st := App.poseEffect (Some l) true now r in
        App.thrownSpears st
        = App.thrownSpears r
          ++ [Spear.mkData (App.spearIdCounter r) aim App.throwVelocity now true false]
        /\ App.spearState st = THROWING
        /\ App.lastFireTime st = now
        /\ (exists hp, getHeadPosition (Some l) = Some hp
                       /\ App.headPosition st
                          = Some (App.aimPoint hp (App.cameraRotation r)))
        /\ c0 App.throwVelocity == 0
        /\ c1 App.throwVelocity == 23 # 10
        /\ c2 App.throwVelocity == - (39))
  /\ (forall poseLandmarks isReady now r,
        Overlay.showsReady now (App.lastFireTime r) App.FIRE_COOLDOWN = false ->
        App.thrownSpears (App.poseEffect poseLandmarks isReady now r)
        = App.thrownSpears r).
Proof.
  split; [intros; apply showsReady_iff | split].
  - intros l now r aim Hd Hp Hg Ha Hr. cbv zeta.
    apply showsReady_iff in Hr. apply Z.leb_le in Hr.
    assert (Hlen : (List.length l <? 33)%nat = false).
    { unfold detectHandRaised in Hd.
      destruct (List.length l <? 33)%nat; [discriminate | reflexivity]. }
    unfold App.poseEffect. rewrite Hp. cbn [andb negb].
    unfold getHeadPosition. rewrite Hlen.
    unfold App.fire. rewrite Ha, Hd, Hg. cbn [andb SPEAR_STATES_eqb].
    rewrite Hr. cbn. repeat split; try reflexivity.
    eexists. split; reflexivity.
  - intros lm ready now r Hr.
    assert (Hc : (now - App.lastFireTime r < App.FIRE_COOLDOWN)%Z).
    { destruct (Z_lt_ge_dec (now - App.lastFireTime r) App.FIRE_COOLDOWN) as [H | H];
        [exact H |].
      assert (Ht : Overlay.showsReady now (App.lastFireTime r) App.FIRE_COOLDOWN = true)
        by (apply showsReady_iff; lia).
      congruence. }
    destruct (poseEffect_inside_cooldown lm ready now r Hc) as (aim & state & -> & _).
    reflexivity.
Qed.

Lemma ready_label_witness :
  detectHandRaised (Some Examples.handUp) = true
  /\ Overlay.showsReady 6000 (App.lastFireTime Examples.midGame) App.FIRE_COOLDOWN = true
  /\ App.spearState (App.poseEffect (Some Examples.handUp) true 6000 Examples.midGame)
     = THROWING.
Proof.
  assert (Hd : detectHandRaised (Some Examples.handUp) = true) by reflexivity.
  assert (Hr : Overlay.showsReady 6000 (App.lastFireTime Examples.midGame)
                                  App.FIRE_COOLDOWN = true) by reflexivity.
  split; [exact Hd | split; [exact Hr |]].
  exact (proj1 (proj2 (proj1 (proj2 ready_label_agrees_with_fire)
                         Examples.handUp 6000%Z Examples.midGame (mkVec3 0 (- 3) 5)
                         Hd eq_refl eq_refl eq_refl Hr))).
Defined.

(** ** The session as a whole *)

Lemma poseEffect_other_cells (poseLandmarks : option (list Landmark)) (isReady : bool)
      (now : Z) (r : App.State) :
  let st := App.poseEffect poseLandmarks isReady now r in
  App.score st = App.score r
  /\ App.hitMessage st = App.hitMessage r
  /\ App.isPaused st = App.isPaused r
  /\ (App.spearState r <> THROWN -> App.spearState st <> THROWN).
Proof.
  cbv zeta. unfold App.poseEffect, App.fire.
  destruct (App.spearState r) eqn:Es;
    repeat match goal with
           | |- context [match ?x with _ => _ end] => destruct x
           end; cbn; rewrite ?Es; repeat split; congruence.
Qed.

(** X12.  The spear of a session is idle, gripped or throwing: the fourth
    state of [SPEAR_STATES], [THROWN], is never entered, whatever the
    player, the animals and the timers do. *)
Theorem thrown_state_is_never_entered (evs : list Session.Event) :
  App.spearState (Session.exec App.initial evs) <> THROWN.
Proof.
  assert (Hstep : forall st e, App.spearState st <> THROWN ->
                               App.spearState (Session.run st e) <> THROWN).
  { intros st e H. destruct e; simpl; try exact H; try discriminate.
    - now apply poseEffect_other_cells.
    - unfold App.handleAnimalReachPlayer. destruct (find _ _); exact H.
    - unfold App.handleAnimalHit. destruct (negb _); exact H.
    - destruct (nth_error (App.timeouts st) k) as [[t ms] |]; [| exact H].
      destruct t; simpl; try exact H; try discriminate.
      + unfold App.spawnFresh. destruct (App.c_isPaused c); exact H.
      + unfold App.handleAnimalHit. destruct (negb _); exact H.
      + destruct (negb (animalId =? 0)%Z); [exact H |].
        unfold App.spawnFresh. destruct (App.c_isPaused c); exact H. }
  unfold Session.exec.
  assert (H0 : App.spearState App.initial <> THROWN) by discriminate.
  revert H0. generalize App.initial.
  induction evs as [| e evs IH]; intros st H; simpl; [exact H |].
  apply IH. now apply Hstep.
Qed.

Lemma thrown_state_witness :
  App.spearState (Session.exec App.initial Examples.spawnArriveRespawn) <> THROWN.
Proof.
  exact (thrown_state_is_never_entered Examples.spawnArriveRespawn).
Defined.

(** X13.  The score is the sum of the points of the hit events.  Along any
    sequence of events without a restart the score grows by exactly the
    points handed to [handleAnimalHit], directly or from the impact
    timeout; arrivals, misses, spawns, throws and pauses never touch it. *)
Theorem score_is_the_sum_of_hit_points (evs : list Session.Event) :
  forall st,
    forallb (fun e => negb (Session.isRestart e)) evs = true ->
    App.score (Session.exec st evs) = (App.score st + scored st evs)%Z.
Proof.
  assert (Hstep : forall st e, Session.isRestart e = false ->
            App.score (Session.run st e) = (App.score st + hitPoints st e)%Z).
  { intros st e He. destruct e; simpl; try discriminate; try lia.
    - destruct (poseEffect_other_cells poseLandmarks isReady now st) as [-> _]. lia.
    - unfold App.handleAnimalReachPlayer. destruct (find _ _); simpl; lia.
    - unfold App.handleAnimalHit. destruct (negb _); reflexivity.
    - destruct (nth_error (App.timeouts st) k) as [[t ms] |]; [| lia].
      destruct t; simpl; try lia.
      + unfold App.spawnFresh. destruct (App.c_isPaused c); simpl; lia.
      + unfold App.handleAnimalHit. destruct (negb _); reflexivity.
      + destruct (negb (animalId =? 0)%Z); simpl; [lia |].
        unfold App.spawnFresh. destruct (App.c_isPaused c); simpl; lia. }
  induction evs as [| e evs IH]; intros st Hn; simpl; [lia |].
  simpl in Hn. apply andb_true_iff in Hn. destruct Hn as [He Hn].
  apply negb_true_iff in He.
  unfold Session.exec in *. rewrite (IH _ Hn), (Hstep st e He). lia.
Qed.

Lemma score_sum_witness :
  forallb (fun e => negb (Session.isRestart e)) Scenes.killAndScore = true
  /\ scored Examples.midGame Scenes.killAndScore = 100%Z
  /\ App.score Examples.midGame = 150%Z
  /\ App.score (Session.exec Examples.midGame Scenes.killAndScore)
     = (App.score Examples.midGame + scored Examples.midGame Scenes.killAndScore)%Z.
Proof.
  split; [reflexivity | split; [reflexivity | split; [reflexivity |]]].
  exact (@score_is_the_sum_of_hit_points Scenes.killAndScore
           Examples.midGame eq_refl).
Defined.

Lemma removeAnimal_gone (i : Z) (l : list AnimalData.t) :
  Forall (fun a => AnimalData.id a <> i) (App.removeAnimal i l).
Proof.
  apply Forall_forall. intros a Ha. unfold App.removeAnimal in Ha.
  apply filter_In in Ha. destruct Ha as [_ Ha].
  apply negb_true_iff, Z.eqb_neq in Ha. exact Ha.
Qed.

Lemma removeAnimal_missing (i : Z) (l : list AnimalData.t) :
  Forall (fun a => AnimalData.id a <> i) l -> App.removeAnimal i l = l.
Proof.
  induction 1 as [| a l Ha _ IH]; simpl; [reflexivity |].
  apply Z.eqb_neq in Ha. rewrite Ha. simpl. now rewrite IH.
Qed.

(** X14.  Removing is idempotent, respawning is not.  A removal handler
    called for an animal that is no longer in the registry (a second
    arrival call, or a second death-animation callback, for the same id)
    leaves the registry as it is and raises no error, but it still leaves
    one more respawn request pending: two calls for one animal remove it
    once and request two replacements. *)
Theorem second_removal_keeps_registry_but_respawns_again :
  (forall c1 c2 d1 d2 i st,
     let once := App.handleAnimalReachPlayer c1 d1 i st in
     let twice := App.handleAnimalReachPlayer c2 d2 i once in
     Forall (fun a => AnimalData.id a <> i) (App.animals once)
     /\ App.animals twice = App.animals once
     /\ List.length (respawnRequests (App.timeouts twice))
        = (List.length (respawnRequests (App.timeouts st)) + 2)%nat)
  /\ (forall c1 c2 i u v now st,
        i <> 0%Z ->
        let once := App.runTimer (App.DeathAnimationComplete c1 i) u v now st in
        let twice := App.runTimer (App.DeathAnimationComplete c2 i) u v now once in
        Forall (fun a => AnimalData.id a <> i) (App.animals once)
        /\ App.animals twice = App.animals once
        /\ List.length (respawnRequests (App.timeouts twice))
           = (List.length (respawnRequests (App.timeouts st)) + 2)%nat).
Proof.
  split.
  - intros c1 c2 d1 d2 i st. cbv zeta.
    assert (H1 : forall c d s,
              App.animals (App.handleAnimalReachPlayer c d i s)
              = App.removeAnimal i (App.animals s)
              /\ List.length (respawnRequests
                                (App.timeouts (App.handleAnimalReachPlayer c d i s)))
                 = S (List.length (respawnRequests (App.timeouts s)))).
    { intros c d s. unfold App.handleAnimalReachPlayer.
      destruct (find _ (App.c_animals c)); simpl;
        rewrite ?respawnRequests_app, ?length_app; simpl;
        rewrite ?respawnRequests_app, ?length_app; simpl; split; auto; lia. }
    destruct (H1 c1 d1 st) as [Ha Hr].
    destruct (H1 c2 d2 (App.handleAnimalReachPlayer c1 d1 i st)) as [Ha' Hr'].
    rewrite Ha', Hr', Hr, Ha.
    split; [apply removeAnimal_gone |].
    split; [apply removeAnimal_missing, removeAnimal_gone | lia].
  - intros c1 c2 i u v now st Hi. cbv zeta. simpl.
    apply Z.eqb_neq in Hi. rewrite Hi. simpl.
    rewrite !respawnRequests_app, !length_app. simpl.
    split; [apply removeAnimal_gone |].
    split; [apply removeAnimal_missing, removeAnimal_gone | lia].
Qed.

Lemma second_removal_witness :
  2%Z <> 0%Z
  /\ App.animals
       (App.runTimer (App.DeathAnimationComplete Examples.running 2) (1 # 2) (1 # 2) 9000
          (App.runTimer (App.DeathAnimationComplete Examples.running 2)
                        (1 # 2) (1 # 2) 9000 Examples.midGame))
     = App.animals
         (App.runTimer (App.DeathAnimationComplete Examples.running 2)
                       (1 # 2) (1 # 2) 9000 Examples.midGame).
Proof.
  assert (H : 2%Z <> 0%Z) by discriminate.
  split; [exact H |].
  exact (proj1 (proj2 (proj2 second_removal_keeps_registry_but_respawns_again
                         Examples.running Examples.running 2%Z (1 # 2) (1 # 2) 9000%Z
                         Examples.midGame H))).
Defined.

Lemma removeSpear_keeps (i : Z) (s : Spear.Data) (l : list Spear.Data) :
  In s l -> Spear.id s <> i -> In s (App.removeSpear i l).
Proof.
  intros Hin Hi. unfold App.removeSpear. apply filter_In. split; [exact Hin |].
  apply negb_true_iff, Z.eqb_neq. exact Hi.
Qed.

Lemma handleAnimalHit_keeps_zero (scorePoints spearId animalId : Z)
      (st : App.State) (s : Spear.Data) :
  In s (App.thrownSpears st) -> Spear.id s = 0%Z ->
  In s (App.thrownSpears (App.handleAnimalHit scorePoints spearId animalId st)).
Proof.
  intros Hin Hs. unfold App.handleAnimalHit.
  destruct (spearId =? 0)%Z eqn:E; simpl; [exact Hin |].
  apply removeSpear_keeps; [exact Hin |].
  apply Z.eqb_neq in E. congruence.
Qed.

(** X15.  The first spear of a session is not removed when it hits.  Its
    id is [0], and [handleAnimalHit] removes a spear only [if (spearId)]:
    whatever happens in the session, the spear with id [0] stays in the
    registry until a restart or until its own miss timeout fires, while a
    hit event for any other id takes every spear with that id out. *)
Theorem first_spear_outlives_its_hits :
  (forall st e s,
     In s (App.thrownSpears st) -> Spear.id s = 0%Z ->
     retiresSpearZero st e = false ->
     In s (App.thrownSpears (Session.run st e)))
  /\ (forall scorePoints spearId animalId st s,
        spearId <> 0%Z -> Spear.id s = spearId ->
        ~ In s (App.thrownSpears
                  (App.handleAnimalHit scorePoints spearId animalId st))).
Proof.
  split.
  - intros st e s Hin Hs Hr. destruct e; simpl; try exact Hin; try discriminate.
    + destruct (poseEffect_cases poseLandmarks isReady now st)
        as [(-> & _) | (aim & _ & _ & _ & _ & _ & _ & -> & _)];
        [exact Hin | apply in_or_app; now left].
    + unfold App.handleAnimalReachPlayer. destruct (find _ _); exact Hin.
    + now apply handleAnimalHit_keeps_zero.
    + simpl in Hr.
      destruct (nth_error (App.timeouts st) k) as [[t ms] |]; [| exact Hin].
      destruct t; simpl; try exact Hin.
      * unfold App.spawnFresh. destruct (App.c_isPaused c); exact Hin.
      * apply removeSpear_keeps; [exact Hin |].
        apply Z.eqb_neq in Hr. congruence.
      * now apply handleAnimalHit_keeps_zero.
      * destruct (negb (animalId =? 0)%Z); [exact Hin |].
        unfold App.spawnFresh. destruct (App.c_isPaused c); exact Hin.
  - intros scorePoints spearId animalId st s Hn Hs Hin.
    unfold App.handleAnimalHit in Hin. apply Z.eqb_neq in Hn. rewrite Hn in Hin.
    simpl in Hin. unfold App.removeSpear in Hin. apply filter_In in Hin.
    destruct Hin as [_ Hin]. apply negb_true_iff, Z.eqb_neq in Hin. congruence.
Qed.

Lemma first_spear_witness :
  In Scenes.firstSpear (App.thrownSpears Scenes.firstThrow)
  /\ In Scenes.firstSpear
        (App.thrownSpears
           (Session.run Scenes.firstThrow (Session.AnimalHit 100 0 1))).
Proof.
  assert (H : In Scenes.firstSpear (App.thrownSpears Scenes.firstThrow))
    by (left; reflexivity).
  split; [exact H |].
  exact (proj1 first_spear_outlives_its_hits Scenes.firstThrow
               (Session.AnimalHit 100 0 1) Scenes.firstSpear H eq_refl eq_refl).
Defined.

Lemma nth_error_middle {A : Type} (l r : list A) (x : A) :
  nth_error (l ++ x :: r) (List.length l) = Some x.
Proof.
  induction l as [| y l IH]; simpl; [reflexivity | exact IH].
Qed.

Lemma dropNth_middle {A : Type} (l r : list A) (x : A) :
  Session.dropNth (List.length l) (l ++ x :: r) = l ++ r.
Proof.
  induction l as [| y l IH]; simpl; [reflexivity | now rewrite IH].
Qed.

(** X16.  A hit message is cleared by the oldest pending clear.  Every
    [handleHitMessage] arms its own 1.5 s timeout and none is ever
    cancelled, so when a second message replaces a first, the timeout of
    the first one blanks the second message, whose own timeout is still
    pending. *)
Theorem earlier_timeout_clears_later_message (m1 m2 : string) (u v : Q) (now : Z)
        (st : App.State) :
  let shown := App.handleHitMessage m2 (App.handleHitMessage m1 st) in
  let after := Session.run shown (Session.Fire (List.length (App.timeouts st)) u v now) in
  App.hitMessage shown = m2
  /\ App.hitMessage after = ""%string
  /\ App.timeouts after = App.timeouts st ++ [(App.ClearHitMessage, 1500%Z)].
Proof.
  cbv zeta. split; [reflexivity |].
  unfold Session.run.
  assert (Ht : App.timeouts (App.handleHitMessage m2 (App.handleHitMessage m1 st))
               = App.timeouts st
                 ++ (App.ClearHitMessage, 1500%Z) :: [(App.ClearHitMessage, 1500%Z)]).
  { simpl. now rewrite <- app_assoc. }
  rewrite Ht, nth_error_middle, dropNth_middle. simpl. split; reflexivity.
Qed.

(** ** The aim point *)

(** X17.  A throw starts in view.  For a head landmark inside the image
    ([0 <= x, y <= 1]) that is not absurdly far away ([z <= 40/3]) the aim
    point lies within the bounds the [ThrownSpear] render guard tests,
    under each of the four camera rotations (taken at the exact sines and
    cosines), so a spear thrown from it is mounted and its first frame
    integrates it. *)
Theorem throw_from_aim_point_is_mounted (hp : Vec3) (rot : Rotation) :
  0 <= c0 hp -> c0 hp <= 1 -> 0 <= c1 hp -> c1 hp <= 1 -> c2 hp <= 40 # 3 ->
  ThrownSpear.meshRef (ThrownSpear.initial (App.aimPoint hp rot) App.throwVelocity)
  = true.
Proof.
  intros Hx0 Hx1 Hy0 Hy1 Hz.
  unfold ThrownSpear.meshRef, ThrownSpear.initial, ThrownSpear.outOfBounds. simpl.
  apply negb_true_iff.
  assert (Hb : forall p,
             -15 <= c0 p -> c0 p <= 15 -> -35 <= c2 p ->
             Qltb (c2 p) (-35) || Qltb (c0 p) (-15) || Qltb 15 (c0 p) = false).
  { intros p H1 H2 H3.
    assert (E1 : Qltb (c2 p) (-35) = false).
    { destruct (Qltb (c2 p) (-35)) eqn:E; [| reflexivity].
      apply Qltb_lt in E. lra. }
    assert (E2 : Qltb (c0 p) (-15) = false).
    { destruct (Qltb (c0 p) (-15)) eqn:E; [| reflexivity].
      apply Qltb_lt in E. lra. }
    assert (E3 : Qltb 15 (c0 p) = false).
    { destruct (Qltb 15 (c0 p)) eqn:E; [| reflexivity].
      apply Qltb_lt in E. lra. }
    now rewrite E1, E2, E3. }
  apply Hb; unfold App.aimPoint, App.rotateCoordinates; destruct rot; simpl; lra.
Qed.

Lemma throw_from_aim_point_witness :
  ThrownSpear.meshRef
    (ThrownSpear.initial (App.aimPoint Scenes.nose R90) App.throwVelocity) = true.
Proof.
  apply (@throw_from_aim_point_is_mounted Scenes.nose R90);
    unfold Scenes.nose; simpl; lra.
Defined.

(** ** The first spawn and the pause button *)

(** X18.  The spawn effect runs at every resume, not only at the start.
    While the game runs, pausing cancels the armed spawn: nothing is
    spawned when its second has passed.  Resuming arms a new one, whose
    [spawnNewAnimal] was created by an unpaused render and so is never
    blocked by the pause guard: one second after every resume exactly one
    animal is appended with the counter's id, whatever is in the registry
    already. *)
Theorem every_resume_spawns_one_animal (a : App.State) (t : option App.Closure)
        (u v : Q) (now : Z) :
  (App.isPaused a = false ->
   let paused := InitialSpawn.togglePause (InitialSpawn.mk a t) in
   InitialSpawn.timer paused = None
   /\ InitialSpawn.elapse u v now paused = paused)
  /\ (App.isPaused a = true ->
      let resumed := InitialSpawn.togglePause (InitialSpawn.mk a t) in
      let later := InitialSpawn.elapse u v now resumed in
      App.isPaused (InitialSpawn.app resumed) = false
      /\ App.animals (InitialSpawn.app later)
         = App.animals a ++ [App.newAnimalOf a u v now]
      /\ App.animalIdCounter (InitialSpawn.app later) = (App.animalIdCounter a + 1)%Z
      /\ InitialSpawn.timer later = None).
Proof.
  split; intros Hp; cbv zeta;
    unfold InitialSpawn.togglePause, InitialSpawn.effect, InitialSpawn.elapse;
    simpl; rewrite Hp; simpl.
  - split; reflexivity.
  - unfold App.spawnFresh. simpl. rewrite Hp. simpl. repeat split; reflexivity.
Qed.

Lemma every_resume_witness :
  App.isPaused Examples.pausedGame = true
  /\ App.animals
       (InitialSpawn.app
          (InitialSpawn.elapse (1 # 2) (1 # 2) 7000
             (InitialSpawn.togglePause (InitialSpawn.mk Examples.pausedGame None))))
     = App.animals Examples.pausedGame
       ++ [App.newAnimalOf Examples.pausedGame (1 # 2) (1 # 2) 7000].
Proof.
  assert (H : App.isPaused Examples.pausedGame = true) by reflexivity.
  split; [exact H |].
  exact (proj1 (proj2 (proj2 (every_resume_spawns_one_animal
                                Examples.pausedGame None (1 # 2) (1 # 2) 7000) H))).
Defined.

(** ** The spear in the hand *)

(** X19.  The spear in the hand stays where it was last put.  After a
    gripped frame with an aim point [p], the mesh and the remembered
    position are both [p] for as long as only frames without new input
    follow (gripped without an aim point, or throwing) and effect runs
    outside [IDLE]: a throw does not move the spear in the hand, and
    neither does an aim point that arrives while throwing. *)
Theorem spear_in_hand_holds_its_place (p : Vec3) (st : SpearCursor.State)
        (steps : list SpearCursor.Step) :
  forallb SpearCursor.holds steps = true ->
  let final := SpearCursor.live (SpearCursor.useFrame (Some p) GRIPPED st) steps in
  SpearCursor.mesh final = p /\ SpearCursor.lastValidPosition final = p.
Proof.
  intros Hh. cbv zeta. simpl SpearCursor.useFrame.
  assert (G : forall s, SpearCursor.mesh s = p -> SpearCursor.lastValidPosition s = p ->
                        SpearCursor.mesh (SpearCursor.live s steps) = p
                        /\ SpearCursor.lastValidPosition (SpearCursor.live s steps) = p).
  { induction steps as [| x steps IH]; intros s Hm Hl; [split; assumption |].
    simpl in Hh. apply andb_true_iff in Hh. destruct Hh as [Hx Hh].
    unfold SpearCursor.live. simpl. apply (IH Hh).
    - destruct x as [[q |] [] | []]; simpl in *; try discriminate; assumption.
    - destruct x as [[q |] [] | []]; simpl in *; try discriminate; assumption. }
  apply G; reflexivity.
Qed.

Lemma spear_in_hand_witness :
  SpearCursor.mesh
    (SpearCursor.live
       (SpearCursor.useFrame (Some (mkVec3 (- 5) (- 2) 5)) GRIPPED SpearCursor.initial)
       Scenes.aimAndThrow)
  = mkVec3 (- 5) (- 2) 5.
Proof.
  exact (proj1 (@spear_in_hand_holds_its_place (mkVec3 (- 5) (- 2) 5)
                  SpearCursor.initial Scenes.aimAndThrow eq_refl)).
Defined.

(** ** The hand-tracking build *)

Lemma hand_run_keeps_sound (st : HandGame.State) (e : HandGame.Event) :
  HandGame.sound st -> HandGame.expected e = true ->
  exists st', HandGame.run st e = Some st' /\ HandGame.sound st'.
Proof.
  intros (Hh & Ho & Hp & Hd & Hg) He.
  destruct e; simpl.
  - (* the hand effect *)
    unfold HandGame.handEffect.
    destruct handLandmarks as [l |];
      [| eexists; split; [reflexivity | repeat split; tauto || lia]].
    destruct (isReady && negb (HandGame.isPaused st) && negb (HandGame.isGameOver st));
      [| eexists; split; [reflexivity | repeat split; tauto || lia]].
    cbn [HandGame.expected] in He. apply Nat.leb_le in He.
    destruct (nth_error l 9) as [handCenter |] eqn:En;
      [| apply nth_error_None in En; lia].
    set (isFist := HandGame.detectFist (Some l)).
    set (isOpenPalm := HandGame.detectOpenPalm (Some l)).
    clearbody isFist isOpenPalm.
    destruct (HandGame.spearState st) eqn:Es, isFist, isOpenPalm;
      cbn [andb SPEAR_STATES_eqb];
      try (destruct (HandGame.handPosition st) as [hand |] eqn:Eh;
           [| exfalso; now apply Hg]);
      (eexists; split; [reflexivity |]); unfold HandGame.sound; simpl;
      rewrite ?Es; repeat split; try tauto; try lia; try discriminate.
  - (* the power meter *)
    eexists; split; [reflexivity |]. unfold HandGame.powerTick.
    destruct (HandGame.isPaused st || HandGame.isGameOver st);
      [repeat split; tauto || lia |].
    destruct (100 <=? _)%Z eqn:E1; [| destruct (_ <=? 0)%Z eqn:E2];
      unfold HandGame.sound; simpl; repeat split; try tauto; try lia.
    all: apply Z.leb_gt in E1; try apply Z.leb_gt in E2; lia.
  - (* the spawner *)
    eexists; split; [reflexivity |]. unfold HandGame.spawnTick.
    destruct (_ || _); unfold HandGame.sound; simpl; repeat split; tauto || lia.
  - eexists; split; [reflexivity |]. unfold HandGame.handleTogglePause.
    destruct (negb _); unfold HandGame.sound; simpl; repeat split; tauto || lia.
  - eexists; split; [reflexivity |]. unfold HandGame.sound; simpl.
    repeat split; try lia; try discriminate.
  - eexists; split; [reflexivity |]. unfold HandGame.sound; simpl.
    repeat split; tauto || lia.
  - (* an animal arrives *)
    simpl in He. apply Z.leb_le in He.
    eexists; split; [reflexivity |]. unfold HandGame.handleAnimalReachPlayer.
    destruct (Z.max 0 (HandGame.playerHealth st - damage) <=? 0)%Z eqn:E;
      unfold HandGame.sound; simpl.
    + apply Z.leb_le in E. repeat split; try tauto; try lia.
    + apply Z.leb_gt in E.
      assert (HandGame.isGameOver st <> true).
      { intro Hover. apply Ho in Hover. lia. }
      repeat split; try tauto; try lia.
  - eexists; split; [reflexivity |]. unfold HandGame.handleAnimalHit.
    destruct (negb _); unfold HandGame.sound; simpl; repeat split; tauto || lia.
  - eexists; split; [reflexivity |]. unfold HandGame.sound; simpl.
    repeat split; tauto || lia.
  - eexists; split; [reflexivity |]. unfold HandGame.sound; simpl.
    repeat split; tauto || lia.
  - eexists; split; [reflexivity |]. unfold HandGame.sound; simpl.
    repeat split; tauto || lia.
  - destruct (nth_error (HandGame.timeouts st) k) as [[t ms] |];
      [| eexists; split; [reflexivity | repeat split; tauto || lia]].
    eexists; split; [reflexivity |].
    destruct t; simpl; try (unfold HandGame.handleAnimalHit; destruct (negb _));
      unfold HandGame.sound; simpl; repeat split; try tauto; try lia; discriminate.
  - eexists; split; [reflexivity |]. unfold HandGame.sound; simpl.
    repeat split; tauto || lia.
Qed.

Lemma hand_initial_sound : HandGame.sound HandGame.initial.
Proof.
  unfold HandGame.sound. simpl. repeat split; try lia; try discriminate.
Qed.

Lemma hand_exec_sound (evs : list HandGame.Event) :
  forall st, HandGame.sound st -> forallb HandGame.expected evs = true ->
             exists st', HandGame.exec st evs = Some st' /\ HandGame.sound st'.
Proof.
  induction evs as [| e evs IH]; intros st Hs He; simpl.
  - exists st. split; [reflexivity | exact Hs].
  - simpl in He. apply andb_true_iff in He. destruct He as [He Hes].
    destruct (@hand_run_keeps_sound st e Hs He) as (st1 & -> & Hs1).
    now apply IH.
Qed.

(** X20.  The hand effect never raises.  It reads [handLandmarks[9].x]
    and spreads [handPosition] without a test; in a session that starts
    from the initial state, with hands of at least ten landmarks, neither
    fails, because the spear is gripped only after a grip point has been
    stored: every event returns, and in the state reached [GRIPPED]
    implies that [handPosition] is not [null]. *)
Theorem hand_session_never_raises (evs : list HandGame.Event) :
  forallb HandGame.expected evs = true ->
  exists st,
    HandGame.exec HandGame.initial evs = Some st
    /\ (HandGame.spearState st = GRIPPED -> HandGame.handPosition st <> None).
Proof.
  intros He.
  destruct (@hand_exec_sound evs HandGame.initial hand_initial_sound He)
    as (st & Hx & Hs).
  exists st. split; [exact Hx | apply Hs].
Qed.

Lemma hand_session_witness :
  exists st, HandGame.exec HandGame.initial Scenes.handSession = Some st
             /\ (HandGame.spearState st = GRIPPED -> HandGame.handPosition st <> None).
Proof.
  exact (@hand_session_never_raises Scenes.handSession eq_refl).
Defined.

(** X21.  Health and game over go together.  Along any session of the
    hand game in which arrivals carry a damage that is not negative, the
    player's health stays between 0 and 100, and the game is over exactly
    when the health is 0; the power level stays between 0 and 100. *)
Theorem game_is_over_exactly_at_zero_health (evs : list HandGame.Event) :
  forallb HandGame.expected evs = true ->
  exists st,
    HandGame.exec HandGame.initial evs = Some st
    /\ (0 <= HandGame.playerHealth st <= 100)%Z
    /\ (HandGame.isGameOver st = true <-> HandGame.playerHealth st = 0%Z)
    /\ (0 <= HandGame.powerLevel st <= 100)%Z.
Proof.
  intros He.
  destruct (@hand_exec_sound evs HandGame.initial hand_initial_sound He)
    as (st & Hx & Hh & Ho & Hp & _).
  exists st. repeat split; try exact Hx; try apply Hh; try apply Ho; apply Hp.
Qed.

Lemma game_over_witness :
  exists st,
    HandGame.exec HandGame.initial Scenes.handSession = Some st
    /\ (0 <= HandGame.playerHealth st <= 100)%Z
    /\ (HandGame.isGameOver st = true <-> HandGame.playerHealth st = 0%Z)
    /\ (0 <= HandGame.powerLevel st <= 100)%Z.
Proof.
  exact (@game_is_over_exactly_at_zero_health Scenes.handSession eq_refl).
Defined.

(** X22.  Game over stops the game, pause stops all but the pause button.
    Once [isGameOver] is set, the hand effect, the power meter, the
    spawner and the pause button all leave the state as it is (only a
    restart, the components' callbacks and the pending timeouts still
    act); while paused the same holds except for the pause button. *)
Theorem game_over_and_pause_stop_the_game (st : HandGame.State) (e : HandGame.Event) :
  HandGame.stoppedByGameOver e = true ->
  (HandGame.isGameOver st = true -> HandGame.run st e = Some st)
  /\ (HandGame.isPaused st = true -> e <> HandGame.TogglePause ->
      HandGame.run st e = Some st).
Proof.
  intros He. split.
  - intros Ho. destruct e; try discriminate; simpl.
    + unfold HandGame.handEffect. rewrite Ho.
      destruct handLandmarks; [| reflexivity].
      now rewrite andb_false_r.
    + unfold HandGame.powerTick. rewrite Ho. now rewrite orb_true_r.
    + unfold HandGame.spawnTick. rewrite Ho. now rewrite orb_true_r.
    + unfold HandGame.handleTogglePause. now rewrite Ho.
  - intros Hp Hn. destruct e; try discriminate; try congruence; simpl.
    + unfold HandGame.handEffect. rewrite Hp.
      destruct handLandmarks; [| reflexivity].
      simpl. now rewrite andb_false_r.
    + unfold HandGame.powerTick. now rewrite Hp.
    + unfold HandGame.spawnTick. rewrite Hp. now rewrite orb_true_r.
Qed.

Lemma game_over_stops_witness :
  HandGame.run Scenes.lost (HandGame.HandEffect (Some Scenes.halfClosedHand) true 5000)
  = Some Scenes.lost.
Proof.
  exact (proj1 (@game_over_and_pause_stop_the_game Scenes.lost
                  (HandGame.HandEffect (Some Scenes.halfClosedHand) true 5000) eq_refl)
               eq_refl).
Defined.

(** *** The power meter *)

Lemma powerTick_running (st : HandGame.State) :
  HandGame.isPaused st = false -> HandGame.isGameOver st = false ->
  let st' := HandGame.powerTick st in
  HandGame.isPaused st' = false /\ HandGame.isGameOver st' = false
  /\ HandGame.powerLevel st'
     = (let newLevel := HandGame.powerLevel st + HandGame.powerDirection st * 4 in
        if 100 <=? newLevel then 100 else if newLevel <=? 0 then 0 else newLevel)%Z
  /\ HandGame.powerDirection st'
     = (let newLevel := HandGame.powerLevel st + HandGame.powerDirection st * 4 in
        if 100 <=? newLevel then - 1
        else if newLevel <=? 0 then 1 else HandGame.powerDirection st)%Z.
Proof.
  intros Hp Ho. cbv zeta. unfold HandGame.powerTick. rewrite Hp, Ho. simpl.
  destruct (100 <=? _)%Z; [| destruct (_ <=? 0)%Z]; simpl; auto.
Qed.

(** X23.  The power meter is a triangle wave.  Started at 0 going up, and
    for as long as the game runs, the level after [n] ticks of 30 ms is
    [4k] for the first 25 ticks of every 50 and [4(50 - k)] for the rest,
    [k] being [n mod 50]: it climbs to 100 in 0.75 s, falls back to 0 in
    0.75 s, and never leaves that range. *)
Theorem power_meter_is_a_triangle_wave (st : HandGame.State) (n : nat) :
  HandGame.isPaused st = false -> HandGame.isGameOver st = false ->
  HandGame.powerLevel st = 0%Z -> HandGame.powerDirection st = 1%Z ->
  let k := (Z.of_nat n mod 50)%Z in
  HandGame.powerLevel (Nat.iter n HandGame.powerTick st)
  = (if k <=? 25 then 4 * k else 4 * (50 - k))%Z.
Proof.
  intros Hp Ho Hl Hd. cbv zeta.
  assert (G : let s := Nat.iter n HandGame.powerTick st in
              let k := (Z.of_nat n mod 50)%Z in
              HandGame.isPaused s = false /\ HandGame.isGameOver s = false
              /\ ((k < 25)%Z -> HandGame.powerLevel s = (4 * k)%Z
                                /\ HandGame.powerDirection s = 1%Z)
              /\ ((25 <= k)%Z -> HandGame.powerLevel s = (4 * (50 - k))%Z
                                 /\ HandGame.powerDirection s = (- 1)%Z)).
  { induction n as [| n IH]; cbv zeta.
    - change (Z.of_nat 0 mod 50)%Z with 0%Z. simpl Nat.iter.
      split; [exact Hp |]. split; [exact Ho |].
      split; intros; [split; [rewrite Hl; reflexivity | exact Hd] | lia].
    - cbv zeta in IH. destruct IH as (Hp' & Ho' & Hup & Hdown).
      change (Nat.iter (S n) HandGame.powerTick st)
        with (HandGame.powerTick (Nat.iter n HandGame.powerTick st)).
      destruct (@powerTick_running _ Hp' Ho') as (Hp2 & Ho2 & -> & ->).
      cbv zeta. rewrite Nat2Z.inj_succ.
      assert (Hk : (0 <= Z.of_nat n mod 50 < 50)%Z) by (apply Z.mod_pos_bound; lia).
      assert (Hs : (Z.succ (Z.of_nat n) mod 50
                    = if Z.of_nat n mod 50 =? 49 then 0 else Z.of_nat n mod 50 + 1)%Z).
      { destruct (Z.of_nat n mod 50 =? 49)%Z eqn:E.
        - apply Z.eqb_eq in E.
          rewrite (Z.div_mod (Z.of_nat n) 50), E by lia.
          replace (Z.succ (50 * (Z.of_nat n / 50) + 49))%Z
            with (0 + (Z.of_nat n / 50 + 1) * 50)%Z by lia.
          now rewrite Z.mod_add by lia.
        - apply Z.eqb_neq in E.
          rewrite (Z.div_mod (Z.of_nat n) 50) at 1 by lia.
          replace (Z.succ (50 * (Z.of_nat n / 50) + Z.of_nat n mod 50))%Z
            with ((Z.of_nat n mod 50 + 1) + (Z.of_nat n / 50) * 50)%Z by lia.
          rewrite Z.mod_add by lia. apply Z.mod_small. lia. }
      rewrite Hs. clear Hs.
      set (k := (Z.of_nat n mod 50)%Z) in *.
      split; [exact Hp2 |]. split; [exact Ho2 |].
      destruct (Z_lt_le_dec k 25) as [Hlt | Hge].
      + destruct (Hup Hlt) as [-> ->].
        destruct (k =? 49)%Z eqn:E; [apply Z.eqb_eq in E; lia |].
        destruct (100 <=? 4 * k + 1 * 4)%Z eqn:E1;
          [apply Z.leb_le in E1 | apply Z.leb_gt in E1].
        * split; intros; split; lia.
        * destruct (4 * k + 1 * 4 <=? 0)%Z eqn:E2;
            [apply Z.leb_le in E2; lia | split; intros; split; lia].
      + destruct (Hdown Hge) as [-> ->].
        destruct (100 <=? 4 * (50 - k) + -1 * 4)%Z eqn:E1;
          [apply Z.leb_le in E1; lia | apply Z.leb_gt in E1].
        destruct (k =? 49)%Z eqn:E; [apply Z.eqb_eq in E | apply Z.eqb_neq in E].
        * destruct (4 * (50 - k) + -1 * 4 <=? 0)%Z eqn:E2;
            [| apply Z.leb_gt in E2; lia].
          split; intros; split; lia.
        * destruct (4 * (50 - k) + -1 * 4 <=? 0)%Z eqn:E2;
            [apply Z.leb_le in E2; lia |].
          split; intros; split; lia. }
  cbv zeta in G. destruct G as (_ & _ & Hup & Hdown).
  destruct (Z.of_nat n mod 50 <=? 25)%Z eqn:E;
    [apply Z.leb_le in E | apply Z.leb_gt in E].
  - destruct (Z_lt_le_dec (Z.of_nat n mod 50) 25) as [Hlt | Hge].
    + apply (Hup Hlt).
    + destruct (Hdown Hge) as [-> _]. lia.
  - assert (Hge : (25 <= Z.of_nat n mod 50)%Z) by lia. apply (Hdown Hge).
Qed.

Lemma power_meter_witness :
  HandGame.powerLevel (Nat.iter 30 HandGame.powerTick HandGame.initial) = 80%Z.
Proof.
  exact (@power_meter_is_a_triangle_wave HandGame.initial 30
           eq_refl eq_refl eq_refl eq_refl).
Defined.

Lemma powerRatio_range (powerLevel : Z) :
  (0 <= powerLevel <= 100)%Z ->
  0 <= inject_Z powerLevel / 100 /\ inject_Z powerLevel / 100 <= 1.
Proof.
  intros [H0 H1].
  assert (Q0 : inject_Z 0 <= inject_Z powerLevel) by (now rewrite <- Zle_Qle).
  assert (Q1 : inject_Z powerLevel <= inject_Z 100) by (now rewrite <- Zle_Qle).
  change (inject_Z 0) with 0 in Q0. change (inject_Z 100) with 100 in Q1.
  split.
  - apply Qle_shift_div_l; [reflexivity | lra].
  - apply Qle_shift_div_r; [reflexivity | lra].
Qed.

(** X24.  The throw of the hand game is bounded by the meter.  For a power
    level between 0 and 100 (which the meter guarantees) the spear leaves
    straight ahead ([x] velocity 0), with an upward velocity between 1 and
    3 and a forward velocity between 2 and 90 units per second; and more
    power never gives a slower or flatter throw. *)
Theorem hand_throw_velocity_is_bounded (powerLevel stronger : Z) :
  (0 <= powerLevel)%Z -> (powerLevel <= stronger)%Z -> (stronger <= 100)%Z ->
  let v := HandGame.throwVelocity powerLevel in
  let w := HandGame.throwVelocity stronger in
  c0 v == 0
  /\ 1 <= c1 v /\ c1 v <= 3
  /\ - (90) <= c2 v /\ c2 v <= - (2)
  /\ c1 v <= c1 w /\ c2 w <= c2 v.
Proof.
  intros H0 H1 H2. cbv zeta. unfold HandGame.throwVelocity. simpl.
  assert (Hp : (0 <= powerLevel <= 100)%Z) by lia.
  assert (Hs : (0 <= stronger <= 100)%Z) by lia.
  destruct (@powerRatio_range powerLevel Hp) as [P0 P1].
  destruct (@powerRatio_range stronger Hs) as [S0 S1].
  assert (PS : inject_Z powerLevel / 100 <= inject_Z stronger / 100).
  { unfold Qdiv. apply Qmult_le_compat_r; [| discriminate].
    now rewrite <- Zle_Qle. }
  set (p := inject_Z powerLevel / 100) in *.
  set (s := inject_Z stronger / 100) in *.
  repeat split; try lra; nra.
Qed.

Lemma hand_throw_velocity_witness :
  - (90) <= c2 (HandGame.throwVelocity 40) /\ c2 (HandGame.throwVelocity 40) <= - (2).
Proof.
  assert (H0 : (0 <= 40)%Z) by lia.
  assert (H1 : (40 <= 100)%Z) by lia.
  destruct (@hand_throw_velocity_is_bounded 40 100 H0 H1 (Z.le_refl 100))
    as (_ & _ & _ & Hlo & Hhi & _).
  split; [exact Hlo | exact Hhi].
Defined.

(** *** Gestures *)

Lemma curled_not_extended (l : list Landmark) (tip pip mcp : nat) :
  HandGame.curled l tip pip = true -> HandGame.isExtended l tip pip mcp = false.
Proof.
  unfold HandGame.curled, HandGame.isExtended. intros H. apply Qltb_lt in H.
  destruct (Qltb (c1 (landmark l tip)) (c1 (landmark l pip) - (1 # 100))) eqn:E;
    [| reflexivity].
  apply Qltb_lt in E. lra.
Qed.

(** X25.  A fist can pass for an open palm only by the backup criterion.
    When [detectFist] accepts a hand, at least three of its four fingers
    have the tip below the middle joint, so at most one finger counts as
    extended: the strict criterion A and the very-open criterion C of
    [detectOpenPalm] both fail, and [detectOpenPalm] answers what
    criterion B (tips above the knuckles, thumb out) answers. *)
Theorem fist_is_open_palm_only_by_backup (l : list Landmark) :
  HandGame.detectFist (Some l) = true ->
  (snd (HandGame.fingerCounts l) <= 1)%nat
  /\ fst (fst (HandGame.criteria l)) = false
  /\ snd (HandGame.criteria l) = false
  /\ HandGame.detectOpenPalm (Some l) = snd (fst (HandGame.criteria l)).
Proof.
  unfold HandGame.detectFist, HandGame.detectOpenPalm.
  destruct (List.length l <? 21)%nat; [discriminate |].
  intros H. apply andb_true_iff in H. destruct H as [H _].
  apply Nat.leb_le in H.
  assert (Hc : (snd (HandGame.fingerCounts l) <= 1)%nat).
  { revert H. unfold HandGame.curledFingers, HandGame.fingerCounts.
    cbn [fold_left nth].
    destruct (HandGame.curled l 8 6) eqn:E1, (HandGame.curled l 12 10) eqn:E2,
             (HandGame.curled l 16 14) eqn:E3, (HandGame.curled l 20 18) eqn:E4;
      intros H; try lia;
      rewrite ?(@curled_not_extended l 8 6 5 E1), ?(@curled_not_extended l 12 10 9 E2),
              ?(@curled_not_extended l 16 14 13 E3),
              ?(@curled_not_extended l 20 18 17 E4);
      destruct (HandGame.isExtended l 8 6 5), (HandGame.isExtended l 12 10 9),
               (HandGame.isExtended l 16 14 13), (HandGame.isExtended l 20 18 17),
               (HandGame.isOpen l 8 5), (HandGame.isOpen l 12 9),
               (HandGame.isOpen l 16 13), (HandGame.isOpen l 20 17);
      cbn [snd]; lia. }
  split; [exact Hc |].
  unfold HandGame.criteria.
  destruct (HandGame.fingerCounts l) as [openFingers extendedFingers].
  cbn [snd fst] in *.
  assert (E3 : (3 <=? extendedFingers)%nat = false) by (apply Nat.leb_gt; lia).
  assert (E4 : (4 <=? extendedFingers)%nat = false) by (apply Nat.leb_gt; lia).
  rewrite E3, E4. cbn [andb orb fst snd].
  repeat split. now rewrite orb_false_r.
Qed.

Lemma fist_open_palm_witness :
  HandGame.detectFist (Some Scenes.halfClosedHand) = true
  /\ HandGame.detectOpenPalm (Some Scenes.halfClosedHand) = true
  /\ fst (fst (HandGame.criteria Scenes.halfClosedHand)) = false.
Proof.
  assert (H : HandGame.detectFist (Some Scenes.halfClosedHand) = true)
    by (vm_compute; reflexivity).
  split; [exact H |]. split; [vm_compute; reflexivity |].
  exact (proj1 (proj2 (@fist_is_open_palm_only_by_backup Scenes.halfClosedHand H))).
Defined.

(** *** Grip and throw *)

Lemma removeSpear_length (i : Z) (l : list Spear.Data) :
  (List.length (App.removeSpear i l) <= List.length l)%nat.
Proof.
  unfold App.removeSpear. induction l as [| s l IH]; simpl; [lia |].
  destruct (negb _); simpl; lia.
Qed.

(** X26.  One grip, one throw.  While the hand game is in [THROWING] no
    event adds a spear, and the state can be left only towards [IDLE] (by
    the 500 ms timeout or a restart): the hand has to close again before
    the next throw.  There is no cooldown here; the grip is the limit. *)
Theorem throwing_blocks_the_next_throw (st st' : HandGame.State) (e : HandGame.Event) :
  HandGame.spearState st = THROWING ->
  HandGame.run st e = Some st' ->
  (List.length (HandGame.thrownSpears st') <= List.length (HandGame.thrownSpears st))%nat
  /\ (HandGame.spearState st' = THROWING \/ HandGame.spearState st' = IDLE).
Proof.
  intros Hs Hr. destruct e; simpl in Hr.
  - unfold HandGame.handEffect in Hr. rewrite Hs in Hr.
    destruct handLandmarks as [l |]; [| inversion Hr; subst; auto].
    destruct (isReady && negb (HandGame.isPaused st) && negb (HandGame.isGameOver st));
      [| inversion Hr; subst; auto].
    destruct (nth_error l 9); [| discriminate].
    cbn [SPEAR_STATES_eqb] in Hr. rewrite !andb_false_r in Hr.
    inversion Hr; subst; auto.
  - inversion Hr; subst. unfold HandGame.powerTick.
    destruct (_ || _); [auto |].
    destruct (100 <=? _)%Z; [| destruct (_ <=? 0)%Z]; simpl; auto.
  - inversion Hr; subst. unfold HandGame.spawnTick.
    destruct (_ || _); simpl; auto.
  - inversion Hr; subst. unfold HandGame.handleTogglePause.
    destruct (negb _); simpl; auto.
  - inversion Hr; subst. simpl. split; [lia | auto].
  - inversion Hr; subst. simpl. auto.
  - inversion Hr; subst. unfold HandGame.handleAnimalReachPlayer.
    destruct (_ <=? 0)%Z; simpl; auto.
  - inversion Hr; subst. unfold HandGame.handleAnimalHit.
    destruct (negb _); simpl; auto. split; [apply removeSpear_length | auto].
  - inversion Hr; subst. simpl. auto.
  - inversion Hr; subst. simpl. auto.
  - inversion Hr; subst. simpl. auto.
  - destruct (nth_error (HandGame.timeouts st) k) as [[t ms] |];
      [| inversion Hr; subst; auto].
    inversion Hr; subst. destruct t; simpl; auto.
    + split; [apply removeSpear_length | auto].
    + unfold HandGame.handleAnimalHit.
      destruct (negb _); simpl; auto. split; [apply removeSpear_length | auto].
  - inversion Hr; subst. simpl. auto.
Qed.

Lemma throwing_blocks_witness :
  HandGame.run Scenes.justThrown
               (HandGame.HandEffect (Some Scenes.halfClosedHand) true 1066)
  = Some Scenes.justThrown
  /\ (List.length (HandGame.thrownSpears Scenes.justThrown)
      <= List.length (HandGame.thrownSpears Scenes.justThrown))%nat.
Proof.
  assert (H : HandGame.run Scenes.justThrown
                (HandGame.HandEffect (Some Scenes.halfClosedHand) true 1066)
              = Some Scenes.justThrown) by reflexivity.
  split; [exact H |].
  exact (proj1 (@throwing_blocks_the_next_throw Scenes.justThrown Scenes.justThrown
                  (HandGame.HandEffect (Some Scenes.halfClosedHand) true 1066)
                  eq_refl H)).
Defined.

(** X27.  The hand game never takes an animal out of the registry.
    Arrival only costs health and a kill only scores: whatever event
    runs, short of a restart, the animals registered before are still
    registered afterwards, in the same order, with at most new ones
    behind them. *)
Theorem hand_game_never_removes_an_animal (st st' : HandGame.State)
        (e : HandGame.Event) :
  e <> HandGame.Restart ->
  HandGame.run st e = Some st' ->
  exists new, HandGame.animals st' = HandGame.animals st ++ new.
Proof.
  intros Hn Hr.
  assert (Same : forall s, HandGame.animals s = HandGame.animals st ->
                            exists new, HandGame.animals s = HandGame.animals st ++ new).
  { intros s ->. exists []. now rewrite app_nil_r. }
  destruct e; simpl in Hr; try congruence.
  - apply Same. unfold HandGame.handEffect in Hr.
    destruct handLandmarks as [l |]; [| now inversion Hr].
    destruct (isReady && negb (HandGame.isPaused st) && negb (HandGame.isGameOver st));
      [| now inversion Hr].
    destruct (nth_error l 9); [| discriminate].
    destruct (HandGame.detectFist (Some l)), (HandGame.detectOpenPalm (Some l)),
             (HandGame.spearState st), (HandGame.handPosition st);
      cbn [andb SPEAR_STATES_eqb] in Hr; inversion Hr; reflexivity.
  - apply Same. inversion Hr; subst. unfold HandGame.powerTick.
    destruct (_ || _); [reflexivity |].
    destruct (100 <=? _)%Z; [| destruct (_ <=? 0)%Z]; reflexivity.
  - inversion Hr; subst. unfold HandGame.spawnTick.
    destruct (_ || _); [apply Same; reflexivity |]. simpl. eexists. reflexivity.
  - apply Same. inversion Hr; subst. unfold HandGame.handleTogglePause.
    destruct (negb _); reflexivity.
  - apply Same. inversion Hr; reflexivity.
  - apply Same. inversion Hr; subst. unfold HandGame.handleAnimalReachPlayer.
    destruct (_ <=? 0)%Z; reflexivity.
  - apply Same. inversion Hr; subst. unfold HandGame.handleAnimalHit.
    destruct (negb _); reflexivity.
  - apply Same. inversion Hr; reflexivity.
  - apply Same. inversion Hr; reflexivity.
  - apply Same. inversion Hr; reflexivity.
  - apply Same.
    destruct (nth_error (HandGame.timeouts st) k) as [[t ms] |]; [| now inversion Hr].
    inversion Hr; subst. destruct t; simpl; try reflexivity.
    unfold HandGame.handleAnimalHit. destruct (negb _); reflexivity.
  - apply Same. inversion Hr; reflexivity.
Qed.

Lemma hand_game_keeps_animals_witness :
  HandGame.animals Scenes.handUnderAttack = [Scenes.handCheetah; Scenes.handCheetahTwin]
  /\ exists new,
       HandGame.animals (HandGame.handleAnimalReachPlayer 25 Scenes.handUnderAttack)
       = HandGame.animals Scenes.handUnderAttack ++ new.
Proof.
  assert (Hn : HandGame.AnimalReachPlayer 25 <> HandGame.Restart) by discriminate.
  split; [reflexivity |].
  exact (@hand_game_never_removes_an_animal Scenes.handUnderAttack _
           (HandGame.AnimalReachPlayer 25) Hn eq_refl).
Defined.
